(** * Sonarr MCP server: the response-shaping rules of sonarr-mcp-server.py

    A shallow embedding of the tool handlers of [sonarr-mcp-server.py] and of
    the Python values they work on, followed by the properties of the
    handlers.

    - [Py]      Python values as the handlers see them (the documents that
                [json.loads] builds, and the dictionaries the handlers build),
                with the built-in operations the handlers apply to them.
    - [Dates]   the part of [datetime] that [get_calendar] uses.
    - [Sonarr]  the upstream client and the handlers, over a transport and
                a clock that are parameters of the development.

    The properties come after the three modules: facts about the values
    ([PyFacts], [StrOrder]) and about dates ([DateFacts], [CalendarArith]),
    then the handlers ([ServerFacts], [CalendarFacts], [RangeFacts],
    [ErrorChannel], [Tolerance]), each with its examples on a scripted
    upstream; then what the handlers send ([Traffic], [ToolTraffic]) and
    what the remaining handlers and the resources return ([ToolResults],
    [Details], [Commands], [CalendarCounts]). *)

From Stdlib Require Import ZArith NArith List Bool String Ascii Floats Lia.
From Stdlib Require Import DecimalString Sorted Permutation.
Import ListNotations.

Local Open Scope Z_scope.

(* ===================================================================== *)
(** * Python values *)
(* ===================================================================== *)

Module Py.

(** A Python [str] is a sequence of code points. *)
Definition pystr := list N.

(** A literal of the source, character by character. *)
Definition py (s : string) : pystr :=
  List.map N_of_ascii (list_ascii_of_string s).

(** The hashable scalars: what a JSON scalar decodes to, and what may key a
    dictionary. *)
Inductive atom :=
| ANone
| ABool (b : bool)
| AInt (z : Z)
| AFloat (f : float)
| AStr (s : pystr).

(** A value: a scalar, a [list], or a [dict] in insertion order. *)
#[warnings="-register-all"]
Inductive value :=
| Atom (a : atom)
| PList (l : list value)
| PDict (d : list (atom * value)).

Definition VNone : value := Atom ANone.
Definition VBool (b : bool) : value := Atom (ABool b).
Definition VInt (z : Z) : value := Atom (AInt z).
Definition VFloat (f : float) : value := Atom (AFloat f).
Definition VStr (s : pystr) : value := Atom (AStr s).

(** A string-keyed dictionary display [{"k": v, ...}]. *)
Definition obj (fields : list (string * value)) : value :=
  PDict (List.map (fun kv => (AStr (py (fst kv)), snd kv)) fields).

(** The exceptions a handler can meet.  For the ones the interpreter raises
    only the class is kept: every handler catches [Exception] and never
    looks at the class, and the message text is CPython's. *)
Inductive exn :=
| TypeError
| AttributeError
| KeyError
| IndexError
| OverflowError
| ZeroDivisionError
| ValueError
| TimeoutError
| ClientError (cause : pystr)      (* aiohttp.ClientError, str(e) = cause *)
| PyException (msg : pystr).       (* raise Exception(msg) *)

(** The outcome of evaluating an expression. *)
Inductive res (A : Type) :=
| Ok (a : A)
| Raise (e : exn).
Arguments Ok {A} a.
Arguments Raise {A} e.

Definition rbind {A B} (r : res A) (k : A -> res B) : res B :=
  match r with
  | Ok a => k a
  | Raise e => Raise e
  end.

Declare Scope res_scope.
Delimit Scope res_scope with res.
Notation "x <- r ;; k" := (rbind r (fun x => k))
  (at level 61, r at next level, right associativity) : res_scope.

(** A comprehension or [for] loop whose body may raise: left to right, the
    first exception ends it. *)
Fixpoint rmap {A B} (f : A -> res B) (l : list A) : res (list B) :=
  match l with
  | [] => Ok []
  | x :: l' =>
      (y <- f x ;; ys <- rmap f l' ;; Ok (y :: ys))%res
  end.

(** A test that may raise, read as a plain test: false where it raises. *)
Definition holds {A} (p : A -> res bool) (x : A) : bool :=
  match p x with
  | Ok b => b
  | Raise _ => false
  end.

(** [[x for x in l if p(x)]] where the test may raise. *)
Fixpoint rfilter {A} (p : A -> res bool) (l : list A) : res (list A) :=
  match l with
  | [] => Ok []
  | x :: l' =>
      (b <- p x ;; ys <- rfilter p l' ;; Ok (if b then x :: ys else ys))%res
  end.

(* --------------------------------------------------------------------- *)
(** ** Strings *)

Fixpoint str_eqb (a b : pystr) : bool :=
  match a, b with
  | [], [] => true
  | x :: a', y :: b' => N.eqb x y && str_eqb a' b'
  | _, _ => false
  end.

(** [a < b] on [str]: by code point, a proper prefix first. *)
Fixpoint str_ltb (a b : pystr) : bool :=
  match a, b with
  | _, [] => false
  | [], _ :: _ => true
  | x :: a', y :: b' =>
      if N.ltb x y then true
      else if N.eqb x y then str_ltb a' b'
      else false
  end.

(** [s.lstrip('/')] *)
Fixpoint lstrip_slash (s : pystr) : pystr :=
  match s with
  | c :: s' => if N.eqb c 47 then lstrip_slash s' else s
  | [] => []
  end.

(** [str(n)] for an [int]. *)
Definition str_of_int (z : Z) : pystr :=
  py (NilZero.string_of_int (Z.to_int z)).

(** [needle in s] for two strings: [needle] starts [s], or occurs further
    on. *)
Fixpoint starts_with (needle s : pystr) : bool :=
  match needle, s with
  | [], _ => true
  | x :: n', y :: s' => N.eqb x y && starts_with n' s'
  | _ :: _, [] => false
  end.

Fixpoint contains (needle s : pystr) : bool :=
  starts_with needle s ||
  match s with
  | [] => false
  | _ :: s' => contains needle s'
  end.

(** [s.upper()].  The code points below are all those whose upper-case form
    is made of ASCII letters only; any other code point is left in place
    and stands for its upper-case form, which is not ASCII.  That decides
    every comparison of [s.upper()] with an ASCII word as CPython does. *)
Definition upper_char (c : N) : pystr :=
  if (N.leb 97 c && N.leb c 122)%bool then [N.sub c 32]   (* a-z *)
  else if N.eqb c 223 then [83; 83]%N                     (* U+00DF -> SS *)
  else if N.eqb c 305 then [73]%N                         (* U+0131 -> I *)
  else if N.eqb c 383 then [83]%N                         (* U+017F -> S *)
  else if N.eqb c 64256 then [70; 70]%N                   (* U+FB00 -> FF *)
  else if N.eqb c 64257 then [70; 73]%N                   (* U+FB01 -> FI *)
  else if N.eqb c 64258 then [70; 76]%N                   (* U+FB02 -> FL *)
  else if N.eqb c 64259 then [70; 70; 73]%N               (* U+FB03 -> FFI *)
  else if N.eqb c 64260 then [70; 70; 76]%N               (* U+FB04 -> FFL *)
  else if N.eqb c 64261 then [83; 84]%N                   (* U+FB05 -> ST *)
  else if N.eqb c 64262 then [83; 84]%N                   (* U+FB06 -> ST *)
  else [c].

Definition upper (s : pystr) : pystr := List.flat_map upper_char s.

(* --------------------------------------------------------------------- *)
(** ** Numbers

    [bool] is a subclass of [int]; [int] is unbounded; [float] is binary64
    (the kernel's primitive floats). *)

(** The integer an [int] or [bool] stands for. *)
Definition as_int (a : atom) : option Z :=
  match a with
  | ABool b => Some (if b then 1 else 0)
  | AInt z => Some z
  | _ => None
  end.

(** [float(z)] for an [int]: to nearest, ties to even; too large raises. *)
Definition float_of_int (z : Z) : res float :=
  let f := SF2Prim (binary_normalize 53 1024 z 0 false) in
  if PrimFloat.is_infinity f then Raise OverflowError else Ok f.

(** The operand of a float operation. *)
Definition as_float (a : atom) : option (res float) :=
  match a with
  | AFloat f => Some (Ok f)
  | _ => option_map float_of_int (as_int a)
  end.

(** A finite float as [m * 2^e], exactly. *)
Definition float_exact (f : float) : option (Z * Z) :=
  match Prim2SF f with
  | S754_zero _ => Some (0, 0)
  | S754_finite s m e => Some (if s then Z.neg m else Z.pos m, e)
  | _ => None
  end.

(** [z ? f] for an [int] and a [float], compared as numbers; [None] when
    [f] is a NaN. *)
Definition compare_int_float (z : Z) (f : float) : option comparison :=
  if PrimFloat.is_nan f then None
  else match float_exact f with
       | Some (m, e) =>
           Some (if 0 <=? e then Z.compare z (m * 2 ^ e)
                 else Z.compare (z * 2 ^ (- e)) m)
       | None =>  (* an infinity *)
           Some (if PrimFloat.ltb 0 f then Lt else Gt)
       end.

(** The comparison of two numbers; [None] when unordered (a NaN) or when
    an operand is not a number. *)
Definition num_compare (a b : atom) : option (option comparison) :=
  match as_int a, as_int b, a, b with
  | Some x, Some y, _, _ => Some (Some (Z.compare x y))
  | Some x, None, _, AFloat g => Some (compare_int_float x g)
  | None, Some y, AFloat f, _ => Some (option_map CompOpp (compare_int_float y f))
  | None, None, AFloat f, AFloat g =>
      Some (if PrimFloat.ltb f g then Some Lt
            else if PrimFloat.eqb f g then Some Eq
            else if PrimFloat.ltb g f then Some Gt
            else None)
  | _, _, _, _ => None
  end.

(** [a == b] on scalars. *)
Definition atom_eqb (a b : atom) : bool :=
  match a, b with
  | ANone, ANone => true
  | AStr s, AStr t => str_eqb s t
  | _, _ =>
      match num_compare a b with
      | Some (Some Eq) => true
      | _ => false
      end
  end.

(** [v == a] for a value and a scalar: a container equals no scalar. *)
Definition eq_atom (v : value) (a : atom) : bool :=
  match v with
  | Atom x => atom_eqb x a
  | _ => false
  end.

(** Whether two scalars are the same dictionary key: equal, or both the
    NaN of the decoder (one object, found by identity). *)
Definition key_eqb (a b : atom) : bool :=
  atom_eqb a b ||
  match a, b with
  | AFloat f, AFloat g => PrimFloat.is_nan f && PrimFloat.is_nan g
  | _, _ => false
  end.

(** [a < b] on scalars: defined inside [str] and inside the numbers. *)
Definition atom_lt (a b : atom) : res bool :=
  match a, b with
  | AStr s, AStr t => Ok (str_ltb s t)
  | _, _ =>
      match num_compare a b with
      | Some (Some Lt) => Ok true
      | Some _ => Ok false
      | None => Raise TypeError
      end
  end.

(** [a > b] where one operand is a scalar (containers are ordered among
    themselves only). *)
Definition py_gt (a b : value) : res bool :=
  match a, b with
  | Atom x, Atom y => atom_lt y x
  | _, _ => Raise TypeError
  end.

(** [max(a, b)]: [b] when [b > a], else [a]. *)
Definition py_max (a b : value) : res value :=
  (g <- py_gt b a ;; Ok (if g then b else a))%res.

(** [a - b]. *)
Definition py_sub (a b : value) : res value :=
  match a, b with
  | Atom x, Atom y =>
      match as_int x, as_int y with
      | Some m, Some n => Ok (VInt (m - n))
      | _, _ =>
          match as_float x, as_float y with
          | Some rf, Some rg =>
              (f <- rf ;; g <- rg ;; Ok (VFloat (PrimFloat.sub f g)))%res
          | _, _ => Raise TypeError
          end
      end
  | _, _ => Raise TypeError
  end.

(** [m / n] for two [int]s: the quotient to nearest, ties to even; too
    large raises. *)
Definition int_true_divide (m n : Z) : res float :=
  match m, n with
  | _, Z0 => Raise ZeroDivisionError
  | Z0, _ => Ok (if n <? 0 then PrimFloat.opp 0%float else 0%float)
  | _, _ =>
      let q := SF2Prim (SFdiv 53 1024
                          (S754_finite (m <? 0) (Z.to_pos (Z.abs m)) 0)
                          (S754_finite (n <? 0) (Z.to_pos (Z.abs n)) 0)) in
      if PrimFloat.is_infinity q then Raise OverflowError else Ok q
  end.

(** [a / b]: always a [float]. *)
Definition py_truediv (a b : value) : res float :=
  match a, b with
  | Atom x, Atom y =>
      match as_int x, as_int y with
      | Some m, Some n => int_true_divide m n
      | _, _ =>
          match as_float x, as_float y with
          | Some rf, Some rg =>
              (f <- rf ;; g <- rg ;;
               if PrimFloat.eqb g 0 then Raise ZeroDivisionError
               else Ok (PrimFloat.div f g))%res
          | _, _ => Raise TypeError
          end
      end
  | _, _ => Raise TypeError
  end.

(** [n / 2^k] rounded to an integer, ties to even. *)
Definition round_half_even_shift (n k : Z) : Z :=
  let q := Z.shiftr n k in
  let r := n - Z.shiftl q k in
  let h := Z.shiftl 1 (k - 1) in
  if r <? h then q
  else if h <? r then q + 1
  else if Z.even q then q else q + 1.

(** [round(x, 2)] of a [float]: a NaN, an infinity and an integral value
    round to themselves; otherwise the exact value is rounded to two
    decimals, ties to even, and the decimal is read back to the nearest
    float. *)
Definition round2 (x : float) : float :=
  match Prim2SF x with
  | S754_finite s m e =>
      if 0 <=? e then x
      else
        match round_half_even_shift (Z.pos m * 100) (- e) with
        | Zpos n =>
            SF2Prim (SFdiv 53 1024 (S754_finite s n 0) (S754_finite false 100 0))
        | _ => if s then PrimFloat.opp 0%float else 0%float
        end
  | _ => x
  end.

(* --------------------------------------------------------------------- *)
(** ** Built-ins on values *)

(** Truth value: [bool(v)]. *)
Definition truthy (v : value) : bool :=
  match v with
  | Atom ANone => false
  | Atom (ABool b) => b
  | Atom (AInt z) => negb (z =? 0)
  | Atom (AFloat f) => negb (PrimFloat.eqb f 0)
  | Atom (AStr s) => negb (Nat.eqb (List.length s) 0)
  | PList l => negb (Nat.eqb (List.length l) 0)
  | PDict d => negb (Nat.eqb (List.length d) 0)
  end.

(** [len(v)]. *)
Definition len (v : value) : res Z :=
  match v with
  | Atom (AStr s) => Ok (Z.of_nat (List.length s))
  | PList l => Ok (Z.of_nat (List.length l))
  | PDict d => Ok (Z.of_nat (List.length d))
  | _ => Raise TypeError
  end.

(** [v[:n]] for a literal [n >= 0].  A [dict] takes no slice ([TypeError];
    [KeyError] from Python 3.12 on). *)
Definition slice_to (n : nat) (v : value) : res value :=
  match v with
  | Atom (AStr s) => Ok (VStr (firstn n s))
  | PList l => Ok (PList (firstn n l))
  | _ => Raise TypeError
  end.

(** [a + b]: concatenation of two [str]s or two [list]s, or the sum of two
    numbers. *)
Definition py_add (a b : value) : res value :=
  match a, b with
  | Atom (AStr s), Atom (AStr t) => Ok (VStr (s ++ t))
  | PList l, PList k => Ok (PList (l ++ k))
  | Atom x, Atom y =>
      match as_int x, as_int y with
      | Some m, Some n => Ok (VInt (m + n))
      | _, _ =>
          match as_float x, as_float y with
          | Some rf, Some rg =>
              (f <- rf ;; g <- rg ;; Ok (VFloat (PrimFloat.add f g)))%res
          | _, _ => Raise TypeError
          end
      end
  | _, _ => Raise TypeError
  end.

(** The first binding of a key. *)
Fixpoint lookup (k : atom) (d : list (atom * value)) : option value :=
  match d with
  | [] => None
  | (k', v) :: d' => if key_eqb k' k then Some v else lookup k d'
  end.

(** [v.get(k, default)]: only a [dict] has the method. *)
Definition get_or (v : value) (k : string) (default : value) : res value :=
  match v with
  | PDict d =>
      Ok (match lookup (AStr (py k)) d with
          | Some x => x
          | None => default
          end)
  | _ => Raise AttributeError
  end.

(** [v.get(k)] *)
Definition get (v : value) (k : string) : res value := get_or v k VNone.

(** The element at index [i] of a sequence, negative indices from the
    end. *)
Definition index {A} (l : list A) (i : Z) : res A :=
  let n := Z.of_nat (List.length l) in
  let j := if i <? 0 then i + n else i in
  if (0 <=? j) && (j <? n) then
    match nth_error l (Z.to_nat j) with
    | Some x => Ok x
    | None => Raise IndexError
    end
  else Raise IndexError.

(** [v[k]] for a scalar [k]. *)
Definition subscript (v : value) (k : atom) : res value :=
  match v with
  | PDict d =>
      match lookup k d with
      | Some x => Ok x
      | None => Raise KeyError
      end
  | PList l =>
      match as_int k with
      | Some i => index l i
      | None => Raise TypeError
      end
  | Atom (AStr s) =>
      match as_int k with
      | Some i => (c <- index s i ;; Ok (VStr [c]))%res
      | None => Raise TypeError
      end
  | _ => Raise TypeError
  end.

(** What [for x in v] goes through: the elements of a [list], the keys of
    a [dict], the characters of a [str]. *)
Definition iter (v : value) : res (list value) :=
  match v with
  | PList l => Ok l
  | PDict d => Ok (List.map (fun kv => Atom (fst kv)) d)
  | Atom (AStr s) => Ok (List.map (fun c => VStr [c]) s)
  | _ => Raise TypeError
  end.

(** [sorted(d.items())]: the items in ascending order.  Two items are
    compared as tuples, so by their keys, which differ; the values are never
    compared.  Any stable sort by [<] is the list CPython returns when [<]
    orders the keys, and raises [TypeError] exactly when CPython does: when
    two keys are not of one kind. A NaN key is the one case left out. *)
Fixpoint insert_item (x : atom * value) (l : list (atom * value))
  : res (list (atom * value)) :=
  match l with
  | [] => Ok [x]
  | y :: l' =>
      (b <- atom_lt (fst x) (fst y) ;;
       if b then Ok (x :: y :: l')
       else (r <- insert_item x l' ;; Ok (y :: r)))%res
  end.

Fixpoint sorted_items (l : list (atom * value)) : res (list (atom * value)) :=
  match l with
  | [] => Ok []
  | x :: l' => (s <- sorted_items l' ;; insert_item x s)%res
  end.

End Py.

(* ===================================================================== *)
(** * Dates *)
(* ===================================================================== *)

(** The part of [datetime] behind [datetime.now() - timedelta(days=7)] and
    [strftime("%Y-%m-%d")].  A [datetime] is kept as its proleptic Gregorian
    ordinal ([toordinal()], day 1 is 0001-01-01) and its time of day; the
    conversions are CPython's. *)
Module Dates.
Import Py.

Record datetime := { toordinal : Z; microsecond_of_day : Z }.

(** [date.max.toordinal()], the ordinal of 9999-12-31. *)
Definition MAXORDINAL : Z := 3652059.

(** [t + timedelta(days=k)]: the day moves, the time of day stays; a day
    outside [1 .. MAXORDINAL] is "date value out of range". *)
Definition add_days (t : datetime) (k : Z) : res datetime :=
  let o := toordinal t + k in
  if (1 <=? o) && (o <=? MAXORDINAL)
  then Ok {| toordinal := o; microsecond_of_day := microsecond_of_day t |}
  else Raise OverflowError.

Definition is_leap (y : Z) : bool :=
  (y mod 4 =? 0) && (negb (y mod 100 =? 0) || (y mod 400 =? 0)).

(** The tables [_DAYS_IN_MONTH] and [_DAYS_BEFORE_MONTH] of a common year,
    months from 1. *)
Definition DAYS_IN_MONTH (m : Z) : Z :=
  nth (Z.to_nat m) [0; 31; 28; 31; 30; 31; 30; 31; 31; 30; 31; 30; 31] 0.

Definition DAYS_BEFORE_MONTH (m : Z) : Z :=
  nth (Z.to_nat m) [0; 0; 31; 59; 90; 120; 151; 181; 212; 243; 273; 304; 334] 0.

(** Days of the year before the first of month [m]. *)
Definition days_before_month (y m : Z) : Z :=
  DAYS_BEFORE_MONTH m + (if (2 <? m) && is_leap y then 1 else 0).

(** Days before January 1st of year [y]. *)
Definition days_before_year (y : Z) : Z :=
  let p := y - 1 in p * 365 + p / 4 - p / 100 + p / 400.

(** The ordinal of year [y], month [m], day [d]. *)
Definition ymd2ord (y m d : Z) : Z :=
  days_before_year y + days_before_month y m + d.

(** Month and day of the day [n] of a year, counted from 0: the month from
    an estimate that is right or one too large. *)
Definition month_and_day (leapyear : bool) (n : Z) : Z * Z :=
  let month := Z.shiftr (n + 50) 5 in
  let preceding :=
    DAYS_BEFORE_MONTH month + (if (2 <? month) && leapyear then 1 else 0) in
  if n <? preceding then
    let month' := month - 1 in
    let preceding' :=
      preceding - (DAYS_IN_MONTH month'
                   + (if (month' =? 2) && leapyear then 1 else 0)) in
    (month', n - preceding' + 1)
  else (month, n - preceding + 1).

(** Year, month and day of an ordinal ([_ord2ymd]): the 400-, 100-, 4- and
    1-year cycles, then the month and the day. *)
Definition ord2ymd (ordinal : Z) : Z * Z * Z :=
  let n := ordinal - 1 in
  let n400 := n / 146097 in
  let n := n mod 146097 in
  let n100 := n / 36524 in
  let n := n mod 36524 in
  let n4 := n / 1461 in
  let n := n mod 1461 in
  let n1 := n / 365 in
  let n := n mod 365 in
  let year := n400 * 400 + 1 + n100 * 100 + n4 * 4 + n1 in
  if (n1 =? 4) || (n100 =? 4) then (year - 1, 12, 31)
  else
    let leapyear := (n1 =? 3) && (negb (n4 =? 24) || (n100 =? 3)) in
    let '(month, day) := month_and_day leapyear n in
    (year, month, day).

(** Whether [month_and_day] is right on the day [n] of a year: a month and
    a day of the month that make up that day. *)
Definition month_and_day_ok (leap : bool) (n : Z) : bool :=
  let '(m, d) := month_and_day leap n in
  (1 <=? m) && (m <=? 12) && (1 <=? d) && (d <=? 31)
  && (DAYS_BEFORE_MONTH m + (if (2 <? m) && leap then 1 else 0) + d =? n + 1).

(** A number below 100 on two digits, a number below 10000 on four. *)
Definition digit (d : Z) : N := Z.to_N (48 + d).

Definition two_digits (n : Z) : pystr := [digit (n / 10); digit (n mod 10)].

Definition four_digits (n : Z) : pystr :=
  [digit (n / 1000); digit (n / 100 mod 10); digit (n / 10 mod 10);
   digit (n mod 10)].

(** [t.strftime("%Y-%m-%d")], for a year of four digits. *)
Definition strftime_ymd (t : datetime) : pystr :=
  let '(y, m, d) := ord2ymd (toordinal t) in
  four_digits y ++ [45%N] ++ two_digits m ++ [45%N] ++ two_digits d.

(** The shape [YYYY-MM-DD] of an air date and the date it names. *)
Definition is_digit (c : N) : bool := N.leb 48 c && N.leb c 57.

Definition is_iso_date (s : pystr) : bool :=
  match s with
  | [y1; y2; y3; y4; h1; m1; m2; h2; d1; d2] =>
      is_digit y1 && is_digit y2 && is_digit y3 && is_digit y4
      && N.eqb h1 45 && is_digit m1 && is_digit m2
      && N.eqb h2 45 && is_digit d1 && is_digit d2
  | _ => false
  end.

Definition digit_value (c : N) : Z := Z.of_N c - 48.

(** Year, month and day of an ISO date. *)
Definition iso_ymd (s : pystr) : Z * Z * Z :=
  match s with
  | [y1; y2; y3; y4; _; m1; m2; _; d1; d2] =>
      (digit_value y1 * 1000 + digit_value y2 * 100
       + digit_value y3 * 10 + digit_value y4,
       digit_value m1 * 10 + digit_value m2,
       digit_value d1 * 10 + digit_value d2)
  | _ => (0, 0, 0)
  end.

(** The ordinal of the date an ISO date names. *)
Definition iso_ordinal (s : pystr) : Z :=
  let '(y, m, d) := iso_ymd s in ymd2ord y m d.

(** Calendar order: by year, then month, then day. *)
Definition date_lt (a b : Z * Z * Z) : Prop :=
  let '(y, m, d) := a in
  let '(y', m', d') := b in
  y < y' \/ (y = y' /\ (m < m' \/ (m = m' /\ d < d'))).

(** Whether the day that [month_and_day] gives is a day of its month. *)
Definition month_and_day_in_month (leap : bool) (n : Z) : bool :=
  let '(m, d) := month_and_day leap n in
  d <=? DAYS_IN_MONTH m + (if (m =? 2) && leap then 1 else 0).

(** The number of days of month [m] of year [y]. *)
Definition days_in_month (y m : Z) : Z :=
  match m with
  | 1 | 3 | 5 | 7 | 8 | 10 | 12 => 31
  | 4 | 6 | 9 | 11 => 30
  | 2 => if is_leap y then 29 else 28
  | _ => 0
  end.

(** [y]-[m]-[d] is the date of the day [ordinal]: a month of the year, a
    day of that month, and that many days from 0001-01-01. *)
Definition is_date_of (ordinal y m d : Z) : Prop :=
  1 <= m <= 12 /\ 1 <= d <= days_in_month y m /\ ymd2ord y m d = ordinal.

(** The text [YYYY-MM-DD] of a date whose year has four digits. *)
Definition iso_text (y m d : Z) : pystr :=
  [Z.to_N (48 + y / 1000); Z.to_N (48 + y / 100 mod 10);
   Z.to_N (48 + y / 10 mod 10); Z.to_N (48 + y mod 10);
   45%N;
   Z.to_N (48 + m / 10); Z.to_N (48 + m mod 10);
   45%N;
   Z.to_N (48 + d / 10); Z.to_N (48 + d mod 10)].

End Dates.

(* ===================================================================== *)
(** * The server *)
(* ===================================================================== *)

Module Sonarr.
Import Py Dates.
Local Open Scope string_scope.
Local Open Scope list_scope.
Local Open Scope Z_scope.

(** ** Requests, logging, results *)

(** The four session calls of [make_api_request]. *)
Inductive verb := GET | POST | PUT | DELETE.

(** What is handed to the session: [session.get(url, headers=headers)],
    [session.post(url, headers=headers, json=data)], ... *)
Record request := {
  req_verb : verb;
  req_url : pystr;
  req_headers : list (pystr * pystr);
  req_json : option value
}.

Inductive level := DEBUG | INFO | ERROR.

(** A value interpolated in a log line. *)
Inductive logarg :=
| LogValue (v : value)
| LogExn (e : exn).

(** What a call leaves behind, in order: the exchanges with the upstream
    service (the request and its outcome) and the lines handed to the logger
    (the text of the f-string with a hole [{}] for each interpolated value,
    and those values). *)
Inductive event :=
| Exchange (r : request) (outcome : res value)
| Logged (lvl : level) (template : string) (args : list logarg).

(** The exchanges of a trace, in order, and their requests. *)
Fixpoint exchanges (tr : list event) : list (request * res value) :=
  match tr with
  | [] => []
  | Exchange r outcome :: tr' => (r, outcome) :: exchanges tr'
  | Logged _ _ _ :: tr' => exchanges tr'
  end.

Definition requests (tr : list event) : list request :=
  List.map fst (exchanges tr).

(** The [error] field of a result: a message of the handler, or [str(e)]
    of an exception the interpreter raised. *)
Inductive error_text :=
| Message (text : pystr)
| StrOf (e : exn).

(** The document a tool returns: [{"status": "success", "data": data}] or
    [{"error": err}]. *)
Inductive tool_result :=
| Success (data : value)
| Error (err : error_text).

(** [str(e)] *)
Definition str_exn (e : exn) : error_text :=
  match e with
  | PyException msg => Message msg
  | ClientError cause => Message cause
  | _ => StrOf e
  end.

Definition opt_bool (b : option bool) : value :=
  match b with Some x => VBool x | None => VNone end.

Definition opt_str (s : option pystr) : value :=
  match s with Some x => VStr x | None => VNone end.

Definition opt_int (z : option Z) : value :=
  match z with Some x => VInt x | None => VNone end.

(** [s.rstrip('/')] *)
Definition rstrip_slash (s : pystr) : pystr :=
  List.rev (lstrip_slash (List.rev s)).

(** The number of items of a list the handler built. *)
Definition count {A} (l : list A) : value := VInt (Z.of_nat (List.length l)).

(** What the server runs against: the configuration read from the
    environment at start-up, the upstream service behind aiohttp, the clock,
    and two functions of the interpreter and its library. *)
Class Service := {
  ENV_SONARR_URL : pystr;
  SONARR_API_KEY : pystr;
  (** The state of the upstream service, and the outcome of one exchange:
      the body decoded by [response.json()], or the exception of the
      connection, of [raise_for_status()] or of the decoding. *)
  upstream : Type;
  transport : request -> upstream -> res value * upstream;
  (** [datetime.now()] *)
  clock : upstream -> datetime * upstream;
  (** [str(v)] of a float, a list or a dict: CPython's text. *)
  repr_ : value -> pystr;
  (** [urllib.parse.quote] *)
  quote : pystr -> pystr
}.

Section Server.

Context {svc : Service}.

Definition SONARR_URL : pystr := rstrip_slash ENV_SONARR_URL.
Definition API_BASE : pystr := SONARR_URL ++ py "/api/v3".

(** ** Effects *)

Record world := { outside : upstream; trace : list event }.

(** A computation that reaches the outside world and may raise. *)
Definition M (A : Type) : Type := world -> res A * world.

Definition ret {A} (a : A) : M A := fun w => (Ok a, w).

Definition raise {A} (e : exn) : M A := fun w => (Raise e, w).

Definition bind {A B} (m : M A) (k : A -> M B) : M B :=
  fun w =>
    match m w with
    | (Ok a, w') => k a w'
    | (Raise e, w') => (Raise e, w')
    end.

(** A pure step that may raise. *)
Definition lift {A} (r : res A) : M A := fun w => (r, w).

(** [try: body  except ...: handler] *)
Definition try_except {A} (body : M A) (handler : exn -> M A) : M A :=
  fun w =>
    match body w with
    | (Ok a, w') => (Ok a, w')
    | (Raise e, w') => handler e w'
    end.

Definition emit (e : event) : M unit :=
  fun w => (Ok tt, {| outside := outside w; trace := trace w ++ [e] |}).

Definition logger (lvl : level) (template : string) (args : list logarg)
  : M unit :=
  emit (Logged lvl template args).

(** One exchange with the upstream service. *)
Definition send (r : request) : M value :=
  fun w =>
    let '(out, u) := transport r (outside w) in
    (out, {| outside := u; trace := trace w ++ [Exchange r out] |}).

Definition now : M datetime :=
  fun w =>
    let '(t, u) := clock (outside w) in
    (Ok t, {| outside := u; trace := trace w |}).

(** One call of a tool: the trace starts empty. *)
Definition run {A} (m : M A) (u : upstream) : res A * world :=
  m {| outside := u; trace := [] |}.

Declare Scope m_scope.
Delimit Scope m_scope with M.
Notation "x <- m ;; k" := (bind m (fun x => k))
  (at level 61, m at next level, right associativity) : m_scope.
Notation "m ;;; k" := (bind m (fun _ => k))
  (at level 61, right associativity) : m_scope.
Local Open Scope m_scope.

(** [str(v)] in an f-string. *)
Definition str_ (v : value) : pystr :=
  match v with
  | Atom (AStr s) => s
  | Atom (AInt z) => str_of_int z
  | Atom (ABool true) => py "True"
  | Atom (ABool false) => py "False"
  | Atom ANone => py "None"
  | _ => repr_ v
  end.

(** ** The upstream client *)

(** [f"{API_BASE}/{endpoint.lstrip('/')}"] *)
Definition url_of (endpoint : pystr) : pystr :=
  API_BASE ++ py "/" ++ lstrip_slash endpoint.

Definition headers : list (pystr * pystr) :=
  [(py "X-Api-Key", SONARR_API_KEY);
   (py "Content-Type", py "application/json")].

(** [make_api_request(endpoint, method, data)].  A method that is none of
    the four falls through the [if] chain and the function ends without a
    [return]: the caller gets [None]. *)
Definition make_api_request (endpoint : pystr) (method : pystr)
    (data : option value) : M value :=
  let url := url_of endpoint in
  try_except
    (if str_eqb (upper method) (py "GET") then
       send {| req_verb := GET; req_url := url; req_headers := headers;
               req_json := None |}
     else if str_eqb (upper method) (py "POST") then
       send {| req_verb := POST; req_url := url; req_headers := headers;
               req_json := data |}
     else if str_eqb (upper method) (py "PUT") then
       send {| req_verb := PUT; req_url := url; req_headers := headers;
               req_json := data |}
     else if str_eqb (upper method) (py "DELETE") then
       _ <- send {| req_verb := DELETE; req_url := url;
                    req_headers := headers; req_json := None |} ;;
       ret (obj [("status", VStr (py "deleted"))])
     else ret VNone)
    (fun e =>
       match e with
       | ClientError cause =>
           logger ERROR "API request failed: {}" [LogExn e] ;;;
           raise (PyException (py "Sonarr API request failed: " ++ cause))
       | _ => raise e
       end).

(** [make_api_request(endpoint)] *)
Definition api_get (endpoint : pystr) : M value :=
  make_api_request endpoint (py "GET") None.

(** The request that [make_api_request(endpoint)] sends. *)
Definition fetch (endpoint : pystr) : request :=
  {| req_verb := GET; req_url := url_of endpoint; req_headers := headers;
     req_json := None |}.

(** A computation whose outcome does not depend on the trace it starts
    from, and which only adds to it. *)
Definition framed {A} (m : M A) : Prop :=
  forall u, exists r u' evs,
    forall t, m {| outside := u; trace := t |}
              = (r, {| outside := u'; trace := t ++ evs |}).

(** The [except Exception as e] clause every tool ends with. *)
Definition except_exception (tool : string) (e : exn) : M tool_result :=
  logger ERROR ("Error in " ++ tool ++ ": {}")%string [LogExn e] ;;;
  ret (Error (str_exn e)).

(** ** List series *)

(** The summary of one series. *)
Definition series_summary (series : value) : res value :=
  (id <- get series "id" ;;
   title <- get series "title" ;;
   status <- get series "status" ;;
   monitored <- get series "monitored" ;;
   year <- get series "year" ;;
   seasons <- (s <- get_or series "seasons" (PList []) ;; len s) ;;
   total <- (st <- get_or series "statistics" (PDict []) ;;
             get_or st "episodeCount" (VInt 0)) ;;
   available <- (st <- get_or series "statistics" (PDict []) ;;
                 get_or st "episodeFileCount" (VInt 0)) ;;
   missing <- (st <- get_or series "statistics" (PDict []) ;;
               a <- get_or st "episodeCount" (VInt 0) ;;
               st' <- get_or series "statistics" (PDict []) ;;
               b <- get_or st' "episodeFileCount" (VInt 0) ;;
               py_sub a b) ;;
   quality_profile <- get series "qualityProfileId" ;;
   path <- get series "path" ;;
   network <- get series "network" ;;
   genres <- (g <- get_or series "genres" (PList []) ;; slice_to 3 g) ;;
   Ok (obj [("id", id);
            ("title", title);
            ("status", status);
            ("monitored", monitored);
            ("year", year);
            ("seasons", VInt seasons);
            ("episodes", obj [("total", total);
                              ("available", available);
                              ("missing", missing)]);
            ("quality_profile", quality_profile);
            ("path", path);
            ("network", network);
            ("genres", genres)]))%res.

(** [s.get('monitored') == monitored] *)
Definition monitored_is (monitored : bool) (s : value) : res bool :=
  (m <- get s "monitored" ;; Ok (eq_atom m (ABool monitored)))%res.

(** [s[k]] is true. *)
Definition field_true (k : string) (s : value) : res bool :=
  (v <- subscript s (AStr (py k)) ;; Ok (truthy v))%res.

Definition get_series_list (monitored include_season_images : option bool)
  : M tool_result :=
  logger INFO "Getting series list with monitored={}, include_season_images={}"
    [LogValue (opt_bool monitored); LogValue (opt_bool include_season_images)] ;;;
  try_except
    (series_data <- api_get (py "series") ;;
     series_data <- match monitored with
                    | Some m =>
                        lift (l <- iter series_data ;;
                              kept <- rfilter (monitored_is m) l ;;
                              Ok (PList kept))%res
                    | None => ret series_data
                    end ;;
     series_summary <- lift (l <- iter series_data ;;
                             rmap series_summary l)%res ;;
     monitored_ones <- lift (rfilter (field_true "monitored") series_summary) ;;
     let result := obj [("total_series", count series_summary);
                        ("monitored_count", count monitored_ones);
                        ("series", PList series_summary)] in
     logger DEBUG "Retrieved {} series" [LogValue (count series_summary)] ;;;
     ret (Success result))
    (except_exception "get_series_list").

(** ** Series details *)

(** [doc.get("overview", "")[:n] + ("..." if len(doc.get("overview", "")) > n
    else "")] *)
Definition overview_cut (n : nat) (doc : value) : res value :=
  (o <- get_or doc "overview" (VStr []) ;;
   head <- slice_to n o ;;
   o' <- get_or doc "overview" (VStr []) ;;
   size <- len o' ;;
   py_add head (VStr (if Z.of_nat n <? size then py "..." else [])))%res.

Definition season_info (season : value) : res value :=
  (season_number <- get season "seasonNumber" ;;
   monitored <- get season "monitored" ;;
   statistics <- get_or season "statistics" (PDict []) ;;
   Ok (obj [("season_number", season_number);
            ("monitored", monitored);
            ("statistics", statistics)]))%res.

(** The detail document; the season list, filled by the loop after the
    rest is built, is shown in its place. *)
Definition series_details (series_data : value) : res value :=
  (id <- get series_data "id" ;;
   title <- get series_data "title" ;;
   sort_title <- get series_data "sortTitle" ;;
   status <- get series_data "status" ;;
   overview <- overview_cut 500 series_data ;;
   network <- get series_data "network" ;;
   air_time <- get series_data "airTime" ;;
   runtime <- get series_data "runtime" ;;
   year <- get series_data "year" ;;
   genres <- get_or series_data "genres" (PList []) ;;
   certification <- get series_data "certification" ;;
   imdb_id <- get series_data "imdbId" ;;
   tvdb_id <- get series_data "tvdbId" ;;
   monitored <- get series_data "monitored" ;;
   season_folder <- get series_data "seasonFolder" ;;
   quality_profile_id <- get series_data "qualityProfileId" ;;
   language_profile_id <- get series_data "languageProfileId" ;;
   statistics <- get_or series_data "statistics" (PDict []) ;;
   path <- get series_data "path" ;;
   size_on_disk <- (st <- get_or series_data "statistics" (PDict []) ;;
                    get_or st "sizeOnDisk" (VInt 0)) ;;
   seasons <- (l <- get_or series_data "seasons" (PList []) ;;
               l <- iter l ;;
               rmap season_info l) ;;
   Ok (obj [("basic_info",
             obj [("id", id);
                  ("title", title);
                  ("sort_title", sort_title);
                  ("status", status);
                  ("overview", overview);
                  ("network", network);
                  ("air_time", air_time);
                  ("runtime", runtime);
                  ("year", year);
                  ("genres", genres);
                  ("certification", certification);
                  ("imdb_id", imdb_id);
                  ("tvdb_id", tvdb_id)]);
            ("monitoring",
             obj [("monitored", monitored);
                  ("season_folder", season_folder);
                  ("quality_profile_id", quality_profile_id);
                  ("language_profile_id", language_profile_id)]);
            ("statistics", statistics);
            ("file_info",
             obj [("path", path);
                  ("size_on_disk", size_on_disk)]);
            ("seasons", PList seasons)]))%res.

Definition get_series_details (series_id : Z) : M tool_result :=
  logger INFO "Getting details for series ID: {}" [LogValue (VInt series_id)] ;;;
  try_except
    (series_data <- api_get (py "series/" ++ str_of_int series_id) ;;
     details <- lift (series_details series_data) ;;
     title <- lift (b <- subscript details (AStr (py "basic_info")) ;;
                    subscript b (AStr (py "title")))%res ;;
     logger DEBUG "Retrieved details for series: {}" [LogValue title] ;;;
     ret (Success details))
    (except_exception "get_series_details").

(** ** Search series *)

Definition lookup_info (result : value) : res value :=
  (title <- get result "title" ;;
   year <- get result "year" ;;
   tvdb_id <- get result "tvdbId" ;;
   imdb_id <- get result "imdbId" ;;
   overview <- overview_cut 300 result ;;
   network <- get result "network" ;;
   status <- get result "status" ;;
   genres <- (g <- get_or result "genres" (PList []) ;; slice_to 3 g) ;;
   runtime <- get result "runtime" ;;
   seasons <- (s <- get_or result "seasons" (PList []) ;; len s) ;;
   images <- get_or result "images" (PList []) ;;
   Ok (obj [("title", title);
            ("year", year);
            ("tvdb_id", tvdb_id);
            ("imdb_id", imdb_id);
            ("overview", overview);
            ("network", network);
            ("status", status);
            ("genres", genres);
            ("runtime", runtime);
            ("seasons", VInt seasons);
            ("images", images)]))%res.

Definition search_series (term : pystr) : M tool_result :=
  logger INFO "Searching for series with term: {}" [LogValue (VStr term)] ;;;
  try_except
    (let encoded_term := quote term in
     search_results <- api_get (py "series/lookup?term=" ++ encoded_term) ;;
     results <- lift (top <- slice_to 10 search_results ;;
                      l <- iter top ;;
                      rmap lookup_info l)%res ;;
     let summary := obj [("search_term", VStr term);
                         ("results_count", count results);
                         ("results", PList results)] in
     logger DEBUG "Found {} series for term: {}"
       [LogValue (count results); LogValue (VStr term)] ;;;
     ret (Success summary))
    (except_exception "search_series").

(** ** Add series

    The handler leaves early at three places; each stage below is what
    follows one of them. *)

(** From the lookup on: the series is looked up, the create request is
    built and posted, and the created series is summarised. *)
Definition add_series_create (tvdb_id : Z) (title : pystr)
    (monitored : option bool) (root_folder_path quality_profile_id : value)
  : M tool_result :=
  search_results <-
    api_get (py "series/lookup?term=tvdb:" ++ str_of_int tvdb_id) ;;
  if negb (truthy search_results) then
    ret (Error (Message (py "Could not find series with TVDB ID: "
                         ++ str_of_int tvdb_id)))
  else
    series_data <- lift (subscript search_results (AInt 0)) ;;
    add_data <- lift (t <- get_or series_data "title" (VStr title) ;;
                      title_slug <- get series_data "titleSlug" ;;
                      images <- get_or series_data "images" (PList []) ;;
                      seasons <- get_or series_data "seasons" (PList []) ;;
                      Ok (obj [("title", t);
                               ("qualityProfileId", quality_profile_id);
                               ("languageProfileId", VInt 1);
                               ("rootFolderPath", root_folder_path);
                               ("monitored", opt_bool monitored);
                               ("addOptions",
                                obj [("monitor", VStr (py "all"));
                                     ("searchForMissingEpisodes", VBool true)]);
                               ("tvdbId", VInt tvdb_id);
                               ("titleSlug", title_slug);
                               ("images", images);
                               ("seasons", seasons)]))%res ;;
    result <- make_api_request (py "series") (py "POST") (Some add_data) ;;
    summary <- lift (id <- get result "id" ;;
                     t <- get result "title" ;;
                     tvdb <- get result "tvdbId" ;;
                     path <- get result "path" ;;
                     m <- get result "monitored" ;;
                     q <- get result "qualityProfileId" ;;
                     n <- (l <- get_or result "seasons" (PList []) ;; len l) ;;
                     t' <- get result "title" ;;
                     Ok (obj [("added_series",
                               obj [("id", id);
                                    ("title", t);
                                    ("tvdb_id", tvdb);
                                    ("path", path);
                                    ("monitored", m);
                                    ("quality_profile_id", q);
                                    ("seasons", VInt n)]);
                              ("message",
                               VStr (py "Successfully added '" ++ str_ t'
                                     ++ py "' to Sonarr"))]))%res ;;
    t <- lift (get result "title") ;;
    logger INFO "Successfully added series: {}" [LogValue t] ;;;
    ret (Success summary).

(** From the quality profile on. *)
Definition add_series_profile (tvdb_id : Z) (title : pystr)
    (quality_profile_id : option Z) (monitored : option bool)
    (root_folder_path : value) : M tool_result :=
  match quality_profile_id with
  | None =>
      quality_profiles <- api_get (py "qualityprofile") ;;
      if negb (truthy quality_profiles) then
        ret (Error (Message (py "No quality profiles configured in Sonarr")))
      else
        q <- lift (first <- subscript quality_profiles (AInt 0) ;;
                   subscript first (AStr (py "id")))%res ;;
        logger INFO "Using default quality profile ID: {}" [LogValue q] ;;;
        add_series_create tvdb_id title monitored root_folder_path q
  | Some q =>
      add_series_create tvdb_id title monitored root_folder_path (VInt q)
  end.

Definition add_series (tvdb_id : Z) (title : pystr)
    (root_folder_path : option pystr) (quality_profile_id : option Z)
    (monitored : option bool) : M tool_result :=
  logger INFO "Adding series: {} (TVDB ID: {})"
    [LogValue (VStr title); LogValue (VInt tvdb_id)] ;;;
  try_except
    (match root_folder_path with
     | None =>
         root_folders <- api_get (py "rootfolder") ;;
         if negb (truthy root_folders) then
           ret (Error (Message (py "No root folders configured in Sonarr")))
         else
           p <- lift (first <- subscript root_folders (AInt 0) ;;
                      subscript first (AStr (py "path")))%res ;;
           logger INFO "Using default root folder: {}" [LogValue p] ;;;
           add_series_profile tvdb_id title quality_profile_id monitored p
     | Some p =>
         add_series_profile tvdb_id title quality_profile_id monitored (VStr p)
     end)
    (except_exception "add_series").

(** ** Calendar *)

Definition episode_info (episode : value) : res value :=
  (episode_id <- get episode "id" ;;
   series_title <- (s <- get_or episode "series" (PDict []) ;; get s "title") ;;
   series_id <- get episode "seriesId" ;;
   season_number <- get episode "seasonNumber" ;;
   episode_number <- get episode "episodeNumber" ;;
   title <- get episode "title" ;;
   air_date <- get episode "airDate" ;;
   air_date_utc <- get episode "airDateUtc" ;;
   has_file <- get episode "hasFile" ;;
   monitored <- get episode "monitored" ;;
   overview <- overview_cut 200 episode ;;
   Ok (obj [("episode_id", episode_id);
            ("series_title", series_title);
            ("series_id", series_id);
            ("season_number", season_number);
            ("episode_number", episode_number);
            ("title", title);
            ("air_date", air_date);
            ("air_date_utc", air_date_utc);
            ("has_file", has_file);
            ("monitored", monitored);
            ("overview", overview)]))%res.

(** The body of the grouping loop: the list of [air_date] gets [ep] at its
    end, a new date opening a list at the end of the dictionary. *)
Fixpoint group_add (air_date : atom) (ep : value)
    (by_date : list (atom * list value)) : list (atom * list value) :=
  match by_date with
  | [] => [(air_date, [ep])]
  | (k, eps) :: rest =>
      if key_eqb k air_date then (k, eps ++ [ep]) :: rest
      else (k, eps) :: group_add air_date ep rest
  end.

(** The grouping loop.  A date that is a list or a dict cannot key a
    dictionary. *)
Fixpoint group_by_date (episodes : list value)
    (by_date : list (atom * list value)) : res (list (atom * list value)) :=
  match episodes with
  | [] => Ok by_date
  | ep :: rest =>
      (air_date <- subscript ep (AStr (py "air_date")) ;;
       match air_date with
       | Atom k => group_by_date rest (group_add k ep by_date)
       | _ => Raise TypeError
       end)%res
  end.

(** [dict(sorted(episodes_by_date.items()))] *)
Definition sorted_by_date (by_date : list (atom * list value)) : res value :=
  (items <- sorted_items (List.map (fun kv => (fst kv, PList (snd kv))) by_date) ;;
   Ok (PDict items))%res.

Definition truthy_flag (b : option bool) : bool :=
  match b with Some true => true | _ => false end.

(** [f"calendar?{params}"] for the two resolved dates. *)
Definition calendar_endpoint (start end_ : pystr) (unmonitored : option bool)
  : pystr :=
  let params := py "start=" ++ start ++ py "&end=" ++ end_ in
  let params := if truthy_flag unmonitored
                then params ++ py "&unmonitored=true" else params in
  py "calendar?" ++ params.

(** The handler from the fetch on, the two dates being resolved. *)
Definition calendar_between (start end_ : pystr) (unmonitored : option bool)
  : M tool_result :=
  calendar_data <- api_get (calendar_endpoint start end_ unmonitored) ;;
  episodes <- lift (l <- iter calendar_data ;; rmap episode_info l)%res ;;
  episodes_by_date <- lift (group_by_date episodes []) ;;
  with_files <- lift (rfilter (field_true "has_file") episodes) ;;
  sorted_dates <- lift (sorted_by_date episodes_by_date) ;;
  let summary := obj [("date_range", VStr (start ++ py " to " ++ end_));
                      ("total_episodes", count episodes);
                      ("episodes_with_files", count with_files);
                      ("episodes_by_date", sorted_dates);
                      ("all_episodes", PList episodes)] in
  logger DEBUG "Retrieved {} calendar episodes" [LogValue (count episodes)] ;;;
  ret (Success summary).

Definition get_calendar (start end_ : option pystr) (unmonitored : option bool)
  : M tool_result :=
  logger INFO "Getting calendar with start={}, end={}, unmonitored={}"
    [LogValue (opt_str start); LogValue (opt_str end_);
     LogValue (opt_bool unmonitored)] ;;;
  try_except
    (start <- match start with
              | None =>
                  t <- now ;;
                  start_date <- lift (add_days t (-7)) ;;
                  ret (strftime_ymd start_date)
              | Some s => ret s
              end ;;
     end_ <- match end_ with
             | None =>
                 t <- now ;;
                 end_date <- lift (add_days t 30) ;;
                 ret (strftime_ymd end_date)
             | Some s => ret s
             end ;;
     calendar_between start end_ unmonitored)
    (except_exception "get_calendar").

(** ** Queue *)

(** [round((1 - (item.get("sizeleft", 0) / max(item.get("size", 1), 1))) * 100, 2)] *)
Definition progress (item : value) : res value :=
  (sizeleft <- get_or item "sizeleft" (VInt 0) ;;
   size <- get_or item "size" (VInt 1) ;;
   divisor <- py_max size (VInt 1) ;;
   q <- py_truediv sizeleft divisor ;;
   Ok (VFloat (round2 (PrimFloat.mul (PrimFloat.sub 1 q) 100))))%res.

Definition queue_info (item : value) : res value :=
  (id <- get item "id" ;;
   series_title <- (s <- get_or item "series" (PDict []) ;; get s "title") ;;
   episode_title <- (e <- get_or item "episode" (PDict []) ;; get e "title") ;;
   season_number <- (e <- get_or item "episode" (PDict []) ;;
                     get e "seasonNumber") ;;
   episode_number <- (e <- get_or item "episode" (PDict []) ;;
                      get e "episodeNumber") ;;
   quality <- (q <- get_or item "quality" (PDict []) ;;
               q' <- get_or q "quality" (PDict []) ;;
               get q' "name") ;;
   size <- get_or item "size" (VInt 0) ;;
   sizeleft <- get_or item "sizeleft" (VInt 0) ;;
   status <- get item "status" ;;
   tracked_download_status <- get item "trackedDownloadStatus" ;;
   download_client <- get item "downloadClient" ;;
   output_path <- get item "outputPath" ;;
   progress <- progress item ;;
   Ok (obj [("id", id);
            ("series_title", series_title);
            ("episode_title", episode_title);
            ("season_number", season_number);
            ("episode_number", episode_number);
            ("quality", quality);
            ("size", size);
            ("sizeleft", sizeleft);
            ("status", status);
            ("tracked_download_status", tracked_download_status);
            ("download_client", download_client);
            ("output_path", output_path);
            ("progress", progress)]))%res.

(** [item["status"] in ["downloading", "queued"]] *)
Definition is_active (item : value) : res bool :=
  (status <- subscript item (AStr (py "status")) ;;
   Ok (eq_atom status (AStr (py "downloading"))
       || eq_atom status (AStr (py "queued"))))%res.

(** [item["status"] == "completed"] *)
Definition is_completed (item : value) : res bool :=
  (status <- subscript item (AStr (py "status")) ;;
   Ok (eq_atom status (AStr (py "completed"))))%res.

(** [f"queue{params}"] *)
Definition queue_endpoint (include_unknown_series_items : option bool)
  : pystr :=
  let params := if truthy_flag include_unknown_series_items
                then py "?includeUnknownSeriesItems=true" else [] in
  py "queue" ++ params.

Definition get_queue (include_unknown_series_items : option bool)
  : M tool_result :=
  logger INFO "Getting queue with include_unknown_series_items={}"
    [LogValue (opt_bool include_unknown_series_items)] ;;;
  try_except
    (queue_data <- api_get (queue_endpoint include_unknown_series_items) ;;
     queue_items <- lift (records <- get_or queue_data "records" (PList []) ;;
                          l <- iter records ;;
                          rmap queue_info l)%res ;;
     active <- lift (rfilter is_active queue_items) ;;
     completed <- lift (rfilter is_completed queue_items) ;;
     let summary := obj [("total_items", count queue_items);
                         ("active_downloads", count active);
                         ("completed_items", count completed);
                         ("queue", PList queue_items)] in
     logger DEBUG "Retrieved {} queue items" [LogValue (count queue_items)] ;;;
     ret (Success summary))
    (except_exception "get_queue").

(** ** History *)

Definition history_info (item : value) : res value :=
  (id <- get item "id" ;;
   episode_id <- get item "episodeId" ;;
   series_title <- (s <- get_or item "series" (PDict []) ;; get s "title") ;;
   episode_title <- (e <- get_or item "episode" (PDict []) ;; get e "title") ;;
   season_number <- (e <- get_or item "episode" (PDict []) ;;
                     get e "seasonNumber") ;;
   episode_number <- (e <- get_or item "episode" (PDict []) ;;
                      get e "episodeNumber") ;;
   quality <- (q <- get_or item "quality" (PDict []) ;;
               q' <- get_or q "quality" (PDict []) ;;
               get q' "name") ;;
   event_type <- get item "eventType" ;;
   date <- get item "date" ;;
   download_client <- (d <- get_or item "data" (PDict []) ;;
                       get d "downloadClient") ;;
   source_title <- get item "sourceTitle" ;;
   Ok (obj [("id", id);
            ("episode_id", episode_id);
            ("series_title", series_title);
            ("episode_title", episode_title);
            ("season_number", season_number);
            ("episode_number", episode_number);
            ("quality", quality);
            ("event_type", event_type);
            ("date", date);
            ("download_client", download_client);
            ("source_title", source_title)]))%res.

Definition get_history (page page_size series_id : option Z) : M tool_result :=
  logger INFO "Getting history page={}, page_size={}, series_id={}"
    [LogValue (opt_int page); LogValue (opt_int page_size);
     LogValue (opt_int series_id)] ;;;
  try_except
    (let params := py "page=" ++ str_ (opt_int page)
                   ++ py "&pageSize=" ++ str_ (opt_int page_size)
                   ++ py "&sortKey=date&sortDirection=descending" in
     let params := if truthy (opt_int series_id)
                   then params ++ py "&seriesId=" ++ str_ (opt_int series_id)
                   else params in
     history_data <- api_get (py "history?" ++ params) ;;
     history_items <- lift (records <- get_or history_data "records" (PList []) ;;
                            l <- iter records ;;
                            rmap history_info l)%res ;;
     total_records <- lift (get_or history_data "totalRecords" (VInt 0)) ;;
     let summary := obj [("page", opt_int page);
                         ("page_size", opt_int page_size);
                         ("total_records", total_records);
                         ("records_on_page", count history_items);
                         ("history", PList history_items)] in
     logger DEBUG "Retrieved {} history items" [LogValue (count history_items)] ;;;
     ret (Success summary))
    (except_exception "get_history").

(** ** Series search command *)

Definition trigger_series_search (series_id : Z) : M tool_result :=
  logger INFO "Triggering series search for series ID: {}"
    [LogValue (VInt series_id)] ;;;
  try_except
    (let command_data := obj [("name", VStr (py "SeriesSearch"));
                              ("seriesId", VInt series_id)] in
     result <- make_api_request (py "command") (py "POST") (Some command_data) ;;
     summary <- lift (command_id <- get result "id" ;;
                      command_name <- get result "name" ;;
                      status <- get result "status" ;;
                      queued_at <- get result "queued" ;;
                      Ok (obj [("command_id", command_id);
                               ("command_name", command_name);
                               ("series_id", VInt series_id);
                               ("status", status);
                               ("queued_at", queued_at);
                               ("message",
                                VStr (py "Search command queued for series ID "
                                      ++ str_of_int series_id))]))%res ;;
     id <- lift (get result "id") ;;
     logger INFO "Series search triggered successfully, command ID: {}"
       [LogValue id] ;;;
     ret (Success summary))
    (except_exception "trigger_series_search").

(** ** System status *)

Definition system_info (status_data : value) : res value :=
  (version <- get status_data "version" ;;
   build_time <- get status_data "buildTime" ;;
   startup_path <- get status_data "startupPath" ;;
   app_data <- get status_data "appData" ;;
   os_name <- get status_data "osName" ;;
   os_version <- get status_data "osVersion" ;;
   is_debug <- get status_data "isDebug" ;;
   is_production <- get status_data "isProduction" ;;
   is_admin <- get status_data "isAdmin" ;;
   is_user_interactive <- get status_data "isUserInteractive" ;;
   branch <- get status_data "branch" ;;
   authentication <- get status_data "authentication" ;;
   migration_version <- get status_data "migrationVersion" ;;
   url_base <- get status_data "urlBase" ;;
   runtime_version <- get status_data "runtimeVersion" ;;
   Ok (obj [("version", version);
            ("build_time", build_time);
            ("startup_path", startup_path);
            ("app_data", app_data);
            ("os_name", os_name);
            ("os_version", os_version);
            ("is_debug", is_debug);
            ("is_production", is_production);
            ("is_admin", is_admin);
            ("is_user_interactive", is_user_interactive);
            ("branch", branch);
            ("authentication", authentication);
            ("migration_version", migration_version);
            ("url_base", url_base);
            ("runtime_version", runtime_version)]))%res.

Definition health_info (issue : value) : res value :=
  (type <- get issue "type" ;;
   message <- get issue "message" ;;
   wiki_url <- get issue "wikiUrl" ;;
   Ok (obj [("type", type);
            ("message", message);
            ("wiki_url", wiki_url)]))%res.

(** [await asyncio.gather(a, b)]: the two coroutines run together, and the
    pair of their results is handed back, or the first exception.  How their
    exchanges interleave, and which of two failures comes first, is the
    event loop's: the handler is given for any such behaviour. *)
Definition gathering : Type := M value -> M value -> M (value * value).

Definition get_system_status (gather : gathering) : M tool_result :=
  logger INFO "Getting system status and health" [] ;;;
  try_except
    (let status_task := api_get (py "system/status") in
     let health_task := api_get (py "health") in
     both <- gather status_task health_task ;;
     let status_data := fst both in
     let health_data := snd both in
     system_info <- lift (system_info status_data) ;;
     health_issues <- lift (l <- iter health_data ;; rmap health_info l)%res ;;
     let summary :=
       obj [("system", system_info);
            ("health",
             obj [("total_issues", count health_issues);
                  ("issues", PList health_issues);
                  ("status",
                   VStr (if Z.of_nat (List.length health_issues) =? 0
                         then py "healthy" else py "has_issues"))])] in
     version <- lift (subscript system_info (AStr (py "version"))) ;;
     logger DEBUG "System status retrieved, version: {}, health issues: {}"
       [LogValue version; LogValue (count health_issues)] ;;;
     ret (Success summary))
    (except_exception "get_system_status").

(** ** Resources *)

(** The text a resource returns: a string the handler built, the JSON text
    [json.dumps(v, indent=2)] of a document, or a prefix followed by
    [str(e)]. *)
Inductive resource_text :=
| Text (s : pystr)
| Dumped (v : value)
| Failure (prefix : pystr) (err : error_text).

(** The [for image in images] loop of the poster: the [url] of the first
    image whose [coverType] is "poster"; the loop ends there. *)
Fixpoint first_poster (images : list value) : res (option value) :=
  match images with
  | [] => Ok None
  | image :: rest =>
      (cover_type <- get image "coverType" ;;
       if eq_atom cover_type (AStr (py "poster"))
       then (url <- get image "url" ;; Ok (Some url))
       else first_poster rest)%res
  end.

Definition get_series_poster (series_id : pystr) : M resource_text :=
  try_except
    (series_data <- api_get (py "series/" ++ series_id) ;;
     found <- lift (images <- get_or series_data "images" (PList []) ;;
                    l <- iter images ;;
                    first_poster l)%res ;;
     match found with
     | Some url => ret (Text (SONARR_URL ++ str_ url))
     | None =>
         ret (Text (py "No poster image found for series " ++ series_id))
     end)
    (fun e =>
       logger ERROR "Error getting series poster: {}" [LogExn e] ;;;
       ret (Failure (py "Error retrieving poster: ") (str_exn e))).

(** [d[k] = v]: the value of [k] is replaced where [k] is a key, and the
    item is added at the end where it is not. *)
Fixpoint set_item (k : atom) (v : value) (d : list (atom * value))
  : list (atom * value) :=
  match d with
  | [] => [(k, v)]
  | (k', v') :: d' =>
      if key_eqb k' k then (k', v) :: d' else (k', v') :: set_item k v d'
  end.

Definition file_info (file_info : value) : res value :=
  (file_id <- get file_info "id" ;;
   relative_path <- get file_info "relativePath" ;;
   path <- get file_info "path" ;;
   size <- get file_info "size" ;;
   quality <- (q <- get_or file_info "quality" (PDict []) ;;
               q' <- get_or q "quality" (PDict []) ;;
               get q' "name") ;;
   media_info <- get_or file_info "mediaInfo" (PDict []) ;;
   Ok (obj [("file_id", file_id);
            ("relative_path", relative_path);
            ("path", path);
            ("size", size);
            ("quality", quality);
            ("media_info", media_info)]))%res.

(** The document of an episode: two sections, and a third one when the
    episode has a file. *)
Definition episode_details (episode_data : value) : res value :=
  (id <- get episode_data "id" ;;
   title <- get episode_data "title" ;;
   season_number <- get episode_data "seasonNumber" ;;
   episode_number <- get episode_data "episodeNumber" ;;
   air_date <- get episode_data "airDate" ;;
   overview <- get episode_data "overview" ;;
   has_file <- get episode_data "hasFile" ;;
   monitored <- get episode_data "monitored" ;;
   series_id <- get episode_data "seriesId" ;;
   series_title <- (s <- get_or episode_data "series" (PDict []) ;;
                    get s "title") ;;
   let details :=
     [(AStr (py "episode_info"),
       obj [("id", id);
            ("title", title);
            ("season_number", season_number);
            ("episode_number", episode_number);
            ("air_date", air_date);
            ("overview", overview);
            ("has_file", has_file);
            ("monitored", monitored)]);
      (AStr (py "series_info"),
       obj [("series_id", series_id);
            ("series_title", series_title)])] in
   episode_file <- get episode_data "episodeFile" ;;
   if truthy episode_file then
     file <- subscript episode_data (AStr (py "episodeFile")) ;;
     info <- file_info file ;;
     Ok (PDict (set_item (AStr (py "file_info")) info details))
   else Ok (PDict details))%res.

Definition get_episode_details (episode_id : pystr) : M resource_text :=
  try_except
    (episode_data <- api_get (py "episode/" ++ episode_id) ;;
     details <- lift (episode_details episode_data) ;;
     ret (Dumped details))
    (fun e =>
       logger ERROR "Error getting episode details: {}" [LogExn e] ;;;
       ret (Failure (py "Error retrieving episode details: ") (str_exn e))).

(** ** What a computation sends *)

(** A computation that makes no exchange and leaves the upstream service
    alone. *)
Definition silent {A} (m : M A) : Prop :=
  forall w, exchanges (trace (snd (m w))) = exchanges (trace w)
            /\ outside (snd (m w)) = outside w.

(** A computation that sends the requests [l], whatever their outcome. *)
Definition sends_exactly (l : list request) {A} (m : M A) : Prop :=
  forall w, requests (trace (snd (m w))) = requests (trace w) ++ l.

(** A computation all of whose requests satisfy [P]. *)
Definition sends_only (P : request -> Prop) {A} (m : M A) : Prop :=
  forall w, Forall P (requests (trace w)) ->
            Forall P (requests (trace (snd (m w)))).

(** The request of [make_api_request] for each of the four methods: only
    POST and PUT carry the data. *)
Definition request_of (v : verb) (endpoint : pystr) (data : option value)
  : request :=
  {| req_verb := v;
     req_url := url_of endpoint;
     req_headers := headers;
     req_json := match v with
                 | POST | PUT => data
                 | GET | DELETE => None
                 end |}.

(** A request to the configured service, with its key. *)
Definition authenticated (r : request) : Prop :=
  req_headers r = headers
  /\ In (py "X-Api-Key", SONARR_API_KEY) (req_headers r)
  /\ exists endpoint, req_url r = url_of endpoint.

End Server.

(** ** Vocabulary of the properties *)

(** A JSON object. *)
Definition is_document (v : value) : Prop := exists fields, v = PDict fields.

(** [item.get("status") == s], false where there is no such field. *)
Definition has_status (s : string) (item : value) : bool :=
  match get item "status" with
  | Ok v => eq_atom v (AStr (py s))
  | Raise _ => false
  end.

(** The date an episode of the calendar is grouped under. *)
Definition air_date_of (ep : value) : atom :=
  match subscript ep (AStr (py "air_date")) with
  | Ok (Atom k) => k
  | _ => ANone
  end.

(** [ep] is grouped under the key [k]. *)
Definition aired_on (k : atom) (ep : value) : bool :=
  key_eqb k (air_date_of ep).

(** The date a key of the grouping names, for a key that is an ISO date. *)
Definition key_date (k : atom) : Z * Z * Z :=
  match k with
  | AStr s => iso_ymd s
  | _ => (0, 0, 0)
  end.

(** A key that is a string, the order of two such keys, and of two items
    by their keys. *)
Definition str_key (k : atom) : Prop := exists s, k = AStr s.

Definition key_lt (a b : atom) : Prop := atom_lt a b = Ok true.

Definition item_lt (x y : atom * value) : Prop := key_lt (fst x) (fst y).

(** An episode whose [air_date] is a string. *)
Definition dated (ep : value) : Prop :=
  exists s, subscript ep (AStr (py "air_date")) = Ok (VStr s).

(** What the grouping loop keeps true: after the episodes [done], the
    dictionary [g] has string keys, each once; each key has the episodes of
    that date, in order, and there is at least one; and the date of every
    episode is a key. *)
Definition grouped (done : list value) (g : list (atom * list value)) : Prop :=
  Forall (fun kl => str_key (fst kl)) g
  /\ NoDup (List.map fst g)
  /\ (forall k l, In (k, l) g ->
                  l = List.filter (aired_on k) done /\ l <> [])
  /\ (forall ep, In ep done -> In (air_date_of ep) (List.map fst g)).

(** A calendar entry that carries an ISO air date. *)
Definition iso_air_date (entry : value) : Prop :=
  exists s, get entry "airDate" = Ok (VStr s) /\ is_iso_date s = true.

(** The name of a method, in upper case. *)
Definition verb_name (v : verb) : pystr :=
  match v with
  | GET => py "GET"
  | POST => py "POST"
  | PUT => py "PUT"
  | DELETE => py "DELETE"
  end.

(** A request that reads: a GET without a body. *)
Definition reads (r : request) : Prop :=
  req_verb r = GET /\ req_json r = None.

(** [doc.get(k)] for a document, [None] elsewhere. *)
Definition field (doc : value) (k : string) : value :=
  match get doc k with
  | Ok v => v
  | Raise _ => VNone
  end.

(** [bool(s.get("monitored"))], false where there is no such field. *)
Definition is_monitored (s : value) : bool := truthy (field s "monitored").

(** [image.get("coverType") == "poster"] *)
Definition is_poster (image : value) : bool :=
  eq_atom (field image "coverType") (AStr (py "poster")).

(** The number of elements of a list value, and of the lists of a
    dictionary together. *)
Definition size_of (v : value) : nat :=
  match v with
  | PList l => List.length l
  | _ => 0%nat
  end.

Definition sizes (d : list (atom * value)) : nat :=
  list_sum (List.map (fun kv => size_of (snd kv)) d).

(** A calendar entry whose air date is a string. *)
Definition has_air_date (entry : value) : Prop :=
  exists s, get entry "airDate" = Ok (VStr s).

(** A value that is neither a string nor a dictionary. *)
Definition not_text (v : value) : Prop :=
  match v with
  | Atom (AStr _) => False
  | PDict _ => False
  | _ => True
  end.

(** [doc.get(k, default)] for a document, the default elsewhere. *)
Definition field_or (doc : value) (k : string) (default : value) : value :=
  match get_or doc k default with
  | Ok v => v
  | Raise _ => default
  end.

(** The number of episodes in the groups of the calendar. *)
Definition grouped_count (g : list (atom * list value)) : nat :=
  list_sum (List.map (fun kl => List.length (snd kl)) g).

(** [bool(entry.get("hasFile"))], false where there is no such field. *)
Definition has_file (entry : value) : bool := truthy (field entry "hasFile").

(** ** A scripted upstream

    An upstream service that answers from a script, one outcome per request,
    and whose clock stands still: the concrete service of the examples. *)
Module Scripted.

Record state := { script : list (res value); today : datetime }.

Definition answer (r : request) (s : state) : res value * state :=
  match script s with
  | out :: rest => (out, {| script := rest; today := today s |})
  | [] => (Raise (ClientError (py "Cannot connect to host")), s)
  end.

Definition service : Service := {|
  ENV_SONARR_URL := py "http://sonarr:8989/";
  SONARR_API_KEY := py "0123456789abcdef";
  upstream := state;
  transport := answer;
  clock := fun s => (today s, s);
  repr_ := fun _ => py "<repr>";
  quote := fun s => s
|}.

#[local] Existing Instance service.

(** The service with the given script, at noon on 2024-03-10. *)
Definition answering (outs : list (res value)) : state :=
  {| script := outs;
     today := {| toordinal := ymd2ord 2024 3 10;
                 microsecond_of_day := 43200000000 |} |}.

(** The world a call starts in. *)
Definition fresh (outs : list (res value)) : world (svc := service) :=
  @Build_world service (answering outs) [].

(** The value of an outcome, [None] for an exception. *)
Definition value_of (r : res value) : value :=
  match r with
  | Ok v => v
  | Raise _ => VNone
  end.

(** The [data] of a result, [None] for an error. *)
Definition data_of (r : res tool_result) : value :=
  match r with
  | Ok (Success data) => data
  | _ => VNone
  end.

(** A library of five series, two of them monitored. *)
Definition a_series (id : Z) (title : string) (monitored : bool) : value :=
  obj [("id", VInt id);
       ("title", VStr (py title));
       ("status", VStr (py "continuing"));
       ("monitored", VBool monitored);
       ("year", VInt 2020);
       ("seasons", PList [obj [("seasonNumber", VInt 1)]]);
       ("statistics", obj [("episodeCount", VInt 10);
                           ("episodeFileCount", VInt 4)]);
       ("genres", PList [VStr (py "Drama")])].

Definition five_series : list value :=
  [a_series 1 "Andor" true;
   a_series 2 "Dark" false;
   a_series 3 "Severance" true;
   a_series 4 "Lost" false;
   a_series 5 "Fargo" false].

(** A queue record of size 0 with nothing left. *)
Definition empty_item : value :=
  obj [("id", VInt 1); ("size", VInt 0); ("sizeleft", VInt 0);
       ("status", VStr (py "downloading"))].

(** A queue with one record of each kind of status. *)
Definition a_record (id : Z) (status : string) : value :=
  obj [("id", VInt id); ("size", VInt 100); ("sizeleft", VInt 25);
       ("status", VStr (py status))].

Definition four_records : list value :=
  [a_record 1 "downloading"; a_record 2 "queued";
   a_record 3 "completed"; a_record 4 "paused"].

Definition a_queue : value := obj [("records", PList four_records)].

(** Calendar entries, dated or not. *)
Definition an_entry (id : Z) (air_date : string) : value :=
  obj [("id", VInt id); ("airDate", VStr (py air_date));
       ("hasFile", VBool false)].

Definition an_undated_entry (id : Z) : value :=
  obj [("id", VInt id); ("hasFile", VBool false)].

Definition a_calendar : list value :=
  [an_entry 1 "2024-03-12"; an_entry 2 "2024-03-11"; an_entry 3 "2024-03-12"].

(** A series whose overview has [n] characters. *)
Definition a_series_with_overview (n : nat) : value :=
  obj [("id", VInt 7); ("title", VStr (py "Andor"));
       ("overview", VStr (List.repeat 120%N n))].

(** The calls of the examples. *)
Definition listing : res tool_result * world (svc := service) :=
  run (get_series_list (Some true) None) (answering [Ok (PList five_series)]).

Definition queue_of (queue_data : value)
  : res tool_result * world (svc := service) :=
  run (get_queue None) (answering [Ok queue_data]).

Definition details_of (series_data : value)
  : res tool_result * world (svc := service) :=
  run (get_series_details 7) (answering [Ok series_data]).

Definition calendar_of (entries : list value)
  : res tool_result * world (svc := service) :=
  run (get_calendar None None None) (answering [Ok (PList entries)]).


(** Twelve results of a lookup. *)
Definition a_result (tvdb_id : Z) : value :=
  obj [("title", VStr (py "Andor")); ("tvdbId", VInt tvdb_id)].

Definition twelve_results : list value :=
  List.map a_result [1; 2; 3; 4; 5; 6; 7; 8; 9; 10; 11; 12].

(** A page of history with two records out of 57. *)
Definition a_history : value :=
  obj [("page", VInt 3);
       ("totalRecords", VInt 57);
       ("records", PList [obj [("id", VInt 1);
                               ("eventType", VStr (py "grabbed"))];
                          obj [("id", VInt 2)]])].

(** A series whose overview is a JSON null. *)
Definition a_series_with_null_overview : value :=
  obj [("id", VInt 7); ("title", VStr (py "Andor")); ("overview", VNone)].

(** A queue record with nothing left. *)
Definition a_finished_item : value :=
  obj [("id", VInt 3); ("size", VInt 1500); ("sizeleft", VInt 0)].

(** A series with a banner, a poster, and an entry that is no image. *)
Definition a_banner : value :=
  obj [("coverType", VStr (py "banner")); ("url", VStr (py "/b.jpg"))].

Definition a_poster : value :=
  obj [("coverType", VStr (py "poster"));
       ("url", VStr (py "/MediaCover/7/poster.jpg"))].

Definition a_series_with_images : value :=
  obj [("id", VInt 7); ("images", PList [a_banner; a_poster; VInt 0])].

(** An episode with a file. *)
Definition an_episode : value :=
  obj [("id", VInt 11);
       ("title", VStr (py "Kassa"));
       ("seriesId", VInt 7);
       ("hasFile", VBool true);
       ("episodeFile", obj [("id", VInt 5);
                            ("path", VStr (py "/tv/Andor/S01E01.mkv"))])].

(** The answer to a search command. *)
Definition a_command : value :=
  obj [("id", VInt 900);
       ("name", VStr (py "SeriesSearch"));
       ("status", VStr (py "queued"));
       ("seriesId", VInt 99)].

(** The status of the system and one health issue. *)
Definition a_status : value :=
  obj [("version", VStr (py "4.0.0.700")); ("branch", VStr (py "main"))].

Definition an_issue : value :=
  obj [("type", VStr (py "warning"));
       ("message", VStr (py "No indexers available"))].

(** An event loop in which the exchange of the first coroutine is over
    before that of the second starts. *)
Definition one_after_the_other : gathering (svc := service) :=
  fun a b => bind a (fun x => bind b (fun y => ret (x, y))).

(** What the upstream service holds when a series is added. *)
Definition a_root_folder : value := obj [("path", VStr (py "/tv"))].

Definition a_quality_profile : value := obj [("id", VInt 4)].

Definition a_found_series : value :=
  obj [("title", VStr (py "Andor")); ("titleSlug", VStr (py "andor"));
       ("seasons", PList [obj [("seasonNumber", VInt 1)]])].

Definition a_created_series : value :=
  obj [("id", VInt 12); ("title", VStr (py "Andor")); ("tvdbId", VInt 393189);
       ("path", VStr (py "/tv/Andor")); ("monitored", VBool true);
       ("qualityProfileId", VInt 4);
       ("seasons", PList [obj [("seasonNumber", VInt 1)]])].

(** The body of the request that creates it. *)
Definition a_create_body : value :=
  obj [("title", VStr (py "Andor"));
       ("qualityProfileId", VInt 4);
       ("languageProfileId", VInt 1);
       ("rootFolderPath", VStr (py "/tv"));
       ("monitored", VBool true);
       ("addOptions",
        obj [("monitor", VStr (py "all"));
             ("searchForMissingEpisodes", VBool true)]);
       ("tvdbId", VInt 393189);
       ("titleSlug", VStr (py "andor"));
       ("images", PList []);
       ("seasons", PList [obj [("seasonNumber", VInt 1)]])].

(** A calendar of which two entries have a file. *)
Definition an_entry_with_file (id : Z) (air_date : string) : value :=
  obj [("id", VInt id); ("airDate", VStr (py air_date));
       ("hasFile", VBool true)].

Definition a_calendar_with_files : list value :=
  [an_entry_with_file 1 "2024-03-12"; an_entry 2 "2024-03-11";
   an_entry_with_file 3 "2024-03-12"].

(** An upstream that cannot be reached and whose clock goes on: each
    reading is the next of the times it is given. *)
Definition ticking : Service := {|
  ENV_SONARR_URL := py "http://sonarr:8989/";
  SONARR_API_KEY := py "0123456789abcdef";
  upstream := list datetime;
  transport := fun _ times =>
                 (Raise (ClientError (py "Cannot connect to host")), times);
  clock := fun times =>
             match times with
             | t :: rest => (t, rest)
             | [] => ({| toordinal := 1; microsecond_of_day := 0 |}, [])
             end;
  repr_ := fun _ => py "<repr>";
  quote := fun s => s
|}.

(** The last microsecond of 2024-03-10 and the first of 2024-03-11. *)
Definition around_midnight : list datetime :=
  [{| toordinal := ymd2ord 2024 3 10; microsecond_of_day := 86399999999 |};
   {| toordinal := ymd2ord 2024 3 11; microsecond_of_day := 0 |}].

End Scripted.

End Sonarr.

(* ===================================================================== *)
(** * Properties *)
(* ===================================================================== *)

(** ** Python values *)

Module PyFacts.
Import Py.

Lemma str_eqb_refl (s : pystr) : str_eqb s s = true.
Proof.
  induction s as [|c s IH]; simpl; [reflexivity|].
  now rewrite N.eqb_refl.
Qed.

Lemma str_eqb_eq (a b : pystr) : str_eqb a b = true <-> a = b.
Proof.
  split.
  - revert b. induction a as [|x a IH]; destruct b as [|y b]; simpl; try easy.
    intros H. apply andb_true_iff in H as [Hxy Hab].
    apply N.eqb_eq in Hxy. f_equal; auto.
  - intros ->. apply str_eqb_refl.
Qed.

Lemma str_eqb_neq (a b : pystr) : a <> b -> str_eqb a b = false.
Proof.
  intros H. destruct (str_eqb a b) eqn:E; [|reflexivity].
  apply str_eqb_eq in E. contradiction.
Qed.

Lemma rmap_length {A B} (f : A -> res B) (l : list A) (l' : list B) :
  rmap f l = Ok l' -> List.length l' = List.length l.
Proof.
  revert l'. induction l as [|x l IH]; simpl; intros l' H.
  - now inversion H.
  - destruct (f x); simpl in H; [|discriminate].
    destruct (rmap f l); simpl in H; [|discriminate].
    inversion H; subst. simpl. f_equal. now apply IH.
Qed.

Lemma rfilter_all {A} (p : A -> res bool) (l : list A) :
  Forall (fun x => p x = Ok true) l -> rfilter p l = Ok l.
Proof.
  induction 1 as [|x l Hx _ IH]; simpl; [reflexivity|].
  now rewrite Hx, IH.
Qed.

Lemma rmap_Forall2 {A B} (f : A -> res B) (l : list A) (l' : list B) :
  rmap f l = Ok l' -> Forall2 (fun x y => f x = Ok y) l l'.
Proof.
  revert l'. induction l as [|x l IH]; simpl; intros l' H.
  - inversion H. constructor.
  - destruct (f x) eqn:E; simpl in H; [|discriminate].
    destruct (rmap f l); simpl in H; [|discriminate].
    inversion H; subst. constructor; auto.
Qed.

Lemma eq_true_truthy (v : value) :
  eq_atom v (ABool true) = true -> truthy v = true.
Proof.
  destruct v as [a| |]; simpl; try discriminate.
  destruct a as [|b|z|f|s]; simpl; try discriminate.
  - now destruct b.
  - unfold atom_eqb, num_compare; simpl.
    destruct (Z.compare_spec z 1); try discriminate. now subst.
  - unfold atom_eqb, num_compare; simpl.
    unfold compare_int_float, float_exact.
    destruct (PrimFloat.is_nan f); [discriminate|].
    rewrite FloatAxioms.eqb_spec.
    change (Prim2SF 0) with (S754_zero false).
    destruct (Prim2SF f) as [s|s| |s m e]; simpl; try discriminate;
      try (destruct (PrimFloat.ltb 0 f); discriminate);
      intros _; try reflexivity; destruct s; reflexivity.
Qed.

Lemma eq_atom_str (v : value) (s : pystr) :
  eq_atom v (AStr s) = true <-> v = VStr s.
Proof.
  split.
  - destruct v as [a| |]; simpl; try discriminate.
    destruct a as [|b|z|f|t]; simpl; try discriminate.
    intros H. apply str_eqb_eq in H. now subst.
  - intros ->. simpl. apply str_eqb_refl.
Qed.

(** A field that is there is what [get] finds, whatever the default. *)
Lemma get_or_of_get (v x default : value) (k : string) :
  get v k = Ok x -> x <> VNone -> get_or v k default = Ok x.
Proof.
  unfold get, get_or. destruct v as [a|l|d]; try discriminate.
  destruct (lookup (AStr (py k)) d) as [y|]; intros H Hx.
  - exact H.
  - inversion H. congruence.
Qed.

Lemma float_100_is_not_0 : VFloat 100 <> VFloat 0.
Proof.
  intros H. inversion H.
Qed.

Lemma filter_length_Forall2 {A B} (p : A -> bool) (q : B -> bool)
    (l : list A) (l' : list B) :
  Forall2 (fun x y => p x = q y) l l' ->
  List.length (List.filter p l) = List.length (List.filter q l').
Proof.
  induction 1 as [|x y l l' Hxy _ IH]; simpl; [reflexivity|].
  rewrite Hxy. destruct (q y); simpl; congruence.
Qed.

Lemma rfilter_total {A} (p : A -> res bool) (l : list A) :
  Forall (fun x => exists b, p x = Ok b) l ->
  rfilter p l = Ok (List.filter (holds p) l).
Proof.
  induction 1 as [|x l [b Hx] _ IH]; simpl; [reflexivity|].
  unfold holds at 1. now rewrite Hx, IH.
Qed.

End PyFacts.

(** ** The order of strings *)

Module StrOrder.
Import Py.

Lemma str_ltb_irrefl (a : pystr) : str_ltb a a = false.
Proof.
  induction a as [|x a IH]; simpl; [reflexivity|].
  now rewrite N.ltb_irrefl, N.eqb_refl.
Qed.

Lemma str_ltb_trans (a b c : pystr) :
  str_ltb a b = true -> str_ltb b c = true -> str_ltb a c = true.
Proof.
  revert b c. induction a as [|x a IH]; intros [|y b] [|z c]; simpl;
    try easy.
  destruct (N.ltb_spec x y), (N.ltb_spec y z), (N.ltb_spec x z);
    destruct (N.eqb_spec x y), (N.eqb_spec y z), (N.eqb_spec x z);
    try easy; try lia.
  apply IH.
Qed.

Lemma str_ltb_total (a b : pystr) :
  a <> b -> str_ltb a b = true \/ str_ltb b a = true.
Proof.
  revert b. induction a as [|x a IH]; intros [|y b] H; simpl; auto.
  destruct (N.ltb_spec x y), (N.ltb_spec y x);
    destruct (N.eqb_spec x y), (N.eqb_spec y x); auto; try lia.
  apply IH. congruence.
Qed.

End StrOrder.

(** ** ISO dates *)

Module DateFacts.
Import Py Dates.

Lemma is_digit_bounds c : is_digit c = true -> (48 <= c <= 57)%N.
Proof.
  unfold is_digit. intros H. apply andb_true_iff in H as [H1 H2].
  apply N.leb_le in H1, H2. lia.
Qed.

(** The order of two ISO dates as strings is their order as dates. *)
Lemma iso_order (a b : pystr) :
  is_iso_date a = true -> is_iso_date b = true ->
  str_ltb a b = true -> date_lt (iso_ymd a) (iso_ymd b).
Proof.
  intros Ha Hb.
  destruct a as [|a1 [|a2 [|a3 [|a4 [|a5 [|a6 [|a7 [|a8 [|a9 [|a10 [|]]]]]]]]]]];
    try discriminate.
  destruct b as [|b1 [|b2 [|b3 [|b4 [|b5 [|b6 [|b7 [|b8 [|b9 [|b10 [|]]]]]]]]]]];
    try discriminate.
  unfold is_iso_date in Ha, Hb.
  repeat (apply andb_true_iff in Ha; destruct Ha as [Ha ?]).
  repeat (apply andb_true_iff in Hb; destruct Hb as [Hb ?]).
  repeat match goal with
         | H : is_digit _ = true |- _ => apply is_digit_bounds in H
         | H : N.eqb _ _ = true |- _ => apply N.eqb_eq in H
         end.
  subst. unfold iso_ymd, date_lt, digit_value. simpl str_ltb.
  repeat match goal with
         | |- context [N.ltb ?x ?y] => destruct (N.ltb_spec x y)
         | |- context [N.eqb ?x ?y] => destruct (N.eqb_spec x y)
         end; intros; try discriminate; try lia.
Qed.

End DateFacts.

(** ** The calendar arithmetic *)

Module CalendarArith.
Import Py Dates.

(** The month and day of every day of a year, checked one by one. *)
Lemma month_and_day_checked leap :
  forallb (month_and_day_ok leap) (List.map Z.of_nat (seq 0 365)) = true.
Proof. destruct leap; vm_compute; reflexivity. Qed.

Lemma month_and_day_spec leap n :
  0 <= n < 365 ->
  let '(m, d) := month_and_day leap n in
  1 <= m <= 12 /\ 1 <= d <= 31
  /\ DAYS_BEFORE_MONTH m + (if (2 <? m) && leap then 1 else 0) + d = n + 1.
Proof.
  intros Hn.
  pose proof (month_and_day_checked leap) as H.
  rewrite forallb_forall in H. specialize (H n).
  assert (Hin : In n (List.map Z.of_nat (seq 0 365))).
  { apply in_map_iff. exists (Z.to_nat n). split; [lia|].
    apply in_seq. lia. }
  specialize (H Hin). unfold month_and_day_ok in H.
  destruct (month_and_day leap n) as [m d].
  repeat (apply andb_true_iff in H; destruct H as [H ?]).
  repeat match goal with
         | H : (_ <=? _) = true |- _ => apply Z.leb_le in H
         | H : (_ =? _) = true |- _ => apply Z.eqb_eq in H
         end.
  lia.
Qed.

Lemma month_and_day_in_month_checked leap :
  forallb (month_and_day_in_month leap) (List.map Z.of_nat (seq 0 365)) = true.
Proof. destruct leap; vm_compute; reflexivity. Qed.

Lemma month_and_day_day leap n :
  0 <= n < 365 ->
  let '(m, d) := month_and_day leap n in
  d <= DAYS_IN_MONTH m + (if (m =? 2) && leap then 1 else 0).
Proof.
  intros Hn.
  pose proof (month_and_day_in_month_checked leap) as H.
  rewrite forallb_forall in H. specialize (H n).
  assert (Hin : In n (List.map Z.of_nat (seq 0 365))).
  { apply in_map_iff. exists (Z.to_nat n). split; [lia|].
    apply in_seq. lia. }
  specialize (H Hin). unfold month_and_day_in_month in H.
  destruct (month_and_day leap n) as [m d].
  now apply Z.leb_le in H.
Qed.

Lemma days_in_month_table y m :
  1 <= m <= 12 ->
  days_in_month y m
  = DAYS_IN_MONTH m + (if (m =? 2) && is_leap y then 1 else 0).
Proof.
  intros Hm.
  assert (H : m = 1 \/ m = 2 \/ m = 3 \/ m = 4 \/ m = 5 \/ m = 6 \/ m = 7
              \/ m = 8 \/ m = 9 \/ m = 10 \/ m = 11 \/ m = 12) by lia.
  repeat (destruct H as [->|H]); try subst m;
    unfold days_in_month; simpl; try reflexivity;
    destruct (is_leap y); reflexivity.
Qed.

Lemma ord2ymd_spec n :
  1 <= n ->
  let '(y, m, d) := ord2ymd n in
  1 <= m <= 12 /\ 1 <= d <= 31 /\ ymd2ord y m d = n
  /\ (n <= MAXORDINAL -> y <= 9999)
  /\ (ymd2ord 1000 1 1 <= n -> 1000 <= y)
  /\ d <= days_in_month y m.
Proof.
  intros Hn. unfold ord2ymd.
  set (n0 := n - 1).
  set (a := n0 / 146097). set (r1 := n0 mod 146097).
  set (b := r1 / 36524). set (r2 := r1 mod 36524).
  set (c := r2 / 1461). set (r3 := r2 mod 1461).
  set (e := r3 / 365). set (r4 := r3 mod 365).
  assert (H1 : n0 = 146097 * a + r1 /\ 0 <= r1 < 146097).
  { split; [apply Z.div_mod; lia | apply Z.mod_pos_bound; lia]. }
  assert (H2 : r1 = 36524 * b + r2 /\ 0 <= r2 < 36524).
  { split; [apply Z.div_mod; lia | apply Z.mod_pos_bound; lia]. }
  assert (H3 : r2 = 1461 * c + r3 /\ 0 <= r3 < 1461).
  { split; [apply Z.div_mod; lia | apply Z.mod_pos_bound; lia]. }
  assert (H4 : r3 = 365 * e + r4 /\ 0 <= r4 < 365).
  { split; [apply Z.div_mod; lia | apply Z.mod_pos_bound; lia]. }
  assert (Ha : 0 <= a) by (apply Z.div_pos; lia).
  assert (Hb : 0 <= b) by (apply Z.div_pos; lia).
  assert (Hc : 0 <= c) by (apply Z.div_pos; lia).
  assert (He : 0 <= e) by (apply Z.div_pos; lia).
  assert (Hn0 : n = n0 + 1) by (unfold n0; lia).
  clearbody a r1 b r2 c r3 e r4 n0.
  change (ymd2ord 1000 1 1) with 364878. unfold MAXORDINAL.
  destruct ((e =? 4) || (b =? 4)) eqn:Esp.
  - apply orb_true_iff in Esp.
    assert (Hsp : e = 4 \/ b = 4) by (destruct Esp as [E|E]; apply Z.eqb_eq in E; auto).
    clear Esp.
    split; [lia|]. split; [lia|].
    split; [|split; [lia|split; [lia|reflexivity]]].
    unfold ymd2ord, days_before_month, days_before_year, is_leap.
    change (DAYS_BEFORE_MONTH 12) with 334. change (2 <? 12) with true.
    simpl andb.
    set (y := a * 400 + 1 + b * 100 + c * 4 + e - 1).
    assert (Hy4 : y mod 4 = 0) by (unfold y; Z.div_mod_to_equations; lia).
    assert (Hy100 : y mod 100 <> 0 \/ y mod 400 = 0)
      by (unfold y; Z.div_mod_to_equations; lia).
    rewrite Hy4. simpl.
    replace (negb (y mod 100 =? 0) || (y mod 400 =? 0)) with true.
    2:{ symmetry. apply orb_true_iff. destruct Hy100 as [H|H].
        - left. apply negb_true_iff. now apply Z.eqb_neq.
        - right. now apply Z.eqb_eq. }
    unfold y. Z.div_mod_to_equations. lia.
  - apply orb_false_iff in Esp as [Ee Eb].
    apply Z.eqb_neq in Ee, Eb.
    set (leap := (e =? 3) && (negb (c =? 24) || (b =? 3))).
    pose proof (month_and_day_spec leap r4 (proj2 H4)) as Hmd.
    pose proof (month_and_day_day leap r4 (proj2 H4)) as Hday.
    destruct (month_and_day leap r4) as [m d].
    destruct Hmd as (Hm & Hd & Hsum).
    split; [lia|]. split; [lia|].
    set (y := a * 400 + 1 + b * 100 + c * 4 + e).
    assert (Hleap : is_leap y = leap).
    { unfold is_leap, leap.
      destruct (Z.eqb_spec e 3), (Z.eqb_spec c 24), (Z.eqb_spec b 3);
        simpl;
        repeat match goal with
               | |- context [?x mod ?k =? 0] =>
                   destruct (Z.eqb_spec (x mod k) 0)
               end; simpl; try reflexivity; exfalso;
        unfold y in *; Z.div_mod_to_equations; lia. }
    split; [|split; [|split]].
    + unfold ymd2ord, days_before_month. rewrite Hleap.
      unfold days_before_year. unfold y.
      Z.div_mod_to_equations. lia.
    + unfold y. lia.
    + unfold y. lia.
    + rewrite (days_in_month_table _ _ Hm), Hleap. exact Hday.
Qed.

(** A day has one date: the year, the month and the day of the month are
    determined by the ordinal. *)
Lemma position_in_year y m d :
  1 <= m <= 12 -> 1 <= d <= days_in_month y m ->
  1 <= days_before_month y m + d <= 365 + (if is_leap y then 1 else 0).
Proof.
  intros Hm.
  assert (H : m = 1 \/ m = 2 \/ m = 3 \/ m = 4 \/ m = 5 \/ m = 6 \/ m = 7
              \/ m = 8 \/ m = 9 \/ m = 10 \/ m = 11 \/ m = 12) by lia.
  unfold days_before_month, days_in_month.
  repeat (destruct H as [->|H]); try subst m;
    destruct (is_leap y);
    cbv [DAYS_BEFORE_MONTH nth Z.to_nat Pos.to_nat Pos.iter_op Nat.add Z.ltb
         Z.compare Pos.compare Pos.compare_cont andb];
    lia.
Qed.

Lemma days_before_next_year y :
  days_before_year (y + 1)
  = days_before_year y + 365 + (if is_leap y then 1 else 0).
Proof.
  unfold days_before_year, is_leap.
  replace (y + 1 - 1) with y by lia.
  destruct (Z.eqb_spec (y mod 4) 0), (Z.eqb_spec (y mod 100) 0),
    (Z.eqb_spec (y mod 400) 0); simpl;
    Z.div_mod_to_equations; lia.
Qed.

Lemma days_before_year_mono y y' :
  y <= y' -> days_before_year y <= days_before_year y'.
Proof.
  intros H. unfold days_before_year. Z.div_mod_to_equations. lia.
Qed.

Lemma month_and_day_unique y m d m' d' :
  1 <= m <= 12 -> 1 <= d <= days_in_month y m ->
  1 <= m' <= 12 -> 1 <= d' <= days_in_month y m' ->
  days_before_month y m + d = days_before_month y m' + d' ->
  m = m' /\ d = d'.
Proof.
  intros Hm Hd Hm' Hd'.
  assert (H : m = 1 \/ m = 2 \/ m = 3 \/ m = 4 \/ m = 5 \/ m = 6 \/ m = 7
              \/ m = 8 \/ m = 9 \/ m = 10 \/ m = 11 \/ m = 12) by lia.
  assert (H' : m' = 1 \/ m' = 2 \/ m' = 3 \/ m' = 4 \/ m' = 5 \/ m' = 6
               \/ m' = 7 \/ m' = 8 \/ m' = 9 \/ m' = 10 \/ m' = 11
               \/ m' = 12) by lia.
  revert Hd Hd'. unfold days_before_month, days_in_month.
  destruct (is_leap y);
    repeat (destruct H as [->|H]); try subst m;
    repeat (destruct H' as [->|H']); try subst m';
    cbv [DAYS_BEFORE_MONTH nth Z.to_nat Pos.to_nat Pos.iter_op Nat.add Z.ltb
         Z.compare Pos.compare Pos.compare_cont andb];
    lia.
Qed.

Lemma is_date_of_unique ordinal y m d y' m' d' :
  is_date_of ordinal y m d -> is_date_of ordinal y' m' d' ->
  y = y' /\ m = m' /\ d = d'.
Proof.
  intros (Hm & Hd & Ho) (Hm' & Hd' & Ho').
  pose proof (position_in_year y m d Hm Hd) as Hp.
  pose proof (position_in_year y' m' d' Hm' Hd') as Hp'.
  unfold ymd2ord in Ho, Ho'.
  assert (Hy : y = y').
  { destruct (Z.lt_trichotomy y y') as [Hlt|[Heq|Hgt]];
      [exfalso|exact Heq|exfalso].
    - pose proof (days_before_next_year y) as Hn.
      pose proof (days_before_year_mono (y + 1) y') as Hmono. lia.
    - pose proof (days_before_next_year y') as Hn.
      pose proof (days_before_year_mono (y' + 1) y) as Hmono. lia. }
  subst y'. split; [reflexivity|].
  apply (month_and_day_unique y); auto. lia.
Qed.

(** A date of a four-digit year prints as the ISO text of the date of its
    day. *)
Lemma strftime_ymd_text t :
  ymd2ord 1000 1 1 <= toordinal t <= MAXORDINAL ->
  exists y m d,
    is_date_of (toordinal t) y m d
    /\ 1000 <= y <= 9999
    /\ strftime_ymd t = iso_text y m d.
Proof.
  intros [Hlo Hhi]. unfold strftime_ymd.
  assert (H1 : 1 <= toordinal t).
  { change (ymd2ord 1000 1 1) with 364878 in Hlo. lia. }
  pose proof (ord2ymd_spec (toordinal t) H1) as H.
  destruct (ord2ymd (toordinal t)) as [[y m] d].
  destruct H as (Hm & Hd & Hord & Hy1 & Hy2 & Hday).
  exists y, m, d. split; [|split].
  - unfold is_date_of. repeat split; try lia; exact Hord.
  - split; [exact (Hy2 Hlo)|exact (Hy1 Hhi)].
  - reflexivity.
Qed.

End CalendarArith.

(** ** The upstream client and the tools *)

Module ServerFacts.
Import Py Dates Sonarr PyFacts.
Local Open Scope string_scope.
Local Open Scope list_scope.
Local Open Scope Z_scope.

(** Going through the steps of a reshaping that ended well. *)
Ltac step_through H :=
  repeat match type of H with
         | rbind ?r _ = Ok _ =>
             let E := fresh "E" in
             destruct r eqn:E; simpl in H; [|discriminate]
         end.

Section Properties.

Context {svc : Service}.

(** *** Framing: a computation only adds to the trace *)

Lemma framed_ret {A} (a : A) : framed (ret a).
Proof. intros u. exists (Ok a), u, []. intros t. now rewrite app_nil_r. Qed.

Lemma framed_raise {A} (e : exn) : framed (@raise _ A e).
Proof. intros u. exists (Raise e), u, []. intros t. now rewrite app_nil_r. Qed.

Lemma framed_lift {A} (r : res A) : framed (lift r).
Proof. intros u. exists r, u, []. intros t. now rewrite app_nil_r. Qed.

Lemma framed_logger lvl template args : framed (logger lvl template args).
Proof. intros u. exists (Ok tt), u, [Logged lvl template args]. reflexivity. Qed.

Lemma framed_send r : framed (send r).
Proof.
  intros u. unfold send. simpl.
  destruct (transport r u) as [out u'] eqn:E.
  exists out, u', [Exchange r out]. reflexivity.
Qed.

Lemma framed_now : framed now.
Proof.
  intros u. unfold now. simpl.
  destruct (clock u) as [t' u'] eqn:E.
  exists (Ok t'), u', []. intros t. now rewrite app_nil_r.
Qed.

Lemma framed_bind {A B} (m : M A) (k : A -> M B) :
  framed m -> (forall a, framed (k a)) -> framed (bind m k).
Proof.
  intros Hm Hk u. destruct (Hm u) as (r & u1 & evs & Hrun).
  destruct r as [a|e].
  - destruct (Hk a u1) as (r2 & u2 & evs2 & Hrun2).
    exists r2, u2, (evs ++ evs2). intros t.
    unfold bind. rewrite Hrun, Hrun2. now rewrite app_assoc.
  - exists (Raise e), u1, evs. intros t. unfold bind. now rewrite Hrun.
Qed.

Lemma framed_try_except {A} (m : M A) (h : exn -> M A) :
  framed m -> (forall e, framed (h e)) -> framed (try_except m h).
Proof.
  intros Hm Hh u. destruct (Hm u) as (r & u1 & evs & Hrun).
  destruct r as [a|e].
  - exists (Ok a), u1, evs. intros t. unfold try_except. now rewrite Hrun.
  - destruct (Hh e u1) as (r2 & u2 & evs2 & Hrun2).
    exists r2, u2, (evs ++ evs2). intros t.
    unfold try_except. rewrite Hrun, Hrun2. now rewrite app_assoc.
Qed.

Ltac framing :=
  repeat first
    [ apply framed_ret | apply framed_raise | apply framed_lift
    | apply framed_logger | apply framed_send | apply framed_now
    | apply framed_bind; [|intros ?]
    | apply framed_try_except; [|intros ?]
    | match goal with
      | |- framed (if ?c then _ else _) => destruct c
      | |- framed (match ?x with _ => _ end) => destruct x
      end ].

Lemma framed_make_api_request endpoint method data :
  framed (make_api_request endpoint method data).
Proof. unfold make_api_request. cbv zeta. framing. Qed.

Lemma framed_except_exception tool e : framed (except_exception tool e).
Proof. unfold except_exception. framing. Qed.

(** A call that starts with a log line: the line is the first event, and
    nothing else depends on it. *)
Lemma framed_after_logger {A} (m : M A) :
  framed m ->
  forall u, exists r u' evs,
    forall lvl template args,
      run (bind (logger lvl template args) (fun _ => m)) u
      = (r, {| outside := u'; trace := Logged lvl template args :: evs |}).
Proof.
  intros Hm u. destruct (Hm u) as (r & u' & evs & H).
  exists r, u', evs. intros lvl template args.
  unfold run, bind, logger, emit. simpl. now rewrite H.
Qed.

Lemma exchanges_app a b : exchanges (a ++ b) = exchanges a ++ exchanges b.
Proof.
  induction a as [|[r o|lvl tpl args] a IH]; simpl; congruence.
Qed.

Lemma try_except_bind {A B} (m : M A) (k : A -> M B) h (w : world) :
  try_except (bind m k) h w
  = match m w with
    | (Ok a, w') => try_except (k a) h w'
    | (Raise e, w') => h e w'
    end.
Proof. unfold try_except, bind. now destruct (m w) as [[a|e] w']. Qed.

(** *** The upstream client *)

Lemma upper_GET : str_eqb (upper (py "GET")) (py "GET") = true.
Proof. reflexivity. Qed.

(** What [make_api_request(endpoint)] does: one exchange, whose outcome is
    handed on, a client error being logged and wrapped into the uniform
    exception. *)
Lemma api_get_run endpoint (w : world) :
  api_get endpoint w =
  let '(out, u') := transport (fetch endpoint) (outside w) in
  match out with
  | Raise (ClientError cause) =>
      (Raise (PyException (py "Sonarr API request failed: " ++ cause)),
       {| outside := u';
          trace := (trace w ++ [Exchange (fetch endpoint) out])
                   ++ [Logged ERROR "API request failed: {}"
                         [LogExn (ClientError cause)]] |})
  | _ => (out, {| outside := u';
                  trace := trace w ++ [Exchange (fetch endpoint) out] |})
  end.
Proof.
  unfold api_get, make_api_request. cbv zeta. rewrite upper_GET.
  unfold try_except, send, fetch.
  destruct (transport _ (outside w)) as [out u'].
  destruct out as [v|e]; [reflexivity|].
  destruct e; reflexivity.
Qed.

(** C10.  A method whose upper-case form is none of GET, POST, PUT and
    DELETE: [make_api_request] sends nothing upstream, logs nothing, and
    returns [None], neither a document nor an exception. *)
Theorem make_api_request_unsupported_method endpoint method data (w : world) :
  ~ In (upper method) [py "GET"; py "POST"; py "PUT"; py "DELETE"] ->
  make_api_request endpoint method data w = (Ok VNone, w).
Proof.
  intros H. unfold make_api_request. cbv zeta.
  rewrite !str_eqb_neq; [reflexivity| | | |];
    intros E; apply H; rewrite E; simpl; tauto.
Qed.

(** *** Add series *)

(** C4.  [add_series] without a root folder path, when the root-folder
    fetch returns an empty list: the result is an error whose message
    contains "No root folders configured", the root-folder fetch is the only
    request of the call (no quality-profile fetch, no lookup, no create), and
    the upstream service is left as that fetch left it. *)
Theorem add_series_without_root_folders
    tvdb_id title quality_profile_id monitored (u u' : upstream) :
  transport (fetch (py "rootfolder")) u = (Ok (PList []), u') ->
  exists msg,
    fst (run (add_series tvdb_id title None quality_profile_id monitored) u)
    = Ok (Error (Message msg))
    /\ contains (py "No root folders configured") msg = true
    /\ requests (trace (snd (run (add_series tvdb_id title None
                                   quality_profile_id monitored) u)))
       = [fetch (py "rootfolder")]
    /\ outside (snd (run (add_series tvdb_id title None
                           quality_profile_id monitored) u)) = u'.
Proof.
  intros H. exists (py "No root folders configured in Sonarr").
  unfold run, add_series, bind, try_except, logger, emit.
  rewrite api_get_run. simpl outside. rewrite H. simpl.
  repeat split; reflexivity.
Qed.

(** *** List series *)

(** The summary keeps the [monitored] field of the series. *)
Lemma series_summary_monitored series d :
  series_summary series = Ok d ->
  exists m, get series "monitored" = Ok m
            /\ subscript d (AStr (py "monitored")) = Ok m.
Proof.
  unfold series_summary. destruct series as [a|l|fields]; try discriminate.
  simpl. intros H. step_through H.
  inversion H; subst. eexists. split; reflexivity.
Qed.

(** A summary whose series has [monitored == True] has a true
    [monitored]. *)
Lemma monitored_summaries_are_true kept summaries :
  rmap series_summary kept = Ok summaries ->
  Forall (fun s => monitored_is true s = Ok true) kept ->
  rfilter (field_true "monitored") summaries = Ok summaries.
Proof.
  intros Es Hk. apply rfilter_all. apply rmap_Forall2 in Es.
  induction Es as [|s d kept summaries Hsd _ IH]; constructor.
  - inversion Hk as [|? ? Hs _]; subst.
    apply series_summary_monitored in Hsd as (m & Hm & Hd).
    unfold field_true. rewrite Hd. simpl.
    unfold monitored_is in Hs. rewrite Hm in Hs. simpl in Hs.
    inversion Hs as [Heq]. rewrite Heq.
    now rewrite (eq_true_truthy _ Heq).
  - apply IH. now inversion Hk.
Qed.

(** C1, as the code has it.  With [monitored=True], on a collection of
    series documents, [total_series] is the number of series returned, that
    is of the series whose [monitored] field equals [True], not the size of
    the collection fetched; [monitored_count] is that number too, and the
    list holds the summaries of those series, in order. *)
Theorem get_series_list_monitored_totals
    flag items summaries (u u' : upstream) :
  transport (fetch (py "series")) u = (Ok (PList items), u') ->
  Forall is_document items ->
  rmap series_summary (List.filter (holds (monitored_is true)) items)
  = Ok summaries ->
  fst (run (get_series_list (Some true) flag) u)
  = Ok (Success
          (obj [("total_series", VInt (Z.of_nat (List.length summaries)));
                ("monitored_count", VInt (Z.of_nat (List.length summaries)));
                ("series", PList summaries)]))
  /\ List.length summaries
     = List.length (List.filter (holds (monitored_is true)) items).
Proof.
  intros H Hdocs Hmap.
  assert (Hf : rfilter (monitored_is true) items
               = Ok (List.filter (holds (monitored_is true)) items)).
  { apply rfilter_total. eapply Forall_impl; [|exact Hdocs].
    intros s [fields ->]. unfold monitored_is. simpl. eauto. }
  assert (Hk : Forall (fun s => monitored_is true s = Ok true)
                 (List.filter (holds (monitored_is true)) items)).
  { apply Forall_forall. intros s Hs.
    apply filter_In in Hs as [_ Hs]. unfold holds in Hs.
    destruct (monitored_is true s) as [[|]|]; congruence. }
  split; [|now apply rmap_length in Hmap].
  unfold run, get_series_list, bind, try_except, logger, emit.
  rewrite api_get_run. simpl outside. rewrite H. simpl.
  rewrite Hf. simpl. rewrite Hmap. simpl.
  rewrite (monitored_summaries_are_true _ _ Hmap Hk). reflexivity.
Qed.

(** C6.  Two calls of [get_series_list] that differ only in
    [include_season_images] return the same document, send the same
    requests and leave the upstream service in the same state (the flag
    shows in the first log line only). *)
Theorem include_season_images_has_no_effect monitored a b (u : upstream) :
  fst (run (get_series_list monitored a) u)
  = fst (run (get_series_list monitored b) u)
  /\ outside (snd (run (get_series_list monitored a) u))
     = outside (snd (run (get_series_list monitored b) u))
  /\ requests (trace (snd (run (get_series_list monitored a) u)))
     = requests (trace (snd (run (get_series_list monitored b) u))).
Proof.
  unfold get_series_list.
  match goal with
  | |- context [bind (logger _ _ [_; LogValue (opt_bool a)]) (fun _ => ?m)] =>
      assert (Hm : framed m)
  end.
  { framing; try apply framed_make_api_request;
      try apply framed_except_exception. }
  destruct (framed_after_logger _ Hm u) as (r & u' & evs & H).
  rewrite !H. simpl. auto.
Qed.

(** *** Queue *)

Lemma progress_of_empty_item item :
  get item "size" = Ok (VInt 0) ->
  get item "sizeleft" = Ok (VInt 0) ->
  progress item = Ok (VFloat 100).
Proof.
  intros Hsize Hleft. unfold progress.
  rewrite (get_or_of_get _ _ _ _ Hleft) by discriminate.
  rewrite (get_or_of_get _ _ _ _ Hsize) by discriminate.
  reflexivity.
Qed.

(** C2, as the code has it.  For a queue record whose [size] is 0 and whose
    [sizeleft] is 0, the divisor is floored at 1 and the progress is
    [(1 - 0/1) * 100 = 100.0]; that is the [progress] of the record in the
    queue that [get_queue] returns. *)
Theorem queue_progress_of_empty_item item :
  get item "size" = Ok (VInt 0) ->
  get item "sizeleft" = Ok (VInt 0) ->
  py_max (VInt 0) (VInt 1) = Ok (VInt 1)
  /\ progress item = Ok (VFloat 100)
  /\ (forall info, queue_info item = Ok info ->
                   subscript info (AStr (py "progress")) = Ok (VFloat 100)).
Proof.
  intros Hsize Hleft.
  pose proof (progress_of_empty_item _ Hsize Hleft) as Hp.
  split; [reflexivity|]. split; [exact Hp|].
  intros info H. unfold queue_info in H. rewrite Hp in H.
  step_through H. inversion H; subst. reflexivity.
Qed.

(** [has_status] is the equality with the string: nothing but the string
    itself equals it. *)
Lemma has_status_spec s item :
  has_status s item = true <-> get item "status" = Ok (VStr (py s)).
Proof.
  unfold has_status. destruct (get item "status") as [v|e].
  - rewrite eq_atom_str. split; congruence.
  - split; discriminate.
Qed.

Lemma queue_info_status item info :
  queue_info item = Ok info ->
  exists status,
    get item "status" = Ok status
    /\ subscript info (AStr (py "status")) = Ok status.
Proof.
  unfold queue_info. intros H. step_through H. inversion H; subst.
  eexists. split; reflexivity.
Qed.

(** C9.  In the summary of [get_queue], [total_items] is the number of
    records, [active_downloads] the number of records whose status is
    "downloading" or "queued", and [completed_items] the number of records
    whose status is "completed": a record of any other status counts toward
    neither. *)
Theorem get_queue_classification
    flag queue_data items queue_items (u u' : upstream) :
  transport (fetch (queue_endpoint flag)) u = (Ok queue_data, u') ->
  get_or queue_data "records" (PList []) = Ok (PList items) ->
  rmap queue_info items = Ok queue_items ->
  fst (run (get_queue flag) u)
  = Ok (Success
          (obj [("total_items", VInt (Z.of_nat (List.length items)));
                ("active_downloads",
                 VInt (Z.of_nat
                         (List.length
                            (List.filter
                               (fun item => has_status "downloading" item
                                            || has_status "queued" item)
                               items))));
                ("completed_items",
                 VInt (Z.of_nat
                         (List.length
                            (List.filter (has_status "completed") items))));
                ("queue", PList queue_items)])).
Proof.
  intros Ht Hrec Hmap.
  assert (Hst : Forall2 (fun item info =>
                  exists status, get item "status" = Ok status
                    /\ subscript info (AStr (py "status")) = Ok status)
                  items queue_items).
  { apply rmap_Forall2 in Hmap. clear -Hmap.
    induction Hmap; constructor; auto using queue_info_status. }
  assert (Ha : rfilter is_active queue_items
               = Ok (List.filter (holds is_active) queue_items)).
  { apply rfilter_total. clear -Hst.
    induction Hst as [|x y ? ? (st & _ & Hy) _ IH]; constructor; auto.
    unfold is_active. rewrite Hy. simpl. eauto. }
  assert (Hc : rfilter is_completed queue_items
               = Ok (List.filter (holds is_completed) queue_items)).
  { apply rfilter_total. clear -Hst.
    induction Hst as [|x y ? ? (st & _ & Hy) _ IH]; constructor; auto.
    unfold is_completed. rewrite Hy. simpl. eauto. }
  unfold run, get_queue, bind, try_except, logger, emit.
  rewrite api_get_run. simpl outside. rewrite Ht.
  unfold lift. rewrite Hrec. simpl. rewrite Hmap. simpl.
  rewrite Ha, Hc. simpl. unfold count.
  rewrite (rmap_length _ _ _ Hmap).
  rewrite <- (filter_length_Forall2
                (fun item => has_status "downloading" item
                             || has_status "queued" item)
                (holds is_active) items queue_items).
  2:{ clear -Hst. induction Hst as [|x y ? ? (st & Hx & Hy) _ IH];
        constructor; auto.
      unfold has_status, holds, is_active. now rewrite Hx, Hy. }
  rewrite <- (filter_length_Forall2 (has_status "completed")
                (holds is_completed) items queue_items).
  2:{ clear -Hst. induction Hst as [|x y ? ? (st & Hx & Hy) _ IH];
        constructor; auto.
      unfold has_status, holds, is_completed. now rewrite Hx, Hy. }
  reflexivity.
Qed.

(** *** Series details *)

Lemma overview_cut_str n doc s :
  get_or doc "overview" (VStr []) = Ok (VStr s) ->
  overview_cut n doc
  = Ok (VStr (if (List.length s <=? n)%nat then s
              else firstn n s ++ py "...")).
Proof.
  intros H. unfold overview_cut. rewrite H. simpl.
  destruct (Nat.leb_spec (List.length s) n) as [Hle|Hgt].
  - replace (Z.of_nat n <? Z.of_nat (List.length s)) with false
      by (symmetry; apply Z.ltb_ge; lia).
    now rewrite app_nil_r, firstn_all2.
  - replace (Z.of_nat n <? Z.of_nat (List.length s)) with true
      by (symmetry; apply Z.ltb_lt; lia).
    reflexivity.
Qed.

Lemma series_details_overview series_data s details :
  get_or series_data "overview" (VStr []) = Ok (VStr s) ->
  series_details series_data = Ok details ->
  exists basic_info,
    subscript details (AStr (py "basic_info")) = Ok basic_info
    /\ subscript basic_info (AStr (py "overview"))
       = Ok (VStr (if (List.length s <=? 500)%nat then s
                   else firstn 500 s ++ py "...")).
Proof.
  intros Ho H. unfold series_details in H.
  rewrite (overview_cut_str 500 _ _ Ho) in H.
  step_through H. inversion H; subst.
  eexists. split; reflexivity.
Qed.

(** C5.  For a series document that is reshaped, the overview that
    [get_series_details] returns is the overview of the series, unchanged
    and with no marker, when it has at most 500 characters, and its first
    500 characters followed by "..." when it has more (an absent overview is
    the empty string). *)
Theorem get_series_details_overview
    series_id series_data s details (u u' : upstream) :
  transport (fetch (py "series/" ++ str_of_int series_id)) u
  = (Ok series_data, u') ->
  get_or series_data "overview" (VStr []) = Ok (VStr s) ->
  series_details series_data = Ok details ->
  fst (run (get_series_details series_id) u) = Ok (Success details)
  /\ exists basic_info,
       subscript details (AStr (py "basic_info")) = Ok basic_info
       /\ subscript basic_info (AStr (py "overview"))
          = Ok (VStr (if (List.length s <=? 500)%nat then s
                      else firstn 500 s ++ py "...")).
Proof.
  intros Ht Ho Hd.
  destruct (series_details_overview _ _ _ Ho Hd) as (b & Hb & Hov).
  split; [|now exists b].
  assert (Htitle : exists t, subscript b (AStr (py "title")) = Ok t).
  { unfold series_details in Hd. step_through Hd. inversion Hd; subst.
    simpl in Hb. inversion Hb; subst. eexists. reflexivity. }
  destruct Htitle as [t Htitle].
  unfold run, get_series_details, bind, try_except, logger, emit.
  rewrite api_get_run. simpl outside. rewrite Ht.
  unfold lift. rewrite Hd, Hb. simpl. rewrite Htitle. reflexivity.
Qed.

End Properties.

End ServerFacts.

(** ** The tools on the scripted upstream *)

Module ServerExamples.
Import Py Dates Sonarr PyFacts ServerFacts Scripted.
Local Open Scope string_scope.
Local Open Scope list_scope.
Local Open Scope Z_scope.

#[local] Existing Instance service.

(** [make_api_request("series/1", "patch")] *)
Lemma make_api_request_unsupported_method_witness :
  ~ In (upper (py "patch")) [py "GET"; py "POST"; py "PUT"; py "DELETE"]
  /\ make_api_request (py "series/1") (py "patch") None (fresh [])
     = (Ok VNone, fresh []).
Proof.
  assert (H : ~ In (upper (py "patch"))
                [py "GET"; py "POST"; py "PUT"; py "DELETE"]).
  { vm_compute. intuition discriminate. }
  split; [exact H|].
  exact (make_api_request_unsupported_method
           (py "series/1") (py "patch") None (fresh []) H).
Defined.

(** [add_series(42, "Andor")] when no root folder is configured. *)
Lemma add_series_without_root_folders_witness :
  transport (fetch (py "rootfolder")) (answering [Ok (PList [])])
  = (Ok (PList []), answering [])
  /\ exists msg,
       fst (run (add_series 42 (py "Andor") None None (Some true))
              (answering [Ok (PList [])]))
       = Ok (Error (Message msg))
       /\ contains (py "No root folders configured") msg = true
       /\ requests (trace (snd (run (add_series 42 (py "Andor") None None
                                       (Some true))
                                  (answering [Ok (PList [])]))))
          = [fetch (py "rootfolder")]
       /\ outside (snd (run (add_series 42 (py "Andor") None None (Some true))
                          (answering [Ok (PList [])])))
          = answering [].
Proof.
  split; [reflexivity|].
  apply (add_series_without_root_folders (svc := service)).
  reflexivity.
Defined.

(** [get_series_list(monitored=True)] on the library of five series. *)
Lemma get_series_list_monitored_totals_witness :
  transport (fetch (py "series")) (answering [Ok (PList five_series)])
  = (Ok (PList five_series), answering [])
  /\ Forall is_document five_series
  /\ rmap series_summary
       (List.filter (holds (monitored_is true)) five_series)
     = Ok [value_of (series_summary (a_series 1 "Andor" true));
           value_of (series_summary (a_series 3 "Severance" true))]
  /\ fst listing
     = Ok (Success
             (obj [("total_series",
                    VInt (Z.of_nat
                            (List.length
                               [value_of (series_summary
                                            (a_series 1 "Andor" true));
                                value_of (series_summary
                                            (a_series 3 "Severance" true))])));
                   ("monitored_count",
                    VInt (Z.of_nat
                            (List.length
                               [value_of (series_summary
                                            (a_series 1 "Andor" true));
                                value_of (series_summary
                                            (a_series 3 "Severance" true))])));
                   ("series",
                    PList [value_of (series_summary (a_series 1 "Andor" true));
                           value_of (series_summary
                                       (a_series 3 "Severance" true))])]))
  /\ List.length
       [value_of (series_summary (a_series 1 "Andor" true));
        value_of (series_summary (a_series 3 "Severance" true))]
     = List.length (List.filter (holds (monitored_is true)) five_series).
Proof.
  assert (H1 : transport (fetch (py "series"))
                 (answering [Ok (PList five_series)])
               = (Ok (PList five_series), answering [])) by reflexivity.
  assert (H2 : Forall is_document five_series).
  { repeat (apply Forall_cons; [eexists; reflexivity|]). apply Forall_nil. }
  assert (H3 : rmap series_summary
                 (List.filter (holds (monitored_is true)) five_series)
               = Ok [value_of (series_summary (a_series 1 "Andor" true));
                     value_of (series_summary (a_series 3 "Severance" true))])
    by (vm_compute; reflexivity).
  split; [exact H1|]. split; [exact H2|]. split; [exact H3|].
  exact (get_series_list_monitored_totals (svc := service) None five_series
           _ _ _ H1 H2 H3).
Defined.

(** C1 as stated fails: of five series two are monitored, and
    [total_series] is 2, not 5. *)
Lemma total_series_counts_the_filtered_list :
  List.length five_series = 5%nat
  /\ List.length (List.filter (holds (monitored_is true)) five_series) = 2%nat
  /\ subscript (data_of (fst listing)) (AStr (py "total_series"))
     = Ok (VInt 2)
  /\ subscript (data_of (fst listing)) (AStr (py "monitored_count"))
     = Ok (VInt 2)
  /\ (exists a b, subscript (data_of (fst listing)) (AStr (py "series"))
                  = Ok (PList [a; b]))
  /\ VInt 2 <> VInt 5.
Proof.
  repeat split; try (vm_compute; reflexivity).
  - do 2 eexists. vm_compute. reflexivity.
  - discriminate.
Qed.

(** The record of size 0 with nothing left. *)
Lemma queue_progress_of_empty_item_witness :
  get empty_item "size" = Ok (VInt 0)
  /\ get empty_item "sizeleft" = Ok (VInt 0)
  /\ py_max (VInt 0) (VInt 1) = Ok (VInt 1)
  /\ progress empty_item = Ok (VFloat 100)
  /\ (forall info, queue_info empty_item = Ok info ->
                   subscript info (AStr (py "progress")) = Ok (VFloat 100)).
Proof.
  assert (H1 : get empty_item "size" = Ok (VInt 0)) by reflexivity.
  assert (H2 : get empty_item "sizeleft" = Ok (VInt 0)) by reflexivity.
  split; [exact H1|]. split; [exact H2|].
  exact (queue_progress_of_empty_item empty_item H1 H2).
Defined.

(** C2 as stated fails: in the queue that [get_queue] returns for that one
    record, the progress is 100.0, which is not 0.0. *)
Lemma progress_of_empty_item_is_100 :
  exists info,
    subscript (data_of (fst (queue_of (obj [("records", PList [empty_item])]))))
      (AStr (py "queue")) = Ok (PList [info])
    /\ subscript info (AStr (py "progress")) = Ok (VFloat 100)
    /\ VFloat 100 <> VFloat 0
    /\ eq_atom (VFloat 100) (AFloat 0) = false.
Proof.
  eexists. split; [vm_compute; reflexivity|].
  split; [vm_compute; reflexivity|].
  split; [apply float_100_is_not_0 | reflexivity].
Qed.

(** [get_queue()] on the queue of four records. *)
Lemma get_queue_classification_witness :
  transport (fetch (queue_endpoint None)) (answering [Ok a_queue])
  = (Ok a_queue, answering [])
  /\ get_or a_queue "records" (PList []) = Ok (PList four_records)
  /\ rmap queue_info four_records
     = Ok (List.map (fun item => value_of (queue_info item)) four_records)
  /\ fst (queue_of a_queue)
     = Ok (Success
             (obj [("total_items",
                    VInt (Z.of_nat (List.length four_records)));
                   ("active_downloads",
                    VInt (Z.of_nat
                            (List.length
                               (List.filter
                                  (fun item => has_status "downloading" item
                                               || has_status "queued" item)
                                  four_records))));
                   ("completed_items",
                    VInt (Z.of_nat
                            (List.length
                               (List.filter (has_status "completed")
                                  four_records))));
                   ("queue",
                    PList (List.map (fun item => value_of (queue_info item))
                             four_records))])).
Proof.
  assert (H1 : transport (fetch (queue_endpoint None)) (answering [Ok a_queue])
               = (Ok a_queue, answering [])) by reflexivity.
  assert (H2 : get_or a_queue "records" (PList []) = Ok (PList four_records))
    by reflexivity.
  assert (H3 : rmap queue_info four_records
               = Ok (List.map (fun item => value_of (queue_info item))
                       four_records)) by (vm_compute; reflexivity).
  split; [exact H1|]. split; [exact H2|]. split; [exact H3|].
  exact (get_queue_classification (svc := service) None _ _ _ _ _ H1 H2 H3).
Defined.

(** The counts of that queue. *)
Example queue_of_four_records :
  exists queue_items,
    data_of (fst (queue_of a_queue))
    = obj [("total_items", VInt 4);
           ("active_downloads", VInt 2);
           ("completed_items", VInt 1);
           ("queue", PList queue_items)].
Proof. eexists. vm_compute. reflexivity. Qed.

(** [get_series_details(7)] for an overview of 501 characters. *)
Lemma get_series_details_overview_witness :
  transport (fetch (py "series/" ++ str_of_int 7))
    (answering [Ok (a_series_with_overview 501)])
  = (Ok (a_series_with_overview 501), answering [])
  /\ get_or (a_series_with_overview 501) "overview" (VStr [])
     = Ok (VStr (List.repeat 120%N 501))
  /\ series_details (a_series_with_overview 501)
     = Ok (value_of (series_details (a_series_with_overview 501)))
  /\ fst (details_of (a_series_with_overview 501))
     = Ok (Success (value_of (series_details (a_series_with_overview 501))))
  /\ exists basic_info,
       subscript (value_of (series_details (a_series_with_overview 501)))
         (AStr (py "basic_info")) = Ok basic_info
       /\ subscript basic_info (AStr (py "overview"))
          = Ok (VStr (if (List.length (List.repeat 120%N 501) <=? 500)%nat
                      then List.repeat 120%N 501
                      else firstn 500 (List.repeat 120%N 501) ++ py "...")).
Proof.
  assert (H1 : transport (fetch (py "series/" ++ str_of_int 7))
                 (answering [Ok (a_series_with_overview 501)])
               = (Ok (a_series_with_overview 501), answering []))
    by reflexivity.
  assert (H2 : get_or (a_series_with_overview 501) "overview" (VStr [])
               = Ok (VStr (List.repeat 120%N 501))) by reflexivity.
  assert (H3 : series_details (a_series_with_overview 501)
               = Ok (value_of (series_details (a_series_with_overview 501))))
    by (vm_compute; reflexivity).
  split; [exact H1|]. split; [exact H2|]. split; [exact H3|].
  exact (get_series_details_overview (svc := service) 7 _ _ _ _ _ H1 H2 H3).
Defined.

(** The two overviews of the specification: 501 characters are cut to 500
    and marked, 500 characters are returned as they are. *)
Example overview_of_501_characters :
  overview_cut 500 (a_series_with_overview 501)
  = Ok (VStr (List.repeat 120%N 500 ++ py "...")).
Proof. vm_compute. reflexivity. Qed.

Example overview_of_500_characters :
  overview_cut 500 (a_series_with_overview 500)
  = Ok (VStr (List.repeat 120%N 500)).
Proof. vm_compute. reflexivity. Qed.

End ServerExamples.

(** ** Sorting the items of a dictionary *)

Module SortFacts.
Import Py Sonarr StrOrder.


Lemma key_lt_trans a b c : 
  str_key a -> str_key b -> str_key c ->
  key_lt a b -> key_lt b c -> key_lt a c.
Proof.
  intros [s ->] [t ->] [v ->]. unfold key_lt. simpl.
  intros H1 H2. inversion H1. inversion H2. f_equal.
  rewrite H0. eapply str_ltb_trans; eauto.
Qed.

Lemma insert_item_sorted x l :
  str_key (fst x) -> Forall (fun y => str_key (fst y)) l ->
  ~ In (fst x) (List.map fst l) ->
  StronglySorted item_lt l ->
  exists r, insert_item x l = Ok r
            /\ Permutation (x :: l) r /\ StronglySorted item_lt r.
Proof.
  intros Hx. induction l as [|y l IH]; intros Hl Hnin Hs.
  - exists [x]. repeat split; auto. repeat constructor.
  - inversion Hl as [|? ? Hy Hl']; subst.
    inversion Hs as [|? ? Hs' Hall]; subst.
    destruct Hx as [s Es]. destruct Hy as [t Et].
    simpl. rewrite Es, Et. simpl.
    destruct (str_ltb s t) eqn:Elt.
    + exists (x :: y :: l). repeat split; auto.
      constructor; auto. constructor.
      * unfold item_lt, key_lt. rewrite Es, Et. simpl. now rewrite Elt.
      * rewrite Forall_forall in Hall, Hl' |- *. intros z Hz.
        unfold item_lt. apply (key_lt_trans _ (fst y)).
        -- rewrite Es. now eexists.
        -- rewrite Et. now eexists.
        -- apply Hl'; auto.
        -- unfold key_lt. rewrite Es, Et. simpl. now rewrite Elt.
        -- apply Hall; auto.
    + destruct IH as (r & Hr & Hperm & Hsorted); auto.
      { intros Hin. apply Hnin. simpl. auto. }
      rewrite Hr. simpl. exists (y :: r). repeat split.
      * rewrite perm_swap. now constructor.
      * constructor; auto.
        apply (Permutation_Forall Hperm). constructor; auto.
        unfold item_lt, key_lt. rewrite Es, Et. simpl.
        destruct (str_ltb_total t s) as [H|H].
        -- intros E. apply Hnin. simpl. left. rewrite Es, Et. now subst.
        -- now rewrite H.
        -- congruence.
Qed.

Lemma sorted_items_sorted l :
  Forall (fun y => str_key (fst y)) l ->
  NoDup (List.map fst l) ->
  exists r, sorted_items l = Ok r
            /\ Permutation l r /\ StronglySorted item_lt r.
Proof.
  induction l as [|x l IH]; intros Hl Hnd.
  - exists []. repeat split; auto. constructor.
  - inversion Hl as [|? ? Hx Hl']; subst.
    simpl in Hnd. inversion Hnd as [|? ? Hnin Hnd']; subst.
    destruct IH as (s & Hs & Hperm & Hsorted); auto.
    destruct (insert_item_sorted x s) as (r & Hr & Hperm' & Hsorted'); auto.
    + apply (Permutation_Forall Hperm). exact Hl'.
    + intros Hin. apply Hnin.
      apply (Permutation_in _ (Permutation_sym (Permutation_map fst Hperm))).
      exact Hin.
    + exists r. simpl. rewrite Hs. simpl. repeat split; auto.
      rewrite <- Hperm'. now constructor.
Qed.

End SortFacts.

(** ** The grouping loop *)

Module GroupFacts.
Import Py Sonarr PyFacts StrOrder.
Local Open Scope string_scope.
Local Open Scope list_scope.
Local Open Scope Z_scope.

Lemma key_eqb_str (s t : pystr) : key_eqb (AStr s) (AStr t) = str_eqb s t.
Proof. simpl. apply orb_false_r. Qed.

Lemma key_eqb_str_eq (a b : atom) :
  str_key a -> str_key b -> (key_eqb a b = true <-> a = b).
Proof.
  intros [s ->] [t ->]. rewrite key_eqb_str, str_eqb_eq.
  split; congruence.
Qed.

Lemma dated_air_date ep : dated ep -> str_key (air_date_of ep).
Proof. intros [s H]. unfold air_date_of. rewrite H. now exists s. Qed.

Lemma group_by_date_fold eps acc :
  Forall dated eps ->
  group_by_date eps acc
  = Ok (fold_left (fun g ep => group_add (air_date_of ep) ep g) eps acc).
Proof.
  intros H. revert acc. induction H as [|ep eps [s Hep] _ IH]; intros acc.
  - reflexivity.
  - simpl. unfold air_date_of. rewrite Hep. simpl. apply IH.
Qed.

Lemma group_add_keys k ep g k' :
  str_key k -> Forall (fun kl => str_key (fst kl)) g ->
  (In k' (List.map fst (group_add k ep g))
   <-> In k' (List.map fst g) \/ k' = k).
Proof.
  intros Hk Hg. induction Hg as [|[k0 l0] g Hk0 _ IH]; simpl.
  - intuition congruence.
  - simpl in Hk0. destruct (key_eqb k0 k) eqn:E; simpl.
    + apply key_eqb_str_eq in E; auto. subst. intuition.
    + rewrite IH. intuition.
Qed.

Lemma group_add_str_keys k ep g :
  str_key k -> Forall (fun kl => str_key (fst kl)) g ->
  Forall (fun kl => str_key (fst kl)) (group_add k ep g).
Proof.
  intros Hk Hg. induction Hg as [|[k0 l0] g Hk0 Hg' IH]; simpl.
  - repeat constructor; auto.
  - destruct (key_eqb k0 k); constructor; simpl; auto.
Qed.

Lemma group_add_NoDup k ep g :
  str_key k -> Forall (fun kl => str_key (fst kl)) g ->
  NoDup (List.map fst g) -> NoDup (List.map fst (group_add k ep g)).
Proof.
  intros Hk Hg. induction Hg as [|[k0 l0] g Hk0 Hg' IH]; simpl; intros Hnd.
  - repeat constructor. auto.
  - inversion Hnd as [|? ? Hnin Hnd']; subst.
    destruct (key_eqb k0 k) eqn:E; simpl.
    + now constructor.
    + constructor; auto. rewrite group_add_keys; auto.
      intros [H|H]; [contradiction|].
      subst. simpl in Hk0.
      assert (key_eqb k k = true) by (apply key_eqb_str_eq; auto).
      congruence.
Qed.

Lemma group_add_in k ep g k' l' :
  str_key k -> Forall (fun kl => str_key (fst kl)) g ->
  NoDup (List.map fst g) ->
  In (k', l') (group_add k ep g) ->
  (k' <> k /\ In (k', l') g)
  \/ (k' = k /\ ((exists l, In (k, l) g /\ l' = l ++ [ep])
                  \/ (~ In k (List.map fst g) /\ l' = [ep]))).
Proof.
  intros Hk Hg. induction Hg as [|[k0 l0] g Hk0 Hg' IH]; simpl; intros Hnd Hin.
  - destruct Hin as [Hin|[]]. inversion Hin; subst. right. auto.
  - inversion Hnd as [|? ? Hnin Hnd']; subst. simpl in Hk0.
    destruct (key_eqb k0 k) eqn:E.
    + apply key_eqb_str_eq in E; auto. subst k0.
      destruct Hin as [Hin|Hin].
      * inversion Hin; subst. right. split; auto. left. eauto.
      * left. split; auto. intros ->. apply Hnin.
        apply (in_map fst) in Hin. exact Hin.
    + assert (Hne : k0 <> k).
      { intros ->. assert (key_eqb k k = true)
          by (apply key_eqb_str_eq; auto). congruence. }
      destruct Hin as [Hin|Hin].
      * inversion Hin; subst. left. auto.
      * destruct (IH Hnd' Hin) as [[H1 H2]|[H1 [(l & H2 & H3)|[H2 H3]]]].
        -- left. auto.
        -- right. split; auto. left. exists l. auto.
        -- right. split; auto. right. split; auto.
           intros [H|H]; [congruence|contradiction].
Qed.

Lemma filter_nil {A} (p : A -> bool) (l : list A) :
  (forall x, In x l -> p x = false) -> List.filter p l = [].
Proof.
  induction l as [|x l IH]; simpl; intros H; [reflexivity|].
  rewrite (H x) by auto. apply IH. auto.
Qed.

Lemma filter_snoc {A} (p : A -> bool) (l : list A) (x : A) :
  List.filter p (l ++ [x]) = List.filter p l ++ (if p x then [x] else []).
Proof. rewrite filter_app. reflexivity. Qed.

Lemma group_add_grouped done g ep :
  dated ep -> grouped done g ->
  grouped (done ++ [ep]) (group_add (air_date_of ep) ep g).
Proof.
  intros Hep (Hkeys & Hnd & Hlists & Hall).
  pose proof (dated_air_date _ Hep) as Hk.
  repeat split.
  - now apply group_add_str_keys.
  - now apply group_add_NoDup.
  - destruct (group_add_in _ _ _ _ _ Hk Hkeys Hnd H)
      as [[Hne Hin]|[-> [(l0 & Hin & ->)|[Hnin ->]]]].
    + destruct (Hlists _ _ Hin) as [-> _].
      rewrite filter_snoc.
      assert (Hk' : str_key k).
      { rewrite Forall_forall in Hkeys. apply (Hkeys (k, _) Hin). }
      destruct (key_eqb k (air_date_of ep)) eqn:E.
      * apply key_eqb_str_eq in E; auto. contradiction.
      * replace (aired_on k ep) with false by (symmetry; exact E).
        now rewrite app_nil_r.
    + destruct (Hlists _ _ Hin) as [-> _].
      rewrite filter_snoc.
      assert (E : key_eqb (air_date_of ep) (air_date_of ep) = true)
        by (apply key_eqb_str_eq; auto).
      now replace (aired_on (air_date_of ep) ep) with true
        by (symmetry; exact E).
    + rewrite filter_snoc.
      assert (E : key_eqb (air_date_of ep) (air_date_of ep) = true)
        by (apply key_eqb_str_eq; auto).
      replace (aired_on (air_date_of ep) ep) with true
        by (symmetry; exact E).
      rewrite filter_nil; [reflexivity|].
      intros x Hx. unfold aired_on.
      destruct (key_eqb (air_date_of ep) (air_date_of x)) eqn:E'; auto.
      exfalso. apply Hnin.
      pose proof (Hall _ Hx) as Hxin.
      assert (Hxk : str_key (air_date_of x)).
      { apply in_map_iff in Hxin as ([k0 l0] & Hk0 & Hin0).
        rewrite Forall_forall in Hkeys. specialize (Hkeys _ Hin0).
        simpl in *. now subst. }
      apply key_eqb_str_eq in E'; auto. now rewrite E'.
  - destruct (group_add_in _ _ _ _ _ Hk Hkeys Hnd H)
      as [[Hne Hin]|[-> [(l0 & Hin & ->)|[Hnin ->]]]].
    + now destruct (Hlists _ _ Hin).
    + now destruct l0.
    + discriminate.
  - intros x Hx. rewrite group_add_keys; auto.
    apply in_app_iff in Hx as [Hx|[<-|[]]]; auto.
Qed.

Lemma fold_grouped eps done g :
  Forall dated eps -> grouped done g ->
  grouped (done ++ eps)
    (fold_left (fun g ep => group_add (air_date_of ep) ep g) eps g).
Proof.
  intros H. revert done g. induction H as [|ep eps Hep _ IH]; intros done g Hg.
  - now rewrite app_nil_r.
  - simpl. replace (done ++ ep :: eps) with ((done ++ [ep]) ++ eps)
      by now rewrite <- app_assoc.
    apply IH. now apply group_add_grouped.
Qed.

Lemma grouped_nil : grouped [] [].
Proof. repeat split; try constructor; intros; contradiction. Qed.

End GroupFacts.

(** ** Calendar *)

Module CalendarFacts.
Import Py Dates Sonarr PyFacts StrOrder DateFacts SortFacts GroupFacts.
Import ServerFacts.
Local Open Scope string_scope.
Local Open Scope list_scope.
Local Open Scope Z_scope.

Ltac trace_exchanges :=
  rewrite !exchanges_app; simpl; rewrite ?app_nil_r; reflexivity.

Section Calendar.
Context {svc : Service}.

Lemma episode_info_fields entry ep :
  episode_info entry = Ok ep ->
  exists d f, get entry "airDate" = Ok d
              /\ subscript ep (AStr (py "air_date")) = Ok d
              /\ subscript ep (AStr (py "has_file")) = Ok f.
Proof.
  unfold episode_info. intros H. step_through H. inversion H; subst.
  do 2 eexists. repeat split; reflexivity.
Qed.

Lemma episode_info_has_file entry ep :
  episode_info entry = Ok ep ->
  exists f, get entry "hasFile" = Ok f
            /\ subscript ep (AStr (py "has_file")) = Ok f.
Proof.
  unfold episode_info. intros H. step_through H. inversion H; subst.
  eexists. split; reflexivity.
Qed.

(** Counting the episodes with a file does not raise. *)
Lemma with_files_counted entries episodes :
  rmap episode_info entries = Ok episodes ->
  rfilter (field_true "has_file") episodes
  = Ok (List.filter (holds (field_true "has_file")) episodes).
Proof.
  intros H. apply rfilter_total. apply rmap_Forall2 in H.
  induction H as [|x y ? ? Hxy _ IH]; constructor; auto.
  apply episode_info_fields in Hxy as (d & f & _ & _ & Hf).
  unfold field_true. rewrite Hf. simpl. eauto.
Qed.

Lemma sorted_keys_dates r :
  StronglySorted item_lt r ->
  Forall (fun kv : atom * value =>
            exists s, fst kv = AStr s /\ is_iso_date s = true) r ->
  StronglySorted (fun a b => date_lt (key_date a) (key_date b))
    (List.map fst r).
Proof.
  induction 1 as [|x r Hs IH Hall]; intros Hiso; simpl; constructor.
  - apply IH. now inversion Hiso.
  - inversion Hiso as [|? ? (s & Hx & Hs') Hiso']; subst.
    apply Forall_map. rewrite Forall_forall in Hall, Hiso' |- *.
    intros y Hy. destruct (Hiso' y Hy) as (t & Ht & Ht').
    specialize (Hall y Hy). unfold item_lt, key_lt in Hall.
    rewrite Hx, Ht in Hall |- *. simpl in Hall |- *.
    apply iso_order; auto. now inversion Hall.
Qed.

(** The episodes of entries with ISO air dates are grouped and the groups
    sorted without raising, and this is the result. *)
Lemma grouping_by_iso_date entries episodes :
  Forall iso_air_date entries ->
  rmap episode_info entries = Ok episodes ->
  exists g by_date,
    group_by_date episodes [] = Ok g
    /\ sorted_by_date g = Ok (PDict by_date)
    /\ StronglySorted (fun a b => date_lt (key_date a) (key_date b))
         (List.map fst by_date)
    /\ (forall k v, In (k, v) by_date ->
          exists l,
            v = PList l /\ l <> []
            /\ l = List.filter (aired_on k) episodes
            /\ (forall ep, In ep episodes ->
                           (In ep l <-> air_date_of ep = k)))
    /\ (forall ep, In ep episodes ->
                   In (air_date_of ep) (List.map fst by_date)).
Proof.
  intros Hiso Hmap.
  assert (Heps : Forall (fun ep => exists s,
                           subscript ep (AStr (py "air_date")) = Ok (VStr s)
                           /\ is_iso_date s = true) episodes).
  { apply rmap_Forall2 in Hmap. clear -Hmap Hiso.
    induction Hmap as [|x y ? ? Hxy _ IH]; constructor.
    - inversion Hiso as [|? ? (s & Hs & Hs') _]; subst.
      apply episode_info_fields in Hxy as (d & f & Hd & Hy & _).
      exists s. split; congruence.
    - apply IH. now inversion Hiso. }
  assert (Hdated : Forall dated episodes).
  { eapply Forall_impl; [|exact Heps]. intros ep (s & Hs & _). now exists s. }
  pose proof (fold_grouped episodes [] [] Hdated grouped_nil) as Hgr.
  simpl in Hgr.
  set (g := fold_left (fun g ep => group_add (air_date_of ep) ep g)
              episodes []) in *.
  destruct Hgr as (Hkeys & Hnd & Hlists & Hall).
  set (f := fun kv : atom * list value => (fst kv, PList (snd kv))).
  assert (Hfst : List.map fst (List.map f g) = List.map fst g).
  { rewrite map_map. reflexivity. }
  destruct (sorted_items_sorted (List.map f g)) as (r & Hr & Hperm & Hsorted).
  { apply Forall_map. exact Hkeys. }
  { now rewrite Hfst. }
  exists g, r.
  split; [apply (group_by_date_fold _ _ Hdated)|].
  split; [unfold sorted_by_date; fold f; now rewrite Hr|].
  assert (Hin : forall k v, In (k, v) r ->
                  exists l, v = PList l /\ In (k, l) g).
  { intros k v Hkv.
    apply (Permutation_in _ (Permutation_sym Hperm)) in Hkv.
    apply in_map_iff in Hkv as ([k0 l0] & Hf & Hin0).
    inversion Hf; subst. eauto. }
  repeat split.
  - apply sorted_keys_dates; auto.
    apply Forall_forall. intros [k v] Hkv.
    destruct (Hin _ _ Hkv) as (l & -> & Hkl).
    destruct (Hlists _ _ Hkl) as [Hl Hne].
    destruct l as [|ep l]; [congruence|].
    assert (Hep : In ep (List.filter (aired_on k) episodes))
      by (rewrite <- Hl; now left).
    apply filter_In in Hep as [Hep Hon].
    rewrite Forall_forall in Heps. destruct (Heps _ Hep) as (s & Hs & Hs').
    unfold aired_on, air_date_of in Hon. rewrite Hs in Hon.
    rewrite Forall_forall in Hkeys. specialize (Hkeys _ Hkl).
    apply key_eqb_str_eq in Hon; auto; [|now exists s].
    exists s. simpl. auto.
  - intros k v Hkv. destruct (Hin _ _ Hkv) as (l & -> & Hkl).
    destruct (Hlists _ _ Hkl) as [Hl Hne].
    exists l. repeat split; auto.
    + intros Hel. rewrite Hl in Hel. apply filter_In in Hel as [_ Hon].
      unfold aired_on in Hon. symmetry.
      apply key_eqb_str_eq in Hon; auto.
      * rewrite Forall_forall in Hkeys. apply (Hkeys _ Hkl).
      * apply dated_air_date. rewrite Forall_forall in Hdated. auto.
    + intros <-. rewrite Hl. apply filter_In. split; [assumption|].
      unfold aired_on. apply key_eqb_str_eq; auto;
        apply dated_air_date; rewrite Forall_forall in Hdated; auto.
  - intros ep Hep.
    apply (Permutation_in _ (Permutation_map fst Hperm)).
    rewrite Hfst. auto.
Qed.

(** The handler from the fetch on, for a response of entries with ISO air
    dates that are reshaped: it returns the calendar. *)
Lemma calendar_between_returns start end_ um (w : world) entries episodes u1 :
  transport (fetch (calendar_endpoint start end_ um)) (outside w)
  = (Ok (PList entries), u1) ->
  Forall iso_air_date entries ->
  rmap episode_info entries = Ok episodes ->
  exists data by_date,
    fst (calendar_between start end_ um w) = Ok (Success data)
    /\ subscript data (AStr (py "all_episodes")) = Ok (PList episodes)
    /\ subscript data (AStr (py "total_episodes"))
       = Ok (VInt (Z.of_nat (List.length entries)))
    /\ subscript data (AStr (py "episodes_by_date")) = Ok (PDict by_date)
    /\ StronglySorted (fun a b => date_lt (key_date a) (key_date b))
         (List.map fst by_date)
    /\ (forall k v, In (k, v) by_date ->
          exists l,
            v = PList l /\ l <> []
            /\ l = List.filter (aired_on k) episodes
            /\ (forall ep, In ep episodes ->
                           (In ep l <-> air_date_of ep = k)))
    /\ (forall ep, In ep episodes ->
                   In (air_date_of ep) (List.map fst by_date)).
Proof.
  intros Ht Hiso Hmap.
  destruct (grouping_by_iso_date _ _ Hiso Hmap)
    as (g & by_date & Hg & Hs & Hsorted & Hvals & Hall).
  eexists. exists by_date.
  split.
  - unfold calendar_between, bind. rewrite api_get_run, Ht.
    unfold lift, logger, emit, ret. simpl. rewrite Hmap. simpl.
    rewrite Hg. simpl. rewrite (with_files_counted _ _ Hmap). simpl.
    rewrite Hs. simpl. reflexivity.
  - split; [reflexivity|].
    split; [simpl; unfold count; now rewrite (rmap_length _ _ _ Hmap)|].
    split; [reflexivity|].
    split; [exact Hsorted|]. split; [exact Hvals|exact Hall].
Qed.

(** Whatever comes back, the handler from the fetch on makes one exchange,
    the calendar fetch. *)
Lemma calendar_between_exchanges start end_ um (w : world) :
  exchanges (trace (snd (try_except (calendar_between start end_ um)
                           (except_exception "get_calendar") w)))
  = exchanges (trace w)
    ++ [(fetch (calendar_endpoint start end_ um),
         fst (transport (fetch (calendar_endpoint start end_ um))
                (outside w)))].
Proof.
  unfold try_except, calendar_between, bind. rewrite api_get_run.
  destruct (transport _ (outside w)) as [out u1].
  destruct out as [body|e].
  - unfold lift, logger, emit, ret, except_exception, bind.
    destruct (iter body) as [entries|]; simpl; [|trace_exchanges].
    destruct (rmap episode_info entries) as [episodes|]; simpl;
      [|trace_exchanges].
    destruct (group_by_date episodes []) as [g|]; simpl; [|trace_exchanges].
    destruct (rfilter (field_true "has_file") episodes) as [wf|]; simpl;
      [|trace_exchanges].
    destruct (sorted_by_date g) as [bd|]; simpl; trace_exchanges.
  - destruct e; simpl; trace_exchanges.
Qed.

(** The endpoint of the calendar, written out. *)
Lemma calendar_endpoint_text start end_ um :
  calendar_endpoint start end_ um
  = py "calendar?start=" ++ start ++ py "&end=" ++ end_
    ++ match um with
       | Some true => py "&unmonitored=true"
       | _ => []
       end.
Proof.
  unfold calendar_endpoint, truthy_flag.
  destruct um as [[|]|]; cbv beta iota zeta;
    rewrite <- ?app_assoc, ?app_nil_r; reflexivity.
Qed.

(** Resolving a date leaves the trace as it is. *)
Lemma resolved_date (given : option pystr) days (w : world) :
  exists r w',
    match given with
    | None =>
        bind now (fun t =>
          bind (lift (add_days t days)) (fun d => ret (strftime_ymd d)))
    | Some s => ret s
    end w = (r, w')
    /\ trace w' = trace w.
Proof.
  destruct given as [s|].
  - exists (Ok s), w. split; reflexivity.
  - unfold bind, now, lift, ret.
    destruct (clock (outside w)) as [t u1].
    destruct (add_days t days) as [d|e]; do 2 eexists; split; reflexivity.
Qed.

(** A call of [get_calendar] either ends before the fetch, with no
    exchange, or goes on from the fetch with two resolved dates. *)
Lemma get_calendar_cases start end_ um (u : upstream) :
  exchanges (trace (snd (run (get_calendar start end_ um) u))) = []
  \/ exists s e (w : world),
       run (get_calendar start end_ um) u
       = try_except (calendar_between s e um)
           (except_exception "get_calendar") w
       /\ exchanges (trace w) = [].
Proof.
  remember (run (get_calendar start end_ um) u) as res eqn:Hres.
  unfold run, get_calendar in Hres.
  unfold bind at 1, logger, emit in Hres.
  simpl outside in Hres. simpl trace in Hres.
  rewrite try_except_bind in Hres.
  match type of Hres with
  | context [match ?m ?w0 with _ => _ end] =>
      destruct (resolved_date start (-7) w0) as (r1 & w1 & E1 & T1)
  end.
  rewrite E1 in Hres. destruct r1 as [s|x].
  - rewrite try_except_bind in Hres.
    destruct (resolved_date end_ 30 w1) as (r2 & w2 & E2 & T2).
    rewrite E2 in Hres. destruct r2 as [e|x].
    + right. exists s, e, w2. split; [exact Hres|].
      now rewrite T2, T1.
    + left. subst res.
      unfold except_exception, bind, logger, emit, ret. simpl.
      rewrite exchanges_app, T2, T1. reflexivity.
  - left. subst res.
    unfold except_exception, bind, logger, emit, ret. simpl.
    rewrite exchanges_app, T1. reflexivity.
Qed.

(** C7.  In a call of [get_calendar] where the fetch returns entries that
    all carry an ISO air date (and that are reshaped), the tool returns the
    calendar; [episodes_by_date] is a dictionary whose keys are in ascending
    date order; every key is the air date of an episode, and its value is
    the list, not empty, of the episodes of that date and of no other, in
    the order they were fetched; the date of every episode is a key; and
    [total_episodes] is the number of entries, all of them mapped. *)
Theorem get_calendar_groups_by_date
    start end_ um r entries episodes (u : upstream) :
  In (r, Ok (PList entries))
    (exchanges (trace (snd (run (get_calendar start end_ um) u)))) ->
  Forall iso_air_date entries ->
  rmap episode_info entries = Ok episodes ->
  exists data by_date,
    fst (run (get_calendar start end_ um) u) = Ok (Success data)
    /\ subscript data (AStr (py "all_episodes")) = Ok (PList episodes)
    /\ List.length episodes = List.length entries
    /\ subscript data (AStr (py "total_episodes"))
       = Ok (VInt (Z.of_nat (List.length entries)))
    /\ subscript data (AStr (py "episodes_by_date")) = Ok (PDict by_date)
    /\ StronglySorted (fun a b => date_lt (key_date a) (key_date b))
         (List.map fst by_date)
    /\ (forall k v, In (k, v) by_date ->
          exists l,
            v = PList l /\ l <> []
            /\ l = List.filter (aired_on k) episodes
            /\ (forall ep, In ep episodes ->
                           (In ep l <-> air_date_of ep = k)))
    /\ (forall ep, In ep episodes ->
                   In (air_date_of ep) (List.map fst by_date)).
Proof.
  intros Hin Hiso Hmap.
  destruct (get_calendar_cases start end_ um u)
    as [Hnone|(s & e & w & Hrun & Hw)].
  { rewrite Hnone in Hin. contradiction. }
  rewrite Hrun in Hin |- *.
  rewrite calendar_between_exchanges, Hw in Hin. simpl in Hin.
  destruct Hin as [Hin|[]]. inversion Hin as [[Hr Hout]].
  destruct (transport (fetch (calendar_endpoint s e um)) (outside w))
    as [out u1] eqn:Ht.
  simpl in Hout. subst out.
  destruct (calendar_between_returns s e um w _ _ _ Ht Hiso Hmap)
    as (data & by_date & Hret & Hall & Hprops).
  exists data, by_date.
  split; [|split; [exact Hall|split;
                               [exact (rmap_length _ _ _ Hmap)|exact Hprops]]].
  unfold try_except.
  destruct (calendar_between s e um w) as [res w'].
  simpl in Hret. subst res. reflexivity.
Qed.

End Calendar.
End CalendarFacts.

(** ** The default range of the calendar *)

Module RangeFacts.
Import Py Dates Sonarr PyFacts ServerFacts CalendarArith CalendarFacts.
Local Open Scope string_scope.
Local Open Scope list_scope.
Local Open Scope Z_scope.

Section Range.
Context {svc : Service}.

Lemma add_days_in_range t k :
  1 <= toordinal t + k <= MAXORDINAL ->
  exists s, add_days t k = Ok s /\ toordinal s = toordinal t + k.
Proof.
  intros [Hlo Hhi]. unfold add_days.
  replace (1 <=? toordinal t + k) with true by (symmetry; apply Z.leb_le; lia).
  replace (toordinal t + k <=? MAXORDINAL) with true
    by (symmetry; apply Z.leb_le; lia).
  eexists. split; reflexivity.
Qed.

(** The request of [get_calendar()] from the two dates it resolves. *)
Lemma default_range_request um (u u1 u2 : upstream) t1 t2 s e :
  clock u = (t1, u1) ->
  clock u1 = (t2, u2) ->
  add_days t1 (-7) = Ok s ->
  add_days t2 30 = Ok e ->
  requests (trace (snd (run (get_calendar None None um) u)))
  = [fetch (calendar_endpoint (strftime_ymd s) (strftime_ymd e) um)].
Proof.
  intros Hc1 Hc2 Hs He.
  unfold run, get_calendar.
  unfold bind at 1. unfold logger, emit.
  rewrite try_except_bind.
  unfold bind at 1, now at 1, lift at 1, ret at 1. simpl outside.
  rewrite Hc1. unfold bind at 1. rewrite Hs. simpl trace.
  rewrite try_except_bind.
  unfold bind at 1, now at 1, lift at 1, ret at 1. simpl outside.
  rewrite Hc2. unfold bind at 1. rewrite He. simpl trace.
  unfold requests. rewrite calendar_between_exchanges. reflexivity.
Qed.

(** The default range from the two readings of the clock, one for each
    bound: the start is the date 7 days before the day of the first
    reading, the end the date 30 days after the day of the second. *)
Lemma default_range_of_two_readings um (u u1 u2 : upstream) t1 t2 :
  clock u = (t1, u1) ->
  clock u1 = (t2, u2) ->
  ymd2ord 1000 1 1 <= toordinal t1 - 7 /\ toordinal t1 <= MAXORDINAL ->
  ymd2ord 1000 1 1 <= toordinal t2 /\ toordinal t2 + 30 <= MAXORDINAL ->
  exists y m d y' m' d',
    is_date_of (toordinal t1 - 7) y m d /\ 1000 <= y <= 9999
    /\ is_date_of (toordinal t2 + 30) y' m' d' /\ 1000 <= y' <= 9999
    /\ requests (trace (snd (run (get_calendar None None um) u)))
       = [fetch (py "calendar?start=" ++ iso_text y m d
                 ++ py "&end=" ++ iso_text y' m' d'
                 ++ match um with
                    | Some true => py "&unmonitored=true"
                    | _ => []
                    end)].
Proof.
  intros Hc1 Hc2 [H1 H1'] [H2 H2'].
  change (ymd2ord 1000 1 1) with 364878 in H1, H2.
  destruct (add_days_in_range t1 (-7)) as (s & Hs & Hso);
    [unfold MAXORDINAL in *; lia|].
  destruct (add_days_in_range t2 30) as (e & He & Heo);
    [unfold MAXORDINAL in *; lia|].
  destruct (strftime_ymd_text s) as (y & m & d & Hd1 & Hy1 & Ht1).
  { change (ymd2ord 1000 1 1) with 364878. unfold MAXORDINAL in *. lia. }
  destruct (strftime_ymd_text e) as (y' & m' & d' & Hd2 & Hy2 & Ht2).
  { change (ymd2ord 1000 1 1) with 364878. unfold MAXORDINAL in *. lia. }
  exists y, m, d, y', m', d'.
  replace (toordinal t1 - 7) with (toordinal s) by lia.
  replace (toordinal t2 + 30) with (toordinal e) by lia.
  repeat (split; [assumption|]).
  rewrite (default_range_request um _ _ _ _ _ _ _ Hc1 Hc2 Hs He).
  now rewrite calendar_endpoint_text, Ht1, Ht2.
Qed.


End Range.
End RangeFacts.

(** ** The calendar on the scripted upstream *)

Module CalendarExamples.
Import Py Dates Sonarr PyFacts ServerFacts CalendarFacts RangeFacts Scripted.
Local Open Scope string_scope.
Local Open Scope list_scope.
Local Open Scope Z_scope.

#[local] Existing Instance service.

(** [get_calendar()] on three entries of two dates. *)
Lemma get_calendar_groups_by_date_witness :
  In (fetch (calendar_endpoint (py "2024-03-03") (py "2024-04-09") None),
      Ok (PList a_calendar))
    (exchanges (trace (snd (calendar_of a_calendar))))
  /\ Forall iso_air_date a_calendar
  /\ rmap episode_info a_calendar
     = Ok (List.map (fun entry => value_of (episode_info entry)) a_calendar)
  /\ exists data by_date,
       fst (calendar_of a_calendar) = Ok (Success data)
       /\ subscript data (AStr (py "all_episodes"))
          = Ok (PList (List.map (fun entry => value_of (episode_info entry))
                         a_calendar))
       /\ List.length (List.map (fun entry => value_of (episode_info entry))
                         a_calendar)
          = List.length a_calendar
       /\ subscript data (AStr (py "total_episodes"))
          = Ok (VInt (Z.of_nat (List.length a_calendar)))
       /\ subscript data (AStr (py "episodes_by_date")) = Ok (PDict by_date)
       /\ StronglySorted (fun a b => date_lt (key_date a) (key_date b))
            (List.map fst by_date)
       /\ (forall k v,
              In (k, v) by_date ->
              exists l,
                v = PList l /\ l <> []
                /\ l = List.filter (aired_on k)
                         (List.map (fun entry => value_of (episode_info entry))
                            a_calendar)
                /\ (forall ep,
                       In ep (List.map
                                (fun entry => value_of (episode_info entry))
                                a_calendar) ->
                       (In ep l <-> air_date_of ep = k)))
       /\ (forall ep,
              In ep (List.map (fun entry => value_of (episode_info entry))
                       a_calendar) ->
              In (air_date_of ep) (List.map fst by_date)).
Proof.
  assert (H1 : In (fetch (calendar_endpoint (py "2024-03-03")
                            (py "2024-04-09") None),
                   Ok (PList a_calendar))
                 (exchanges (trace (snd (calendar_of a_calendar))))).
  { vm_compute. left. reflexivity. }
  assert (H2 : Forall iso_air_date a_calendar).
  { repeat (apply Forall_cons; [eexists; split; reflexivity|]).
    apply Forall_nil. }
  assert (H3 : rmap episode_info a_calendar
               = Ok (List.map (fun entry => value_of (episode_info entry))
                       a_calendar)) by (vm_compute; reflexivity).
  split; [exact H1|]. split; [exact H2|]. split; [exact H3|].
  exact (get_calendar_groups_by_date (svc := service) None None None
           _ _ _ _ H1 H2 H3).
Defined.

(** The grouping of those three entries: 2024-03-11 first, with the second
    entry; then 2024-03-12, with the first and the third. *)
Example a_calendar_by_date :
  exists e1 e2 e3,
    rmap episode_info a_calendar = Ok [e1; e2; e3]
    /\ subscript (data_of (fst (calendar_of a_calendar)))
         (AStr (py "episodes_by_date"))
       = Ok (PDict [(AStr (py "2024-03-11"), PList [e2]);
                    (AStr (py "2024-03-12"), PList [e1; e3])]).
Proof. do 3 eexists. split; vm_compute; reflexivity. Qed.


(** The two dates of that call: 2024-03-03 and 2024-04-09. *)
Example default_dates_on_2024_03_10 :
  is_date_of (ymd2ord 2024 3 10 - 7) 2024 3 3
  /\ iso_text 2024 3 3 = py "2024-03-03"
  /\ is_date_of (ymd2ord 2024 3 10 + 30) 2024 4 9
  /\ iso_text 2024 4 9 = py "2024-04-09".
Proof.
  unfold is_date_of.
  repeat split; try reflexivity; vm_compute; discriminate.
Qed.

(** The request of that call. *)
Example default_range_on_2024_03_10 :
  List.map req_url
    (requests (trace (snd (run (get_calendar None None None) (answering [])))))
  = [py "http://sonarr:8989/api/v3/calendar?start=2024-03-03&end=2024-04-09"].
Proof. vm_compute. reflexivity. Qed.

(** When midnight passes between the two readings of the clock, the start
    is counted from the day of the first and the end from the day of the
    second: 31 days after the day the start is counted from. *)
Example default_range_across_midnight :
  List.map req_url
    (requests (trace (snd (run (svc := ticking) (get_calendar None None None)
                             around_midnight))))
  = [py "http://sonarr:8989/api/v3/calendar?start=2024-03-03&end=2024-04-10"].
Proof. vm_compute. reflexivity. Qed.

(** C3 fails on the calendar: with one dated entry and one entry without
    [airDate], each entry is reshaped, the missing date becoming [None], and
    the grouping has the keys "2024-03-12" and [None]; sorting its items
    compares the two keys and raises, and the tool returns an error. *)
Lemma calendar_with_an_undated_entry_fails :
  (exists episodes by_date,
     rmap episode_info [an_entry 1 "2024-03-12"; an_undated_entry 2]
     = Ok episodes
     /\ group_by_date episodes [] = Ok by_date
     /\ List.map fst by_date = [AStr (py "2024-03-12"); ANone]
     /\ sorted_by_date by_date = Raise TypeError)
  /\ fst (calendar_of [an_entry 1 "2024-03-12"; an_undated_entry 2])
     = Ok (Error (StrOf TypeError)).
Proof.
  split.
  - do 2 eexists. repeat split; vm_compute; reflexivity.
  - vm_compute. reflexivity.
Qed.

(** When no entry has an air date there is one key, nothing to compare,
    and the calendar is returned. *)
Example calendar_of_undated_entries :
  exists e1 e2,
    subscript (data_of (fst (calendar_of [an_undated_entry 1;
                                          an_undated_entry 2])))
      (AStr (py "episodes_by_date"))
    = Ok (PDict [(ANone, PList [e1; e2])]).
Proof. do 2 eexists. vm_compute. reflexivity. Qed.

End CalendarExamples.

(** ** Absent fields *)

Module Tolerance.
Import Py Sonarr PyFacts ServerFacts.
Local Open Scope string_scope.
Local Open Scope list_scope.
Local Open Scope Z_scope.

(** A series document without [statistics]: the three episode counts of
    its summary are 0, [missing] being [0 - 0]. *)
Lemma series_summary_without_statistics fields summary :
  lookup (AStr (py "statistics")) fields = None ->
  series_summary (PDict fields) = Ok summary ->
  subscript summary (AStr (py "episodes"))
  = Ok (obj [("total", VInt 0); ("available", VInt 0); ("missing", VInt 0)]).
Proof.
  intros Hst H. unfold series_summary, get, get_or in H.
  rewrite !Hst in H. simpl in H.
  step_through H. inversion H; subst. reflexivity.
Qed.

(** The empty document goes through each reshaping. *)
Lemma reshaping_of_the_empty_document :
  (exists v, series_summary (obj []) = Ok v)
  /\ (exists v, series_details (obj []) = Ok v)
  /\ (exists v, lookup_info (obj []) = Ok v)
  /\ (exists v, episode_info (obj []) = Ok v)
  /\ (exists v, queue_info (obj []) = Ok v)
  /\ (exists v, history_info (obj []) = Ok v).
Proof. repeat split; eexists; vm_compute; reflexivity. Qed.

End Tolerance.

(** ** The error channel of the tools *)

Module ErrorChannel.
Import Py Dates Sonarr PyFacts ServerFacts.
Local Open Scope string_scope.
Local Open Scope list_scope.
Local Open Scope Z_scope.

Section Errors.

Context {svc : Service}.

(** A body wrapped in [try ... except Exception] returns a document. *)
Lemma try_except_returns (body : M tool_result) tool (w : world) :
  exists r, fst (try_except body (except_exception tool) w) = Ok r.
Proof.
  unfold try_except. destruct (body w) as [[r|e] w'].
  - now exists r.
  - now exists (Error (str_exn e)).
Qed.

Lemma logged_then_returns lvl template args (m : M tool_result) (u : upstream) :
  (forall w, exists r, fst (m w) = Ok r) ->
  exists r, fst (run (bind (logger lvl template args) (fun _ => m)) u) = Ok r.
Proof. intros H. unfold run, bind, logger, emit. apply H. Qed.


(** A transport failure of the series fetch reaches the caller of
    [get_series_list] as an error document with the uniform message: the
    prefix "Sonarr API request failed: " and the cause. *)
Theorem get_series_list_upstream_failure monitored flag cause (u u' : upstream) :
  transport (fetch (py "series")) u = (Raise (ClientError cause), u') ->
  fst (run (get_series_list monitored flag) u)
  = Ok (Error (Message (py "Sonarr API request failed: " ++ cause)))
  /\ requests (trace (snd (run (get_series_list monitored flag) u)))
     = [fetch (py "series")].
Proof.
  intros H.
  unfold run, get_series_list, bind, try_except, logger, emit.
  rewrite api_get_run. simpl outside. rewrite H. simpl. auto.
Qed.

(** [add_series] with a root folder path but no quality profile, when no
    quality profile is configured: the error names it, and neither the
    lookup nor the create request is sent. *)
Theorem add_series_without_quality_profiles
    tvdb_id title root monitored (u u' : upstream) :
  transport (fetch (py "qualityprofile")) u = (Ok (PList []), u') ->
  fst (run (add_series tvdb_id title (Some root) None monitored) u)
  = Ok (Error (Message (py "No quality profiles configured in Sonarr")))
  /\ requests (trace (snd (run (add_series tvdb_id title (Some root) None
                                  monitored) u)))
     = [fetch (py "qualityprofile")].
Proof.
  intros H.
  unfold run, add_series, add_series_profile, bind, try_except, logger, emit.
  rewrite api_get_run. simpl outside. rewrite H. simpl. auto.
Qed.

(** [add_series] with both defaults given, when the lookup finds nothing:
    the error names the TVDB id, and no create request is sent. *)
Theorem add_series_unknown_series
    tvdb_id title root quality monitored (u u' : upstream) :
  transport (fetch (py "series/lookup?term=tvdb:" ++ str_of_int tvdb_id)) u
  = (Ok (PList []), u') ->
  fst (run (add_series tvdb_id title (Some root) (Some quality) monitored) u)
  = Ok (Error (Message (py "Could not find series with TVDB ID: "
                        ++ str_of_int tvdb_id)))
  /\ requests (trace (snd (run (add_series tvdb_id title (Some root)
                                  (Some quality) monitored) u)))
     = [fetch (py "series/lookup?term=tvdb:" ++ str_of_int tvdb_id)].
Proof.
  intros H.
  unfold run, add_series, add_series_profile, add_series_create,
    bind, try_except, logger, emit.
  rewrite api_get_run. simpl outside. rewrite H. simpl. auto.
Qed.

End Errors.

End ErrorChannel.

(** ** The error channel on the scripted upstream *)

Module ErrorExamples.
Import Py Dates Sonarr PyFacts ServerFacts ErrorChannel Scripted.
Local Open Scope string_scope.
Local Open Scope list_scope.
Local Open Scope Z_scope.

#[local] Existing Instance service.

Lemma get_series_list_upstream_failure_witness :
  transport (fetch (py "series"))
    (answering [Raise (ClientError (py "Connection refused"))])
  = (Raise (ClientError (py "Connection refused")), answering [])
  /\ fst (run (get_series_list None None)
            (answering [Raise (ClientError (py "Connection refused"))]))
     = Ok (Error (Message (py "Sonarr API request failed: "
                           ++ py "Connection refused")))
  /\ requests (trace (snd (run (get_series_list None None)
                             (answering [Raise (ClientError
                                                  (py "Connection refused"))]))))
     = [fetch (py "series")].
Proof.
  split; [reflexivity|].
  apply (get_series_list_upstream_failure (svc := service) None None
           (py "Connection refused") _ (answering [])).
  reflexivity.
Defined.

Lemma add_series_without_quality_profiles_witness :
  transport (fetch (py "qualityprofile")) (answering [Ok (PList [])])
  = (Ok (PList []), answering [])
  /\ fst (run (add_series 42 (py "Andor") (Some (py "/tv")) None (Some true))
            (answering [Ok (PList [])]))
     = Ok (Error (Message (py "No quality profiles configured in Sonarr")))
  /\ requests (trace (snd (run (add_series 42 (py "Andor") (Some (py "/tv"))
                                  None (Some true))
                             (answering [Ok (PList [])]))))
     = [fetch (py "qualityprofile")].
Proof.
  split; [reflexivity|].
  apply (add_series_without_quality_profiles (svc := service)
           42 _ _ _ _ (answering [])).
  reflexivity.
Defined.

Lemma add_series_unknown_series_witness :
  transport (fetch (py "series/lookup?term=tvdb:" ++ str_of_int 42))
    (answering [Ok (PList [])])
  = (Ok (PList []), answering [])
  /\ fst (run (add_series 42 (py "Andor") (Some (py "/tv")) (Some 3)
                 (Some true))
            (answering [Ok (PList [])]))
     = Ok (Error (Message (py "Could not find series with TVDB ID: "
                           ++ str_of_int 42)))
  /\ requests (trace (snd (run (add_series 42 (py "Andor") (Some (py "/tv"))
                                  (Some 3) (Some true))
                             (answering [Ok (PList [])]))))
     = [fetch (py "series/lookup?term=tvdb:" ++ str_of_int 42)].
Proof.
  split; [reflexivity|].
  apply (add_series_unknown_series (svc := service)
           42 _ _ _ _ _ (answering [])).
  reflexivity.
Defined.

Lemma series_summary_without_statistics_witness :
  lookup (AStr (py "statistics")) [(AStr (py "id"), VInt 1)] = None
  /\ series_summary (PDict [(AStr (py "id"), VInt 1)])
     = Ok (value_of (series_summary (PDict [(AStr (py "id"), VInt 1)])))
  /\ subscript (value_of (series_summary (PDict [(AStr (py "id"), VInt 1)])))
       (AStr (py "episodes"))
     = Ok (obj [("total", VInt 0); ("available", VInt 0);
                ("missing", VInt 0)]).
Proof.
  assert (H1 : lookup (AStr (py "statistics")) [(AStr (py "id"), VInt 1)]
               = None) by reflexivity.
  assert (H2 : series_summary (PDict [(AStr (py "id"), VInt 1)])
               = Ok (value_of (series_summary
                                 (PDict [(AStr (py "id"), VInt 1)]))))
    by (vm_compute; reflexivity).
  split; [exact H1|]. split; [exact H2|].
  exact (Tolerance.series_summary_without_statistics _ _ H1 H2).
Defined.

End ErrorExamples.

(** ** What the tools send *)

Module Traffic.
Import Py Dates Sonarr PyFacts ServerFacts.
Local Open Scope string_scope.
Local Open Scope list_scope.
Local Open Scope Z_scope.

Section Sending.

Context {svc : Service}.

(** *** Computations that make no exchange *)

Lemma silent_ret {A} (a : A) : silent (ret a).
Proof. intros w. split; reflexivity. Qed.

Lemma silent_raise {A} (e : exn) : silent (@raise _ A e).
Proof. intros w. split; reflexivity. Qed.

Lemma silent_lift {A} (r : res A) : silent (lift r).
Proof. intros w. split; reflexivity. Qed.

Lemma silent_logger lvl template args : silent (logger lvl template args).
Proof.
  intros w. unfold logger, emit. simpl. split; [|reflexivity].
  rewrite exchanges_app. simpl. apply app_nil_r.
Qed.

Lemma silent_bind {A B} (m : M A) (k : A -> M B) :
  silent m -> (forall a, silent (k a)) -> silent (bind m k).
Proof.
  intros Hm Hk w. unfold bind. specialize (Hm w).
  destruct (m w) as [[a|e] w']; simpl in Hm.
  - destruct (Hk a w') as [H1 H2]. destruct Hm as [H3 H4].
    split; congruence.
  - exact Hm.
Qed.

Lemma silent_try_except {A} (m : M A) (h : exn -> M A) :
  silent m -> (forall e, silent (h e)) -> silent (try_except m h).
Proof.
  intros Hm Hh w. unfold try_except. specialize (Hm w).
  destruct (m w) as [[a|e] w']; simpl in Hm.
  - exact Hm.
  - destruct (Hh e w') as [H1 H2]. destruct Hm as [H3 H4].
    split; congruence.
Qed.

Lemma silent_except_exception tool e : silent (except_exception tool e).
Proof.
  unfold except_exception.
  apply silent_bind; [apply silent_logger|intros _; apply silent_ret].
Qed.

Lemma silent_requests {A} (m : M A) (w : world) :
  silent m -> requests (trace (snd (m w))) = requests (trace w).
Proof. intros H. unfold requests. now rewrite (proj1 (H w)). Qed.

(** *** Computations that send given requests *)

Lemma sends_exactly_silent {A} (m : M A) : silent m -> sends_exactly [] m.
Proof. intros H w. rewrite app_nil_r. now apply silent_requests. Qed.

Lemma sends_exactly_send r : sends_exactly [r] (send r).
Proof.
  intros w. unfold send, requests.
  destruct (transport r (outside w)) as [out u]. simpl.
  now rewrite exchanges_app, map_app.
Qed.

Lemma sends_exactly_then_silent {A B} l (m : M A) (k : A -> M B) :
  sends_exactly l m -> (forall a, silent (k a)) -> sends_exactly l (bind m k).
Proof.
  intros Hm Hk w. unfold bind. specialize (Hm w).
  destruct (m w) as [[a|e] w']; simpl in Hm.
  - now rewrite silent_requests.
  - exact Hm.
Qed.

Lemma sends_exactly_try_except {A} l (m : M A) (h : exn -> M A) :
  sends_exactly l m -> (forall e, silent (h e)) ->
  sends_exactly l (try_except m h).
Proof.
  intros Hm Hh w. unfold try_except. specialize (Hm w).
  destruct (m w) as [[a|e] w']; simpl in Hm.
  - exact Hm.
  - now rewrite silent_requests.
Qed.

Lemma sends_exactly_after_logger {A} l lvl template args (m : M A) :
  sends_exactly l m ->
  sends_exactly l (bind (logger lvl template args) (fun _ => m)).
Proof.
  intros Hm w. unfold bind, logger, emit. rewrite Hm. simpl.
  unfold requests. rewrite exchanges_app. simpl. now rewrite app_nil_r.
Qed.

Lemma sends_exactly_run {A} l (m : M A) (u : upstream) :
  sends_exactly l m -> requests (trace (snd (run m u))) = l.
Proof. intros H. unfold run. now rewrite H. Qed.

(** *** Computations whose requests all satisfy a property *)

Section Only.

Variable P : request -> Prop.

Lemma sends_only_silent {A} (m : M A) : silent m -> sends_only P m.
Proof. intros H w Hw. now rewrite silent_requests. Qed.

Lemma sends_only_send r : P r -> sends_only P (send r).
Proof.
  intros Hr w Hw. rewrite sends_exactly_send.
  apply Forall_app. split; [exact Hw|]. now constructor.
Qed.

Lemma sends_only_now : sends_only P now.
Proof. intros w Hw. unfold now. now destruct (clock (outside w)). Qed.

Lemma sends_only_bind {A B} (m : M A) (k : A -> M B) :
  sends_only P m -> (forall a, sends_only P (k a)) -> sends_only P (bind m k).
Proof.
  intros Hm Hk w Hw. unfold bind. specialize (Hm w Hw).
  destruct (m w) as [[a|e] w']; simpl in Hm.
  - now apply Hk.
  - exact Hm.
Qed.

Lemma sends_only_try_except {A} (m : M A) (h : exn -> M A) :
  sends_only P m -> (forall e, sends_only P (h e)) ->
  sends_only P (try_except m h).
Proof.
  intros Hm Hh w Hw. unfold try_except. specialize (Hm w Hw).
  destruct (m w) as [[a|e] w']; simpl in Hm.
  - exact Hm.
  - now apply Hh.
Qed.

Lemma sends_only_run {A} (m : M A) (u : upstream) :
  sends_only P m -> Forall P (requests (trace (snd (run m u)))).
Proof. intros H. apply H. constructor. Qed.

End Only.

End Sending.

(** Going through a handler, one construct at a time. *)
Ltac quiet :=
  repeat lazymatch goal with
    | |- silent (ret _) => apply silent_ret
    | |- silent (raise _) => apply silent_raise
    | |- silent (lift _) => apply silent_lift
    | |- silent (logger _ _ _) => apply silent_logger
    | |- silent (except_exception _ _) => apply silent_except_exception
    | |- silent (bind _ _) => apply silent_bind; [|intros ?]
    | |- silent (try_except _ _) => apply silent_try_except; [|intros ?]
    | |- silent (if ?c then _ else _) => destruct c
    | |- silent (match ?x with _ => _ end) => destruct x
    end.

Ltac sending :=
  repeat lazymatch goal with
    | |- sends_only _ (ret _) => apply sends_only_silent, silent_ret
    | |- sends_only _ (raise _) => apply sends_only_silent, silent_raise
    | |- sends_only _ (lift _) => apply sends_only_silent, silent_lift
    | |- sends_only _ (logger _ _ _) =>
        apply sends_only_silent, silent_logger
    | |- sends_only _ (except_exception _ _) =>
        apply sends_only_silent, silent_except_exception
    | |- sends_only _ (send _) => apply sends_only_send
    | |- sends_only _ now => apply sends_only_now
    | |- sends_only _ (bind _ _) => apply sends_only_bind; [|intros ?]
    | |- sends_only _ (try_except _ _) =>
        apply sends_only_try_except; [|intros ?]
    | |- sends_only _ (if ?c then _ else _) => destruct c
    | |- sends_only _ (match ?x with _ => _ end) => destruct x
    end.

Section Client.

Context {svc : Service}.

(** *** The upstream client *)

(** The branch of [make_api_request] that a method takes. *)
Lemma make_api_request_branch endpoint method data v :
  upper method = verb_name v ->
  make_api_request endpoint method data
  = try_except
      (match v with
       | DELETE =>
           bind (send (request_of v endpoint data))
             (fun _ => ret (obj [("status", VStr (py "deleted"))]))
       | _ => send (request_of v endpoint data)
       end)
      (fun e =>
         match e with
         | ClientError cause =>
             bind (logger ERROR "API request failed: {}" [LogExn e])
               (fun _ => raise (PyException
                                  (py "Sonarr API request failed: " ++ cause)))
         | _ => raise e
         end).
Proof.
  intros H. unfold make_api_request. cbv zeta. rewrite H.
  destruct v; reflexivity.
Qed.

Lemma make_api_request_exchange endpoint method data v (w : world) :
  upper method = verb_name v ->
  exchanges (trace (snd (make_api_request endpoint method data w)))
  = exchanges (trace w)
    ++ [(request_of v endpoint data,
         fst (transport (request_of v endpoint data) (outside w)))]
  /\ outside (snd (make_api_request endpoint method data w))
     = snd (transport (request_of v endpoint data) (outside w)).
Proof.
  intros H. rewrite (make_api_request_branch _ _ _ _ H).
  unfold try_except, bind, send, logger, emit, raise, ret.
  destruct v; simpl;
    destruct (transport _ (outside w)) as [[body|e] u1]; simpl;
    try destruct e; simpl;
    rewrite ?exchanges_app; simpl; rewrite ?app_nil_r; auto.
Qed.

(** The method is matched whatever its case, and a call with one of the
    four methods makes one exchange, whatever its outcome: the request of
    that method to the URL of the endpoint, with the key; there is no second
    attempt.  Only POST and PUT carry the data. *)
Theorem make_api_request_one_exchange endpoint method data v (w : world) :
  upper method = verb_name v ->
  exchanges (trace (snd (make_api_request endpoint method data w)))
  = exchanges (trace w)
    ++ [(request_of v endpoint data,
         fst (transport (request_of v endpoint data) (outside w)))]
  /\ outside (snd (make_api_request endpoint method data w))
     = snd (transport (request_of v endpoint data) (outside w)).
Proof. apply make_api_request_exchange. Qed.

Lemma sends_exactly_make_api_request endpoint method data v :
  upper method = verb_name v ->
  sends_exactly [request_of v endpoint data]
    (make_api_request endpoint method data).
Proof.
  intros H w. unfold requests.
  rewrite (proj1 (make_api_request_exchange _ _ _ _ w H)).
  now rewrite map_app.
Qed.

Lemma sends_exactly_api_get endpoint :
  sends_exactly [fetch endpoint] (api_get endpoint).
Proof. apply (sends_exactly_make_api_request _ _ _ GET). reflexivity. Qed.

Lemma sends_only_make_api_request P endpoint method data :
  (forall v, P (request_of v endpoint data)) ->
  sends_only P (make_api_request endpoint method data).
Proof.
  intros H. unfold make_api_request. cbv zeta.
  sending; first [apply (H GET) | apply (H POST) | apply (H PUT)
                 | apply (H DELETE)].
Qed.

Lemma sends_only_api_get P endpoint :
  P (fetch endpoint) -> sends_only P (api_get endpoint).
Proof.
  intros H. unfold api_get, make_api_request. cbv zeta. rewrite upper_GET.
  sending. exact H.
Qed.

(** What the call hands back: the decoded body, or [{"status": "deleted"}]
    for a DELETE whatever the body; a client error is raised again as the
    uniform exception, and any other exception passes through as it is. *)
Theorem make_api_request_outcome endpoint method data v (w : world) :
  upper method = verb_name v ->
  fst (make_api_request endpoint method data w)
  = match fst (transport (request_of v endpoint data) (outside w)) with
    | Ok body =>
        Ok (match v with
            | DELETE => obj [("status", VStr (py "deleted"))]
            | _ => body
            end)
    | Raise (ClientError cause) =>
        Raise (PyException (py "Sonarr API request failed: " ++ cause))
    | Raise e => Raise e
    end.
Proof.
  intros H. rewrite (make_api_request_branch _ _ _ _ H).
  unfold try_except, bind, send, logger, emit, raise, ret.
  destruct v; simpl;
    destruct (transport _ (outside w)) as [[body|e] u1]; simpl;
    try destruct e; reflexivity.
Qed.

Lemma lstrip_slash_repeat k (s : pystr) :
  lstrip_slash (List.repeat 47%N k ++ s) = lstrip_slash s.
Proof. induction k as [|k IH]; simpl; auto. Qed.

Lemma lstrip_slash_spec (s : pystr) :
  exists k, s = List.repeat 47%N k ++ lstrip_slash s
            /\ List.hd 0%N (lstrip_slash s) <> 47%N.
Proof.
  induction s as [|c s (k & Hk & Hhd)].
  - exists 0%nat. split; [reflexivity|]. simpl. discriminate.
  - simpl. destruct (N.eqb_spec c 47) as [->|Hc].
    + exists (S k). split; [|exact Hhd]. simpl. now f_equal.
    + exists 0%nat. split; [reflexivity|]. exact Hc.
Qed.

(** The slashes an endpoint starts with are dropped: the URL has the API
    base, one slash, and the rest of the endpoint, which starts with no
    slash; so the same request is made with or without them. *)
Theorem make_api_request_leading_slashes endpoint method data :
  (exists k rest,
      endpoint = List.repeat 47%N k ++ rest
      /\ List.hd 0%N rest <> 47%N
      /\ url_of endpoint = SONARR_URL ++ py "/api/v3" ++ py "/" ++ rest)
  /\ forall k, make_api_request (List.repeat 47%N k ++ endpoint) method data
               = make_api_request endpoint method data.
Proof.
  split.
  - destruct (lstrip_slash_spec endpoint) as (k & Hk & Hhd).
    exists k, (lstrip_slash endpoint). repeat split; auto.
    unfold url_of, API_BASE. now rewrite <- app_assoc.
  - intros k. unfold make_api_request, url_of.
    now rewrite lstrip_slash_repeat.
Qed.

Lemma rev_repeat {A} (x : A) k : List.rev (List.repeat x k) = List.repeat x k.
Proof.
  induction k as [|k IH]; simpl; [reflexivity|].
  rewrite IH. clear IH. induction k as [|k IH]; simpl; [reflexivity|].
  now rewrite IH.
Qed.

(** The configured URL loses the slashes it ends with, and nothing else:
    [SONARR_URL] is the value of the environment without them, and does not
    end with a slash. *)
Theorem SONARR_URL_has_no_trailing_slash :
  exists k, ENV_SONARR_URL = SONARR_URL ++ List.repeat 47%N k
            /\ List.last SONARR_URL 0%N <> 47%N.
Proof.
  unfold SONARR_URL, rstrip_slash.
  destruct (lstrip_slash_spec (List.rev ENV_SONARR_URL)) as (k & Hk & Hhd).
  exists k. split.
  - rewrite <- (rev_involutive ENV_SONARR_URL) at 1.
    rewrite Hk at 1. rewrite rev_app_distr. now rewrite rev_repeat.
  - destruct (lstrip_slash (List.rev ENV_SONARR_URL)) as [|c s]; simpl in *.
    + discriminate.
    + now rewrite last_last.
Qed.

End Client.

End Traffic.

(** ** The requests of each tool *)

Module ToolTraffic.
Import Py Dates Sonarr PyFacts ServerFacts Traffic.
Local Open Scope string_scope.
Local Open Scope list_scope.
Local Open Scope Z_scope.

(** A handler that fetches once and then works on what came back. *)
Ltac one_request :=
  cbv zeta;
  repeat apply sends_exactly_after_logger;
  apply sends_exactly_try_except; [|intros ?; solve [quiet]];
  apply sends_exactly_then_silent; [|intros ?; solve [quiet]].

Ltac all_requests :=
  cbv zeta;
  repeat first
    [ lazymatch goal with
      | |- sends_only _ (api_get _) => apply sends_only_api_get
      | |- sends_only _ (make_api_request _ _ _) =>
          apply sends_only_make_api_request; intros ?
      end
    | progress sending ].

Section Tools.

Context {svc : Service}.

(** The endpoint of the history, as the handler builds it. *)
Lemma history_series_id (series_id : option Z) :
  (if truthy (opt_int series_id)
   then py "&seriesId=" ++ str_ (opt_int series_id) else [])
  = match series_id with
    | Some z => if z =? 0 then [] else py "&seriesId=" ++ str_of_int z
    | None => []
    end.
Proof.
  destruct series_id as [z|]; simpl; [|reflexivity].
  now destruct (z =? 0).
Qed.


(** The endpoint of [get_history], as the handler builds it. *)
Lemma get_history_sends page page_size series_id :
  sends_exactly
    [fetch (py "history?"
            ++ (if truthy (opt_int series_id)
                then (py "page=" ++ str_ (opt_int page)
                      ++ py "&pageSize=" ++ str_ (opt_int page_size)
                      ++ py "&sortKey=date&sortDirection=descending")
                     ++ py "&seriesId=" ++ str_ (opt_int series_id)
                else py "page=" ++ str_ (opt_int page)
                     ++ py "&pageSize=" ++ str_ (opt_int page_size)
                     ++ py "&sortKey=date&sortDirection=descending"))]
    (get_history page page_size series_id).
Proof. unfold get_history. one_request. apply sends_exactly_api_get. Qed.

(** The request of [get_history]: the page and the page size, the fixed
    sort by date, descending, and the series only when one is given that is
    not 0. *)
Theorem get_history_request page page_size series_id (u : upstream) :
  requests (trace (snd (run (get_history page page_size series_id) u)))
  = [fetch (py "history?"
            ++ py "page=" ++ str_ (opt_int page)
            ++ py "&pageSize=" ++ str_ (opt_int page_size)
            ++ py "&sortKey=date&sortDirection=descending"
            ++ match series_id with
               | Some z => if z =? 0 then []
                           else py "&seriesId=" ++ str_of_int z
               | None => []
               end)].
Proof.
  rewrite <- history_series_id.
  rewrite (sends_exactly_run _ _ u (get_history_sends page page_size series_id)).
  destruct (truthy (opt_int series_id)); cbv beta iota;
    rewrite <- ?app_assoc, ?app_nil_r; reflexivity.
Qed.

Lemma reads_fetch endpoint : reads (fetch endpoint).
Proof. split; reflexivity. Qed.

Lemma authenticated_request_of v endpoint data :
  authenticated (request_of v endpoint data).
Proof.
  split; [reflexivity|]. split; [now left|]. now exists endpoint.
Qed.

Lemma authenticated_fetch endpoint : authenticated (fetch endpoint).
Proof. apply (authenticated_request_of GET endpoint None). Qed.

(** The eight handlers that read only send GET requests without a body,
    whatever their arguments and whatever the upstream service answers. *)
Theorem reading_tools_only_get (u : upstream) :
  (forall monitored flag,
      Forall reads (requests (trace (snd (run (get_series_list monitored flag) u)))))
  /\ (forall series_id,
         Forall reads
           (requests (trace (snd (run (get_series_details series_id) u)))))
  /\ (forall term,
         Forall reads (requests (trace (snd (run (search_series term) u)))))
  /\ (forall start end_ unmonitored,
         Forall reads
           (requests (trace (snd (run (get_calendar start end_ unmonitored) u)))))
  /\ (forall flag,
         Forall reads (requests (trace (snd (run (get_queue flag) u)))))
  /\ (forall page page_size series_id,
         Forall reads
           (requests (trace (snd (run (get_history page page_size series_id) u)))))
  /\ (forall series_id,
         Forall reads
           (requests (trace (snd (run (get_series_poster series_id) u)))))
  /\ (forall episode_id,
         Forall reads
           (requests (trace (snd (run (get_episode_details episode_id) u))))).
Proof.
  repeat split; intros; apply sends_only_run.
  - unfold get_series_list. all_requests; apply reads_fetch.
  - unfold get_series_details. all_requests; apply reads_fetch.
  - unfold search_series. all_requests; apply reads_fetch.
  - unfold get_calendar, calendar_between. all_requests; apply reads_fetch.
  - unfold get_queue. all_requests; apply reads_fetch.
  - unfold get_history. all_requests; apply reads_fetch.
  - unfold get_series_poster. all_requests; apply reads_fetch.
  - unfold get_episode_details. all_requests; apply reads_fetch.
Qed.

(** Every request of the ten handlers that call the client goes to an
    endpoint under the API base and carries the API key. *)
Theorem every_request_is_authenticated (u : upstream) :
  (forall monitored flag,
      Forall authenticated
        (requests (trace (snd (run (get_series_list monitored flag) u)))))
  /\ (forall series_id,
         Forall authenticated
           (requests (trace (snd (run (get_series_details series_id) u)))))
  /\ (forall term,
         Forall authenticated
           (requests (trace (snd (run (search_series term) u)))))
  /\ (forall tvdb_id title root quality monitored,
         Forall authenticated
           (requests (trace (snd (run (add_series tvdb_id title root quality
                                         monitored) u)))))
  /\ (forall start end_ unmonitored,
         Forall authenticated
           (requests (trace (snd (run (get_calendar start end_ unmonitored) u)))))
  /\ (forall flag,
         Forall authenticated
           (requests (trace (snd (run (get_queue flag) u)))))
  /\ (forall page page_size series_id,
         Forall authenticated
           (requests (trace (snd (run (get_history page page_size series_id) u)))))
  /\ (forall series_id,
         Forall authenticated
           (requests (trace (snd (run (trigger_series_search series_id) u)))))
  /\ (forall series_id,
         Forall authenticated
           (requests (trace (snd (run (get_series_poster series_id) u)))))
  /\ (forall episode_id,
         Forall authenticated
           (requests (trace (snd (run (get_episode_details episode_id) u))))).
Proof.
  repeat split; intros; apply sends_only_run.
  - unfold get_series_list. all_requests;
      first [apply authenticated_fetch | apply authenticated_request_of].
  - unfold get_series_details. all_requests;
      first [apply authenticated_fetch | apply authenticated_request_of].
  - unfold search_series. all_requests;
      first [apply authenticated_fetch | apply authenticated_request_of].
  - unfold add_series, add_series_profile, add_series_create.
    all_requests;
      first [apply authenticated_fetch | apply authenticated_request_of].
  - unfold get_calendar, calendar_between.
    all_requests;
      first [apply authenticated_fetch | apply authenticated_request_of].
  - unfold get_queue. all_requests;
      first [apply authenticated_fetch | apply authenticated_request_of].
  - unfold get_history. all_requests;
      first [apply authenticated_fetch | apply authenticated_request_of].
  - unfold trigger_series_search.
    all_requests;
      first [apply authenticated_fetch | apply authenticated_request_of].
  - unfold get_series_poster. all_requests;
      first [apply authenticated_fetch | apply authenticated_request_of].
  - unfold get_episode_details. all_requests;
      first [apply authenticated_fetch | apply authenticated_request_of].
Qed.

End Tools.

End ToolTraffic.

(** ** What the tools return *)

Module ToolResults.
Import Py Dates Sonarr PyFacts ServerFacts Traffic ToolTraffic.
Local Open Scope string_scope.
Local Open Scope list_scope.
Local Open Scope Z_scope.

Lemma get_document fields k :
  get (PDict fields) k = Ok (field (PDict fields) k).
Proof. reflexivity. Qed.

Lemma get_is_field doc k : is_document doc -> get doc k = Ok (field doc k).
Proof. intros [fields ->]. reflexivity. Qed.

(** What equals [False] is false. *)
Lemma eq_false_falsy (v : value) :
  eq_atom v (ABool false) = true -> truthy v = false.
Proof.
  destruct v as [a| |]; simpl; try discriminate.
  destruct a as [|b|z|f|s]; simpl; try discriminate.
  - now destruct b.
  - unfold atom_eqb, num_compare; simpl.
    destruct (Z.compare_spec z 0); try discriminate. now subst.
  - unfold atom_eqb, num_compare; simpl.
    unfold compare_int_float, float_exact.
    destruct (PrimFloat.is_nan f); [discriminate|].
    rewrite FloatAxioms.eqb_spec.
    change (Prim2SF 0) with (S754_zero false).
    destruct (Prim2SF f) as [s|s| |s m e]; simpl; try discriminate;
      try (destruct (PrimFloat.ltb 0 f); discriminate);
      try (intros _; destruct s; reflexivity).
    destruct (0 <=? e) eqn:He; simpl.
    + apply Z.leb_le in He.
      assert (Hp : 0 < 2 ^ e) by (apply Z.pow_pos_nonneg; lia).
      destruct s.
      * destruct (Z.neg m * 2 ^ e) eqn:E; simpl; try discriminate. nia.
      * destruct (Z.pos m * 2 ^ e) eqn:E; simpl; try discriminate. nia.
    + destruct s; discriminate.
Qed.

Section Results.

Context {svc : Service}.

(** *** List series *)

(** Without a filter, [total_series] is the size of the collection fetched
    and [monitored_count] the number of its series whose [monitored] field
    is true. *)
Theorem get_series_list_unfiltered_totals
    flag items summaries (u u' : upstream) :
  transport (fetch (py "series")) u = (Ok (PList items), u') ->
  rmap series_summary items = Ok summaries ->
  fst (run (get_series_list None flag) u)
  = Ok (Success
          (obj [("total_series", VInt (Z.of_nat (List.length items)));
                ("monitored_count",
                 VInt (Z.of_nat (List.length (List.filter is_monitored items))));
                ("series", PList summaries)])).
Proof.
  intros H Hmap.
  assert (Hst : Forall2 (fun s d =>
                  exists m, get s "monitored" = Ok m
                    /\ subscript d (AStr (py "monitored")) = Ok m)
                  items summaries).
  { apply rmap_Forall2 in Hmap. clear -Hmap.
    induction Hmap; constructor; auto using series_summary_monitored. }
  assert (Hf : rfilter (field_true "monitored") summaries
               = Ok (List.filter (holds (field_true "monitored")) summaries)).
  { apply rfilter_total. clear -Hst.
    induction Hst as [|x y ? ? (m & _ & Hy) _ IH]; constructor; auto.
    unfold field_true. rewrite Hy. simpl. eauto. }
  unfold run, get_series_list, bind, try_except, logger, emit.
  rewrite api_get_run. simpl outside. rewrite H. simpl.
  rewrite Hmap. simpl. rewrite Hf. simpl. unfold count.
  rewrite (rmap_length _ _ _ Hmap).
  rewrite <- (filter_length_Forall2 is_monitored
                (holds (field_true "monitored")) items summaries).
  2:{ clear -Hst. induction Hst as [|x y ? ? (m & Hx & Hy) _ IH];
        constructor; auto.
      unfold is_monitored, field, holds, field_true. now rewrite Hx, Hy. }
  reflexivity.
Qed.

(** With [monitored=False] no series of the result counts as monitored:
    [monitored_count] is 0, and [total_series] the number of series kept. *)
Theorem get_series_list_unmonitored_count
    flag items summaries (u u' : upstream) :
  transport (fetch (py "series")) u = (Ok (PList items), u') ->
  Forall is_document items ->
  rmap series_summary (List.filter (holds (monitored_is false)) items)
  = Ok summaries ->
  fst (run (get_series_list (Some false) flag) u)
  = Ok (Success
          (obj [("total_series", VInt (Z.of_nat (List.length summaries)));
                ("monitored_count", VInt 0);
                ("series", PList summaries)])).
Proof.
  intros H Hdocs Hmap.
  assert (Hf : rfilter (monitored_is false) items
               = Ok (List.filter (holds (monitored_is false)) items)).
  { apply rfilter_total. eapply Forall_impl; [|exact Hdocs].
    intros s [fields ->]. unfold monitored_is. simpl. eauto. }
  assert (Hk : Forall (fun s => monitored_is false s = Ok true)
                 (List.filter (holds (monitored_is false)) items)).
  { apply Forall_forall. intros s Hs.
    apply filter_In in Hs as [_ Hs]. unfold holds in Hs.
    destruct (monitored_is false s) as [[|]|]; congruence. }
  assert (Hnone : rfilter (field_true "monitored") summaries = Ok []).
  { apply rmap_Forall2 in Hmap. clear -Hmap Hk.
    induction Hmap as [|s d kept summaries Hsd _ IH]; [reflexivity|].
    inversion Hk as [|? ? Hs Hk']; subst.
    apply series_summary_monitored in Hsd as (m & Hm & Hd).
    simpl. unfold field_true at 1. rewrite Hd. simpl.
    unfold monitored_is in Hs. rewrite Hm in Hs. simpl in Hs.
    inversion Hs as [Heq]. rewrite Heq.
    rewrite (eq_false_falsy _ Heq). now rewrite (IH Hk'). }
  unfold run, get_series_list, bind, try_except, logger, emit.
  rewrite api_get_run. simpl outside. rewrite H. simpl.
  rewrite Hf. simpl. rewrite Hmap. simpl.
  rewrite Hnone. reflexivity.
Qed.

(** *** Search *)

(** The search works on the first ten entries of the lookup and on no
    other: they are reshaped in order, and [results_count] is their number,
    at most 10. *)
Theorem search_series_first_ten term items results (u u' : upstream) :
  transport (fetch (py "series/lookup?term=" ++ quote term)) u
  = (Ok (PList items), u') ->
  rmap lookup_info (firstn 10 items) = Ok results ->
  fst (run (search_series term) u)
  = Ok (Success
          (obj [("search_term", VStr term);
                ("results_count", VInt (Z.of_nat (List.length results)));
                ("results", PList results)]))
  /\ List.length results = Nat.min 10 (List.length items).
Proof.
  intros H Hmap. split.
  - unfold run, search_series, bind, try_except, logger, emit.
    rewrite api_get_run. simpl outside. rewrite H.
    unfold lift, slice_to, iter, rbind. rewrite Hmap. reflexivity.
  - rewrite (rmap_length _ _ _ Hmap). apply length_firstn.
Qed.

(** *** History *)

(** The page of history: [records_on_page] is the number of records of the
    response, reshaped in order; [total_records] is what the response says,
    0 when it says nothing; [page] and [page_size] are the arguments. *)
Theorem get_history_counts
    page page_size series_id endpoint history_data records items
    (u u' : upstream) :
  requests (trace (snd (run (get_history page page_size series_id) u)))
  = [fetch endpoint] ->
  transport (fetch endpoint) u = (Ok history_data, u') ->
  get_or history_data "records" (PList []) = Ok (PList records) ->
  rmap history_info records = Ok items ->
  exists total_records,
    get_or history_data "totalRecords" (VInt 0) = Ok total_records
    /\ fst (run (get_history page page_size series_id) u)
       = Ok (Success (obj [("page", opt_int page);
                           ("page_size", opt_int page_size);
                           ("total_records", total_records);
                           ("records_on_page",
                            VInt (Z.of_nat (List.length records)));
                           ("history", PList items)])).
Proof.
  intros Hreq Ht Hrec Hmap.
  assert (Hdoc : exists t, get_or history_data "totalRecords" (VInt 0) = Ok t).
  { unfold get_or in *. destruct history_data; try discriminate. eauto. }
  destruct Hdoc as [t Htot]. exists t. split; [exact Htot|].
  rewrite (sends_exactly_run _ _ u (get_history_sends page page_size series_id))
    in Hreq.
  match type of Hreq with
  | [?a] = [?b] => assert (Hfetch : a = b) by congruence
  end.
  rewrite <- Hfetch in Ht.
  unfold run, get_history, bind, try_except, logger, emit. cbv zeta.
  rewrite api_get_run. simpl outside. rewrite Ht.
  unfold lift. rewrite Hrec. simpl. rewrite Hmap. simpl. rewrite Htot.
  unfold count. now rewrite (rmap_length _ _ _ Hmap).
Qed.

End Results.

End ToolResults.

(** ** Overviews, progress and the resources *)

Module Details.
Import Py Dates Sonarr PyFacts ServerFacts Traffic ToolTraffic ToolResults.
Local Open Scope string_scope.
Local Open Scope list_scope.
Local Open Scope Z_scope.

(** *** The overview *)

(** An overview that is cut is a string of at most [n + 3] characters: no
    other value comes out of the cut. *)
Theorem overview_cut_is_bounded n doc v :
  overview_cut n doc = Ok v ->
  exists r, v = VStr r /\ (List.length r <= n + 3)%nat.
Proof.
  unfold overview_cut. intros H.
  destruct (get_or doc "overview" (VStr [])) as [o|] eqn:Eo; simpl in H;
    [|discriminate].
  destruct o as [[| | | |s]|l|d]; simpl in H; try discriminate.
  eexists. split; [now inversion H|].
  rewrite length_app, length_firstn.
  destruct (Z.of_nat n <? Z.of_nat (List.length s)); simpl; lia.
Qed.

(** An overview that is there and is no string - a JSON null, a number, a
    list - is not cut: the reshaping raises [TypeError]. *)
Lemma overview_cut_not_text n fields v :
  lookup (AStr (py "overview")) fields = Some v ->
  not_text v ->
  overview_cut n (PDict fields) = Raise TypeError.
Proof.
  intros Hl Hv. unfold overview_cut, get_or. rewrite Hl. simpl.
  destruct v as [[| | | |s]|l|d]; simpl in *; try reflexivity; contradiction.
Qed.

Section Handlers.

Context {svc : Service}.

(** [get_series_details] on a series whose overview is there and is no
    string returns an error, not the details. *)
Theorem get_series_details_overview_not_text
    series_id fields v (u u' : upstream) :
  transport (fetch (py "series/" ++ str_of_int series_id)) u
  = (Ok (PDict fields), u') ->
  lookup (AStr (py "overview")) fields = Some v ->
  not_text v ->
  fst (run (get_series_details series_id) u) = Ok (Error (StrOf TypeError)).
Proof.
  intros Ht Hl Hv.
  unfold run, get_series_details, bind, try_except, logger, emit.
  rewrite api_get_run. simpl outside. rewrite Ht.
  unfold lift, series_details.
  rewrite (overview_cut_not_text _ _ _ Hl Hv). reflexivity.
Qed.

End Handlers.

(** *** The progress of a queue record *)

(** A record with nothing left has progress 100.0, whatever its size: the
    size may be absent, 0 or negative, the divisor is at least 1. *)
Theorem progress_of_finished_item item size :
  get_or item "sizeleft" (VInt 0) = Ok (VInt 0) ->
  get_or item "size" (VInt 1) = Ok (VInt size) ->
  progress item = Ok (VFloat 100).
Proof.
  intros Hleft Hsize. unfold progress. rewrite Hleft, Hsize. simpl.
  unfold py_max, py_gt, atom_lt, num_compare. simpl.
  destruct (Z.compare_spec size 1) as [->|Hlt|Hgt]; simpl.
  - reflexivity.
  - reflexivity.
  - unfold int_true_divide. destruct size as [|p|p]; try lia.
    simpl. reflexivity.
Qed.

(** *** The poster *)

Lemma first_poster_found before poster rest :
  Forall (fun image => is_document image /\ is_poster image = false) before ->
  is_document poster -> is_poster poster = true ->
  first_poster (before ++ poster :: rest) = Ok (Some (field poster "url")).
Proof.
  intros Hb [fields ->] Hp.
  induction Hb as [|image before [[f ->] Hi] _ IH]; simpl.
  - unfold is_poster, field in Hp. simpl in Hp. rewrite Hp. reflexivity.
  - unfold is_poster, field in Hi. simpl in Hi. rewrite Hi. exact IH.
Qed.

Lemma first_poster_none images :
  Forall (fun image => is_document image /\ is_poster image = false) images ->
  first_poster images = Ok None.
Proof.
  induction 1 as [|image images [[f ->] Hi] _ IH]; simpl; [reflexivity|].
  unfold is_poster, field in Hi. simpl in Hi. rewrite Hi. exact IH.
Qed.

Section Resources.

Context {svc : Service}.

(** The poster is the first image whose cover type is "poster": the
    resource is the configured URL followed by the [url] of that image, and
    the images after it are not looked at. *)
Theorem get_series_poster_first_match
    series_id series_data before poster rest (u u' : upstream) :
  transport (fetch (py "series/" ++ series_id)) u = (Ok series_data, u') ->
  get_or series_data "images" (PList [])
  = Ok (PList (before ++ poster :: rest)) ->
  Forall (fun image => is_document image /\ is_poster image = false) before ->
  is_document poster -> is_poster poster = true ->
  fst (run (get_series_poster series_id) u)
  = Ok (Text (SONARR_URL ++ str_ (field poster "url"))).
Proof.
  intros Ht Hi Hb Hd Hp.
  unfold run, get_series_poster, bind, try_except.
  rewrite api_get_run. simpl outside. rewrite Ht.
  unfold lift. rewrite Hi. simpl.
  rewrite (first_poster_found _ _ _ Hb Hd Hp). reflexivity.
Qed.

(** Without a poster among the images (or without images) the resource is
    the text "No poster image found for series" and the id, not an error. *)
Theorem get_series_poster_none
    series_id series_data images (u u' : upstream) :
  transport (fetch (py "series/" ++ series_id)) u = (Ok series_data, u') ->
  get_or series_data "images" (PList []) = Ok (PList images) ->
  Forall (fun image => is_document image /\ is_poster image = false) images ->
  fst (run (get_series_poster series_id) u)
  = Ok (Text (py "No poster image found for series " ++ series_id)).
Proof.
  intros Ht Hi Hb.
  unfold run, get_series_poster, bind, try_except.
  rewrite api_get_run. simpl outside. rewrite Ht.
  unfold lift. rewrite Hi. simpl.
  rewrite (first_poster_none _ Hb). reflexivity.
Qed.

(** *** The episode *)

(** The document of an episode has the sections [episode_info] and
    [series_info], and a third section [file_info], after them, exactly when
    the [episodeFile] of the episode is true. *)
Theorem get_episode_details_sections
    episode_id fields details (u u' : upstream) :
  transport (fetch (py "episode/" ++ episode_id)) u = (Ok (PDict fields), u') ->
  episode_details (PDict fields) = Ok details ->
  fst (run (get_episode_details episode_id) u) = Ok (Dumped details)
  /\ exists sections,
       details = PDict sections
       /\ List.map fst sections
          = [AStr (py "episode_info"); AStr (py "series_info")]
            ++ (if truthy (field (PDict fields) "episodeFile")
                then [AStr (py "file_info")] else []).
Proof.
  intros Ht Hd. split.
  - unfold run, get_episode_details, bind, try_except.
    rewrite api_get_run. simpl outside. rewrite Ht.
    unfold lift. rewrite Hd. reflexivity.
  - unfold episode_details in Hd.
    rewrite !get_document in Hd. simpl rbind in Hd.
    match type of Hd with
    | rbind ?r _ = _ => destruct r as [t|] eqn:Es; simpl in Hd; [|discriminate]
    end.
    destruct (truthy (field (PDict fields) "episodeFile")).
    + step_through Hd. inversion Hd; subst.
      eexists. split; reflexivity.
    + inversion Hd; subst. eexists. split; reflexivity.
Qed.


End Resources.

End Details.

(** ** The commands: search, add, status *)

Module Commands.
Import Py Dates Sonarr PyFacts ServerFacts Traffic ToolTraffic ToolResults.
Local Open Scope string_scope.
Local Open Scope list_scope.
Local Open Scope Z_scope.

Lemma subscript_first x l : subscript (PList (x :: l)) (AInt 0) = Ok x.
Proof. reflexivity. Qed.

Lemma get_or_is_field_or doc k default :
  is_document doc -> get_or doc k default = Ok (field_or doc k default).
Proof. intros [fields ->]. reflexivity. Qed.

Section Handlers.

Context {svc : Service}.

(** What [make_api_request(endpoint, method="POST", data=data)] does. *)
Lemma api_post_run endpoint data (w : world) :
  make_api_request endpoint (py "POST") (Some data) w =
  let '(out, u') := transport (request_of POST endpoint (Some data))
                      (outside w) in
  match out with
  | Raise (ClientError cause) =>
      (Raise (PyException (py "Sonarr API request failed: " ++ cause)),
       {| outside := u';
          trace := (trace w
                    ++ [Exchange (request_of POST endpoint (Some data)) out])
                   ++ [Logged ERROR "API request failed: {}"
                         [LogExn (ClientError cause)]] |})
  | _ => (out, {| outside := u';
                  trace := trace w
                           ++ [Exchange (request_of POST endpoint (Some data))
                                 out] |})
  end.
Proof.
  rewrite (make_api_request_branch _ _ _ POST) by reflexivity.
  unfold try_except, send.
  destruct (transport _ (outside w)) as [out u'].
  destruct out as [v|e]; [reflexivity|].
  destruct e; reflexivity.
Qed.

(** *** The search command *)

(** The search command is queued with the name "SeriesSearch" and the id of
    the series; when the answer is a document, the result reports the
    command of the answer, and the series id of the call, not of the
    answer. *)
Theorem trigger_series_search_result series_id result (u u' : upstream) :
  transport (request_of POST (py "command")
               (Some (obj [("name", VStr (py "SeriesSearch"));
                           ("seriesId", VInt series_id)]))) u
  = (Ok result, u') ->
  is_document result ->
  fst (run (trigger_series_search series_id) u)
  = Ok (Success
          (obj [("command_id", field result "id");
                ("command_name", field result "name");
                ("series_id", VInt series_id);
                ("status", field result "status");
                ("queued_at", field result "queued");
                ("message",
                 VStr (py "Search command queued for series ID "
                       ++ str_of_int series_id))])).
Proof.
  intros Ht [fields ->].
  unfold run, trigger_series_search, bind, try_except, logger, emit.
  cbv zeta. rewrite api_post_run. simpl outside. rewrite Ht. reflexivity.
Qed.

(** *** The system status *)

Lemma health_info_document issue :
  is_document issue ->
  health_info issue
  = Ok (obj [("type", field issue "type");
             ("message", field issue "message");
             ("wiki_url", field issue "wikiUrl")]).
Proof. intros [fields ->]. reflexivity. Qed.

Lemma health_issues_documents issues :
  Forall is_document issues ->
  rmap health_info issues
  = Ok (List.map (fun issue => obj [("type", field issue "type");
                                    ("message", field issue "message");
                                    ("wiki_url", field issue "wikiUrl")])
          issues).
Proof.
  induction 1 as [|issue issues Hi _ IH]; simpl; [reflexivity|].
  now rewrite (health_info_document _ Hi), IH.
Qed.

Lemma system_info_document status_data :
  is_document status_data ->
  exists system,
    system_info status_data = Ok system
    /\ subscript system (AStr (py "version"))
       = Ok (field status_data "version").
Proof. intros [fields ->]. eexists. split; reflexivity. Qed.

(** When the two requests of [get_system_status] come back with a status
    document and a list of health issues, the health part of the result has
    one entry per issue, in order, their number, and the status "healthy"
    exactly when there is none. *)
Theorem get_system_status_health
    (gather : gathering) status_data issues (u : upstream) (w' : world) :
  gather (api_get (py "system/status")) (api_get (py "health"))
    {| outside := u;
       trace := [Logged INFO "Getting system status and health" []] |}
  = (Ok (status_data, PList issues), w') ->
  is_document status_data ->
  Forall is_document issues ->
  exists system,
    system_info status_data = Ok system
    /\ fst (run (get_system_status gather) u)
       = Ok (Success
               (obj [("system", system);
                     ("health",
                      obj [("total_issues",
                            VInt (Z.of_nat (List.length issues)));
                           ("issues",
                            PList (List.map
                                     (fun issue =>
                                        obj [("type", field issue "type");
                                             ("message", field issue "message");
                                             ("wiki_url", field issue "wikiUrl")])
                                     issues));
                           ("status",
                            VStr (match issues with
                                  | [] => py "healthy"
                                  | _ :: _ => py "has_issues"
                                  end))])])).
Proof.
  intros Hg Hdoc Hdocs.
  destruct (system_info_document _ Hdoc) as (system & Hsys & Hver).
  exists system. split; [exact Hsys|].
  unfold run, get_system_status, bind, try_except, logger, emit.
  cbv zeta. cbn [outside trace app]. rewrite Hg.
  unfold lift. cbn [fst snd]. rewrite Hsys.
  change ((l <- iter (PList issues);; rmap health_info l)%res)
    with (rmap health_info issues).
  rewrite (health_issues_documents _ Hdocs), Hver.
  unfold ret, count. rewrite length_map.
  destruct issues; reflexivity.
Qed.

(** *** Add series *)

Lemma framed_add_series_create tvdb_id title monitored root quality :
  framed (add_series_create tvdb_id title monitored root quality).
Proof.
  unfold add_series_create.
  repeat first
    [ apply framed_make_api_request
    | apply framed_ret | apply framed_raise | apply framed_lift
    | apply framed_logger | apply framed_send | apply framed_now
    | apply framed_bind; [|intros ?]
    | match goal with
      | |- framed (if ?c then _ else _) => destruct c
      end ].
Qed.

Lemma add_series_given_run tvdb_id title root quality monitored (u : upstream) :
  run (add_series tvdb_id title (Some root) (Some quality) monitored) u
  = try_except
      (add_series_create tvdb_id title monitored (VStr root) (VInt quality))
      (except_exception "add_series")
      {| outside := u;
         trace := [Logged INFO "Adding series: {} (TVDB ID: {})"
                     [LogValue (VStr title); LogValue (VInt tvdb_id)]] |}.
Proof. reflexivity. Qed.

Lemma add_series_defaults_run
    tvdb_id title monitored folder folders path profile profiles quality
    (u u1 u2 : upstream) :
  transport (fetch (py "rootfolder")) u
  = (Ok (PList (folder :: folders)), u1) ->
  subscript folder (AStr (py "path")) = Ok (VStr path) ->
  transport (fetch (py "qualityprofile")) u1
  = (Ok (PList (profile :: profiles)), u2) ->
  subscript profile (AStr (py "id")) = Ok (VInt quality) ->
  run (add_series tvdb_id title None None monitored) u
  = try_except
      (add_series_create tvdb_id title monitored (VStr path) (VInt quality))
      (except_exception "add_series")
      {| outside := u2;
         trace := [Logged INFO "Adding series: {} (TVDB ID: {})"
                     [LogValue (VStr title); LogValue (VInt tvdb_id)];
                   Exchange (fetch (py "rootfolder"))
                     (Ok (PList (folder :: folders)));
                   Logged INFO "Using default root folder: {}"
                     [LogValue (VStr path)];
                   Exchange (fetch (py "qualityprofile"))
                     (Ok (PList (profile :: profiles)));
                   Logged INFO "Using default quality profile ID: {}"
                     [LogValue (VInt quality)]] |}.
Proof.
  intros H1 Hp H2 Hq.
  unfold run, add_series, add_series_profile.
  unfold bind at 1, logger at 1, emit at 1.
  cbn [outside trace app].
  rewrite try_except_bind, api_get_run. cbn [outside trace app]. rewrite H1.
  change (negb (truthy (PList (folder :: folders)))) with false. cbv iota.
  rewrite try_except_bind. unfold lift at 1.
  rewrite subscript_first. cbn [rbind]. rewrite Hp.
  rewrite try_except_bind. unfold logger at 1, emit at 1.
  cbn [outside trace app].
  rewrite try_except_bind, api_get_run. cbn [outside trace app]. rewrite H2.
  change (negb (truthy (PList (profile :: profiles)))) with false. cbv iota.
  rewrite try_except_bind. unfold lift at 1.
  rewrite subscript_first. cbn [rbind]. rewrite Hq.
  rewrite try_except_bind. unfold logger at 1, emit at 1.
  cbn [outside trace app]. reflexivity.
Qed.

(** Without a root folder path and a quality profile id, the path of the
    first root folder and the id of the first quality profile are taken, in
    this order, and the call goes on as the call with these two values
    does: same result, and the same requests after the two fetches. *)
Theorem add_series_defaults
    tvdb_id title monitored folder folders path profile profiles quality
    (u u1 u2 : upstream) :
  transport (fetch (py "rootfolder")) u
  = (Ok (PList (folder :: folders)), u1) ->
  subscript folder (AStr (py "path")) = Ok (VStr path) ->
  transport (fetch (py "qualityprofile")) u1
  = (Ok (PList (profile :: profiles)), u2) ->
  subscript profile (AStr (py "id")) = Ok (VInt quality) ->
  fst (run (add_series tvdb_id title None None monitored) u)
  = fst (run (add_series tvdb_id title (Some path) (Some quality) monitored) u2)
  /\ requests (trace (snd (run (add_series tvdb_id title None None monitored) u)))
     = [fetch (py "rootfolder"); fetch (py "qualityprofile")]
       ++ requests (trace (snd (run (add_series tvdb_id title (Some path)
                                       (Some quality) monitored) u2))).
Proof.
  intros H1 Hp H2 Hq.
  rewrite (add_series_defaults_run _ _ _ _ _ _ _ _ _ _ _ _ H1 Hp H2 Hq).
  rewrite add_series_given_run.
  destruct (framed_add_series_create tvdb_id title monitored (VStr path)
              (VInt quality) u2) as (r & u3 & evs & Hrun).
  unfold try_except. rewrite !Hrun.
  destruct r as [res|e].
  - split; [reflexivity|]. cbn [snd trace].
    unfold requests. rewrite !exchanges_app. reflexivity.
  - unfold except_exception, bind, logger, emit, ret.
    split; [reflexivity|]. cbn [snd trace].
    unfold requests. rewrite !exchanges_app. simpl.
    now rewrite !app_nil_r.
Qed.

(** With a root folder path and a quality profile id, and a series found
    by the lookup: the series is created by one POST after the lookup, whose
    body has the path, the profile and the TVDB id of the call, the title of
    the series found (the title of the call only when it has none) and the
    language profile 1; the result reports the series that was created. *)
Theorem add_series_creates
    tvdb_id title root quality monitored series found body result seasons
    (u u1 u2 : upstream) :
  transport (fetch (py "series/lookup?term=tvdb:" ++ str_of_int tvdb_id)) u
  = (Ok (PList (series :: found)), u1) ->
  is_document series ->
  body = obj [("title", field_or series "title" (VStr title));
              ("qualityProfileId", VInt quality);
              ("languageProfileId", VInt 1);
              ("rootFolderPath", VStr root);
              ("monitored", opt_bool monitored);
              ("addOptions",
               obj [("monitor", VStr (py "all"));
                    ("searchForMissingEpisodes", VBool true)]);
              ("tvdbId", VInt tvdb_id);
              ("titleSlug", field series "titleSlug");
              ("images", field_or series "images" (PList []));
              ("seasons", field_or series "seasons" (PList []))] ->
  transport (request_of POST (py "series") (Some body)) u1 = (Ok result, u2) ->
  is_document result ->
  len (field_or result "seasons" (PList [])) = Ok seasons ->
  fst (run (add_series tvdb_id title (Some root) (Some quality) monitored) u)
  = Ok (Success
          (obj [("added_series",
                 obj [("id", field result "id");
                      ("title", field result "title");
                      ("tvdb_id", field result "tvdbId");
                      ("path", field result "path");
                      ("monitored", field result "monitored");
                      ("quality_profile_id", field result "qualityProfileId");
                      ("seasons", VInt seasons)]);
                ("message",
                 VStr (py "Successfully added '"
                       ++ str_ (field result "title")
                       ++ py "' to Sonarr"))]))
  /\ requests (trace (snd (run (add_series tvdb_id title (Some root)
                                  (Some quality) monitored) u)))
     = [fetch (py "series/lookup?term=tvdb:" ++ str_of_int tvdb_id);
        request_of POST (py "series") (Some body)].
Proof.
  intros H1 [sf ->] -> H2 [rf ->] Hs.
  unfold run, add_series, add_series_profile, add_series_create.
  unfold bind, try_except, logger, emit.
  rewrite api_get_run. simpl outside. rewrite H1.
  change (negb (truthy (PList (PDict sf :: found)))) with false. cbv iota.
  unfold lift. rewrite subscript_first.
  change (rbind (get_or (PDict sf) "title" (VStr title)) ?k)
    with (k (field_or (PDict sf) "title" (VStr title))).
  cbv beta.
  match type of H2 with
  | transport (request_of POST _ (Some ?b)) _ = _ =>
      match goal with
      | |- context [match ?r with Ok _ => _ | Raise _ => _ end] =>
          change r with (Ok b)
      end
  end.
  cbv iota. rewrite api_post_run. cbn [outside]. rewrite H2.
  rewrite !get_document. cbn [rbind].
  change (rbind (get_or (PDict rf) "seasons" (PList [])) (fun l => len l))
    with (len (field_or (PDict rf) "seasons" (PList []))).
  rewrite Hs. cbn [rbind ret fst snd trace].
  split; [reflexivity|].
  unfold requests. rewrite !exchanges_app. reflexivity.
Qed.

End Handlers.

End Commands.

(** ** The counts of the calendar *)

Module CalendarCounts.
Import Py Dates Sonarr PyFacts StrOrder SortFacts GroupFacts ServerFacts.
Import CalendarFacts.
Local Open Scope string_scope.
Local Open Scope list_scope.
Local Open Scope Z_scope.

Lemma group_add_count k ep g :
  grouped_count (group_add k ep g) = S (grouped_count g).
Proof.
  unfold grouped_count. induction g as [|[k0 l0] g IH]; simpl.
  - reflexivity.
  - destruct (key_eqb k0 k); simpl.
    + rewrite length_app. simpl. lia.
    + rewrite IH. lia.
Qed.

Lemma fold_group_add_count eps g :
  grouped_count (fold_left (fun g ep => group_add (air_date_of ep) ep g) eps g)
  = (grouped_count g + List.length eps)%nat.
Proof.
  revert g. induction eps as [|ep eps IH]; intros g; simpl.
  - lia.
  - rewrite IH, group_add_count. lia.
Qed.

Lemma sizes_permutation a b : Permutation a b -> sizes a = sizes b.
Proof.
  unfold sizes. induction 1; simpl; lia.
Qed.

Lemma sizes_of_groups g :
  sizes (List.map (fun kv : atom * list value => (fst kv, PList (snd kv))) g)
  = grouped_count g.
Proof.
  unfold sizes, grouped_count. rewrite map_map. reflexivity.
Qed.

Section Calendar.

Context {svc : Service}.

(** With both dates given, the one request of [get_calendar] is the fetch
    of the calendar between them, as they are given, with the flag
    [unmonitored=true] only when it is asked for; the clock is not read, and
    the fetch meets the upstream service as the call found it. *)
Theorem get_calendar_explicit_range start end_ unmonitored (u : upstream) :
  exists request,
    request = fetch (py "calendar?start=" ++ start ++ py "&end=" ++ end_
                     ++ match unmonitored with
                        | Some true => py "&unmonitored=true"
                        | _ => []
                        end)
    /\ exchanges (trace (snd (run (get_calendar (Some start) (Some end_)
                                     unmonitored) u)))
       = [(request, fst (transport request u))].
Proof.
  eexists. split; [reflexivity|].
  replace (py "calendar?start=" ++ start ++ py "&end=" ++ end_
           ++ match unmonitored with
              | Some true => py "&unmonitored=true"
              | _ => []
              end)
    with (calendar_endpoint start end_ unmonitored).
  2:{ unfold calendar_endpoint, truthy_flag.
      destruct unmonitored as [[|]|]; cbv beta iota zeta;
        rewrite <- ?app_assoc, ?app_nil_r; reflexivity. }
  unfold run, get_calendar.
  unfold bind at 1, logger, emit. cbn [outside trace app].
  rewrite try_except_bind. unfold ret at 1.
  rewrite try_except_bind. unfold ret at 1.
  rewrite calendar_between_exchanges. reflexivity.
Qed.

Lemma calendar_between_counts start end_ um (w : world) entries episodes u1 :
  transport (fetch (calendar_endpoint start end_ um)) (outside w)
  = (Ok (PList entries), u1) ->
  Forall has_air_date entries ->
  rmap episode_info entries = Ok episodes ->
  exists data by_date,
    fst (calendar_between start end_ um w) = Ok (Success data)
    /\ subscript data (AStr (py "total_episodes"))
       = Ok (VInt (Z.of_nat (List.length entries)))
    /\ subscript data (AStr (py "episodes_by_date")) = Ok (PDict by_date)
    /\ sizes by_date = List.length entries
    /\ subscript data (AStr (py "episodes_with_files"))
       = Ok (VInt (Z.of_nat (List.length (List.filter has_file entries))))
    /\ (List.length (List.filter has_file entries)
        <= List.length entries)%nat.
Proof.
  intros Ht Hdates Hmap.
  assert (Hdated : Forall dated episodes).
  { apply rmap_Forall2 in Hmap. clear -Hmap Hdates.
    induction Hmap as [|x y ? ? Hxy _ IH]; constructor.
    - inversion Hdates as [|? ? (s & Hs) _]; subst.
      apply episode_info_fields in Hxy as (d & f & Hd & Hy & _).
      exists s. congruence.
    - apply IH. now inversion Hdates. }
  pose proof (fold_grouped episodes [] [] Hdated grouped_nil) as Hgr.
  simpl in Hgr.
  pose proof (fold_group_add_count episodes []) as Hcount.
  pose proof (group_by_date_fold episodes [] Hdated) as Hg.
  set (g := fold_left (fun g ep => group_add (air_date_of ep) ep g)
              episodes []) in *.
  destruct Hgr as (Hkeys & Hnd & _ & _).
  set (f := fun kv : atom * list value => (fst kv, PList (snd kv))).
  destruct (sorted_items_sorted (List.map f g)) as (r & Hr & Hperm & _).
  { apply Forall_map. exact Hkeys. }
  { now rewrite map_map. }
  exists (obj [("date_range", VStr (start ++ py " to " ++ end_));
               ("total_episodes", count episodes);
               ("episodes_with_files",
                count (List.filter (holds (field_true "has_file")) episodes));
               ("episodes_by_date", PDict r);
               ("all_episodes", PList episodes)]).
  exists r.
  pose proof (rmap_length _ _ _ Hmap) as Hlen.
  assert (Hfiles : List.length (List.filter has_file entries)
                   = List.length (List.filter (holds (field_true "has_file"))
                                    episodes)).
  { apply filter_length_Forall2. apply rmap_Forall2 in Hmap. clear -Hmap.
    induction Hmap as [|x y ? ? Hxy _ IH]; constructor; auto.
    apply episode_info_has_file in Hxy as (f & Hx & Hy).
    unfold has_file, field, holds, field_true. now rewrite Hx, Hy. }
  split; [|repeat split].
  - unfold calendar_between, bind. rewrite api_get_run, Ht.
    unfold lift, logger, emit, ret. simpl. rewrite Hmap. simpl.
    rewrite Hg. simpl. rewrite (with_files_counted _ _ Hmap). simpl.
    unfold sorted_by_date. fold f. rewrite Hr. reflexivity.
  - simpl. unfold count. now rewrite Hlen.
  - rewrite <- (sizes_permutation _ _ Hperm). unfold f.
    rewrite sizes_of_groups, Hcount. unfold grouped_count. simpl. lia.
  - simpl. unfold count. now rewrite Hfiles.
  - apply filter_length_le.
Qed.

(** The grouping neither loses nor repeats an episode: for entries whose
    air dates are strings, the groups of [episodes_by_date] hold as many
    episodes together as [total_episodes] says, which is the number of
    entries fetched; and [episodes_with_files] is the number of entries
    whose [hasFile] is true, at most that number. *)
Theorem get_calendar_counts
    start end_ um r entries episodes (u : upstream) :
  In (r, Ok (PList entries))
    (exchanges (trace (snd (run (get_calendar start end_ um) u)))) ->
  Forall has_air_date entries ->
  rmap episode_info entries = Ok episodes ->
  exists data by_date,
    fst (run (get_calendar start end_ um) u) = Ok (Success data)
    /\ subscript data (AStr (py "total_episodes"))
       = Ok (VInt (Z.of_nat (List.length entries)))
    /\ subscript data (AStr (py "episodes_by_date")) = Ok (PDict by_date)
    /\ sizes by_date = List.length entries
    /\ subscript data (AStr (py "episodes_with_files"))
       = Ok (VInt (Z.of_nat (List.length (List.filter has_file entries))))
    /\ (List.length (List.filter has_file entries)
        <= List.length entries)%nat.
Proof.
  intros Hin Hdates Hmap.
  destruct (get_calendar_cases start end_ um u)
    as [Hnone|(s & e & w & Hrun & Hw)].
  { rewrite Hnone in Hin. contradiction. }
  rewrite Hrun in Hin |- *.
  rewrite calendar_between_exchanges, Hw in Hin. simpl in Hin.
  destruct Hin as [Hin|[]]. inversion Hin as [[Hr Hout]].
  destruct (transport (fetch (calendar_endpoint s e um)) (outside w))
    as [out u1] eqn:Ht.
  simpl in Hout. subst out.
  destruct (calendar_between_counts s e um w _ _ _ Ht Hdates Hmap)
    as (data & by_date & Hret & Hprops).
  exists data, by_date. split; [|exact Hprops].
  unfold try_except.
  destruct (calendar_between s e um w) as [res w'].
  simpl in Hret. subst res. reflexivity.
Qed.

End Calendar.

End CalendarCounts.

(** ** The tools on the scripted upstream, continued *)

Module MoreExamples.
Import Py Dates Sonarr PyFacts ServerFacts Scripted.
Import Traffic ToolTraffic ToolResults Details Commands CalendarCounts.
Local Open Scope string_scope.
Local Open Scope list_scope.
Local Open Scope Z_scope.

#[local] Existing Instance service.

(** *** The client *)

Lemma make_api_request_one_exchange_witness :
  upper (py "post") = verb_name POST
  /\ (exchanges (trace (snd (make_api_request (py "command") (py "post")
                               (Some a_command) (fresh [Ok a_command]))))
      = exchanges (trace (fresh [Ok a_command]))
        ++ [(request_of POST (py "command") (Some a_command),
             fst (transport (request_of POST (py "command") (Some a_command))
                    (outside (fresh [Ok a_command]))))]
      /\ outside (snd (make_api_request (py "command") (py "post")
                         (Some a_command) (fresh [Ok a_command])))
         = snd (transport (request_of POST (py "command") (Some a_command))
                  (outside (fresh [Ok a_command])))).
Proof.
  assert (H : upper (py "post") = verb_name POST) by reflexivity.
  split; [exact H|].
  exact (make_api_request_one_exchange (svc := service) _ _ _ _ _ H).
Defined.

Lemma make_api_request_outcome_witness :
  upper (py "Delete") = verb_name DELETE
  /\ fst (make_api_request (py "series/7") (py "Delete") None
            (fresh [Ok (VStr (py "gone"))]))
     = match fst (transport (request_of DELETE (py "series/7") None)
                    (outside (fresh [Ok (VStr (py "gone"))]))) with
       | Ok body =>
           Ok (match DELETE with
               | DELETE => obj [("status", VStr (py "deleted"))]
               | _ => body
               end)
       | Raise (ClientError cause) =>
           Raise (PyException (py "Sonarr API request failed: " ++ cause))
       | Raise e => Raise e
       end.
Proof.
  assert (H : upper (py "Delete") = verb_name DELETE) by reflexivity.
  split; [exact H|].
  exact (make_api_request_outcome (svc := service) _ _ _ _ _ H).
Defined.

(** A DELETE hands back [{"status": "deleted"}] whatever the body was. *)
Example delete_hands_back_deleted :
  fst (make_api_request (py "series/7") (py "Delete") None
         (fresh [Ok (VStr (py "gone"))]))
  = Ok (obj [("status", VStr (py "deleted"))]).
Proof. reflexivity. Qed.

(** *** List series *)

Lemma get_series_list_unfiltered_totals_witness :
  transport (fetch (py "series")) (answering [Ok (PList five_series)])
  = (Ok (PList five_series), answering [])
  /\ rmap series_summary five_series
     = Ok (match rmap series_summary five_series with
           | Ok l => l
           | Raise _ => []
           end)
  /\ fst (run (get_series_list None None) (answering [Ok (PList five_series)]))
     = Ok (Success
             (obj [("total_series",
                    VInt (Z.of_nat (List.length five_series)));
                   ("monitored_count",
                    VInt (Z.of_nat
                            (List.length
                               (List.filter is_monitored five_series))));
                   ("series",
                    PList (match rmap series_summary five_series with
                           | Ok l => l
                           | Raise _ => []
                           end))])).
Proof.
  assert (H1 : transport (fetch (py "series"))
                 (answering [Ok (PList five_series)])
               = (Ok (PList five_series), answering [])) by reflexivity.
  assert (H2 : rmap series_summary five_series
               = Ok (match rmap series_summary five_series with
                     | Ok l => l
                     | Raise _ => []
                     end)) by (vm_compute; reflexivity).
  split; [exact H1|]. split; [exact H2|].
  exact (get_series_list_unfiltered_totals (svc := service) None _ _ _ _ H1 H2).
Defined.

(** Of the five series, five are counted and two are monitored. *)
Example unfiltered_totals_of_five_series :
  subscript (data_of (fst (run (get_series_list None None)
                             (answering [Ok (PList five_series)]))))
    (AStr (py "total_series")) = Ok (VInt 5)
  /\ subscript (data_of (fst (run (get_series_list None None)
                                (answering [Ok (PList five_series)]))))
       (AStr (py "monitored_count")) = Ok (VInt 2).
Proof. split; vm_compute; reflexivity. Qed.

Lemma get_series_list_unmonitored_count_witness :
  transport (fetch (py "series")) (answering [Ok (PList five_series)])
  = (Ok (PList five_series), answering [])
  /\ Forall is_document five_series
  /\ rmap series_summary
       (List.filter (holds (monitored_is false)) five_series)
     = Ok (match rmap series_summary
                   (List.filter (holds (monitored_is false)) five_series) with
           | Ok l => l
           | Raise _ => []
           end)
  /\ fst (run (get_series_list (Some false) None)
            (answering [Ok (PList five_series)]))
     = Ok (Success
             (obj [("total_series",
                    VInt (Z.of_nat
                            (List.length
                               (match rmap series_summary
                                        (List.filter
                                           (holds (monitored_is false))
                                           five_series) with
                                | Ok l => l
                                | Raise _ => []
                                end))));
                   ("monitored_count", VInt 0);
                   ("series",
                    PList (match rmap series_summary
                                   (List.filter (holds (monitored_is false))
                                      five_series) with
                           | Ok l => l
                           | Raise _ => []
                           end))])).
Proof.
  assert (H1 : transport (fetch (py "series"))
                 (answering [Ok (PList five_series)])
               = (Ok (PList five_series), answering [])) by reflexivity.
  assert (H2 : Forall is_document five_series)
    by (repeat constructor; eexists; reflexivity).
  assert (H3 : rmap series_summary
                 (List.filter (holds (monitored_is false)) five_series)
               = Ok (match rmap series_summary
                             (List.filter (holds (monitored_is false))
                                five_series) with
                     | Ok l => l
                     | Raise _ => []
                     end)) by (vm_compute; reflexivity).
  split; [exact H1|]. split; [exact H2|]. split; [exact H3|].
  exact (get_series_list_unmonitored_count (svc := service)
           None _ _ _ _ H1 H2 H3).
Defined.

(** *** Search *)

Lemma search_series_first_ten_witness :
  transport (fetch (py "series/lookup?term=" ++ quote (py "andor")))
    (answering [Ok (PList twelve_results)])
  = (Ok (PList twelve_results), answering [])
  /\ rmap lookup_info (firstn 10 twelve_results)
     = Ok (match rmap lookup_info (firstn 10 twelve_results) with
           | Ok l => l
           | Raise _ => []
           end)
  /\ (fst (run (search_series (py "andor"))
             (answering [Ok (PList twelve_results)]))
      = Ok (Success
              (obj [("search_term", VStr (py "andor"));
                    ("results_count",
                     VInt (Z.of_nat
                             (List.length
                                (match rmap lookup_info
                                         (firstn 10 twelve_results) with
                                 | Ok l => l
                                 | Raise _ => []
                                 end))));
                    ("results",
                     PList (match rmap lookup_info (firstn 10 twelve_results) with
                            | Ok l => l
                            | Raise _ => []
                            end))]))
      /\ List.length (match rmap lookup_info (firstn 10 twelve_results) with
                      | Ok l => l
                      | Raise _ => []
                      end)
         = Nat.min 10 (List.length twelve_results)).
Proof.
  assert (H1 : transport (fetch (py "series/lookup?term=" ++ quote (py "andor")))
                 (answering [Ok (PList twelve_results)])
               = (Ok (PList twelve_results), answering [])) by reflexivity.
  assert (H2 : rmap lookup_info (firstn 10 twelve_results)
               = Ok (match rmap lookup_info (firstn 10 twelve_results) with
                     | Ok l => l
                     | Raise _ => []
                     end)) by (vm_compute; reflexivity).
  split; [exact H1|]. split; [exact H2|].
  exact (search_series_first_ten (svc := service) _ _ _ _ _ H1 H2).
Defined.

(** Of twelve results ten are returned. *)
Example ten_of_twelve_results :
  subscript (data_of (fst (run (search_series (py "andor"))
                             (answering [Ok (PList twelve_results)]))))
    (AStr (py "results_count")) = Ok (VInt 10).
Proof. vm_compute. reflexivity. Qed.

(** *** History *)

Lemma get_history_counts_witness :
  requests (trace (snd (run (get_history (Some 3) (Some 2) None)
                          (answering [Ok a_history]))))
  = [fetch (py "history?page=3&pageSize=2&sortKey=date&sortDirection=descending")]
  /\ transport
       (fetch (py "history?page=3&pageSize=2&sortKey=date&sortDirection=descending"))
       (answering [Ok a_history])
     = (Ok a_history, answering [])
  /\ get_or a_history "records" (PList [])
     = Ok (PList [obj [("id", VInt 1); ("eventType", VStr (py "grabbed"))];
                  obj [("id", VInt 2)]])
  /\ rmap history_info [obj [("id", VInt 1); ("eventType", VStr (py "grabbed"))];
                        obj [("id", VInt 2)]]
     = Ok (match rmap history_info
                   [obj [("id", VInt 1); ("eventType", VStr (py "grabbed"))];
                    obj [("id", VInt 2)]] with
           | Ok l => l
           | Raise _ => []
           end)
  /\ exists total_records,
       get_or a_history "totalRecords" (VInt 0) = Ok total_records
       /\ fst (run (get_history (Some 3) (Some 2) None)
                 (answering [Ok a_history]))
          = Ok (Success
                  (obj [("page", opt_int (Some 3));
                        ("page_size", opt_int (Some 2));
                        ("total_records", total_records);
                        ("records_on_page",
                         VInt (Z.of_nat
                                 (List.length
                                    [obj [("id", VInt 1);
                                          ("eventType", VStr (py "grabbed"))];
                                     obj [("id", VInt 2)]])));
                        ("history",
                         PList (match rmap history_info
                                        [obj [("id", VInt 1);
                                              ("eventType", VStr (py "grabbed"))];
                                         obj [("id", VInt 2)]] with
                                | Ok l => l
                                | Raise _ => []
                                end))])).
Proof.
  assert (H1 : requests (trace (snd (run (get_history (Some 3) (Some 2) None)
                                       (answering [Ok a_history]))))
               = [fetch (py "history?page=3&pageSize=2&sortKey=date&sortDirection=descending")])
    by (vm_compute; reflexivity).
  assert (H2 : transport
                 (fetch (py "history?page=3&pageSize=2&sortKey=date&sortDirection=descending"))
                 (answering [Ok a_history])
               = (Ok a_history, answering [])) by reflexivity.
  assert (H3 : get_or a_history "records" (PList [])
               = Ok (PList [obj [("id", VInt 1);
                                 ("eventType", VStr (py "grabbed"))];
                            obj [("id", VInt 2)]])) by reflexivity.
  assert (H4 : rmap history_info
                 [obj [("id", VInt 1); ("eventType", VStr (py "grabbed"))];
                  obj [("id", VInt 2)]]
               = Ok (match rmap history_info
                             [obj [("id", VInt 1);
                                   ("eventType", VStr (py "grabbed"))];
                              obj [("id", VInt 2)]] with
                     | Ok l => l
                     | Raise _ => []
                     end)) by (vm_compute; reflexivity).
  split; [exact H1|]. split; [exact H2|]. split; [exact H3|].
  split; [exact H4|].
  exact (get_history_counts (svc := service) _ _ _ _ _ _ _ _ _ H1 H2 H3 H4).
Defined.

(** The page holds two records of 57; the page number is that of the call,
    2 here, though the response says 3. *)
Example history_page_of_the_call :
  subscript (data_of (fst (run (get_history (Some 2) (Some 2) None)
                             (answering [Ok a_history]))))
    (AStr (py "page")) = Ok (VInt 2)
  /\ subscript (data_of (fst (run (get_history (Some 2) (Some 2) None)
                                (answering [Ok a_history]))))
       (AStr (py "total_records")) = Ok (VInt 57)
  /\ subscript (data_of (fst (run (get_history (Some 2) (Some 2) None)
                                (answering [Ok a_history]))))
       (AStr (py "records_on_page")) = Ok (VInt 2).
Proof. repeat split; vm_compute; reflexivity. Qed.

(** A series id of 0 is left out of the request, as no series id is. *)
Example history_of_series_0 :
  List.map req_url
    (requests (trace (snd (run (get_history (Some 1) (Some 20) (Some 0))
                             (answering [])))))
  = [py "http://sonarr:8989/api/v3/history?page=1&pageSize=20&sortKey=date&sortDirection=descending"]
  /\ List.map req_url
       (requests (trace (snd (run (get_history (Some 1) (Some 20) (Some 7))
                                (answering [])))))
     = [py "http://sonarr:8989/api/v3/history?page=1&pageSize=20&sortKey=date&sortDirection=descending&seriesId=7"].
Proof. split; vm_compute; reflexivity. Qed.

(** *** Overviews and progress *)

Lemma overview_cut_is_bounded_witness :
  overview_cut 200 (a_series_with_overview 450)
  = Ok (match overview_cut 200 (a_series_with_overview 450) with
        | Ok v => v
        | Raise _ => VNone
        end)
  /\ exists r,
       match overview_cut 200 (a_series_with_overview 450) with
       | Ok v => v
       | Raise _ => VNone
       end = VStr r
       /\ (List.length r <= 200 + 3)%nat.
Proof.
  assert (H : overview_cut 200 (a_series_with_overview 450)
              = Ok (match overview_cut 200 (a_series_with_overview 450) with
                    | Ok v => v
                    | Raise _ => VNone
                    end)) by (vm_compute; reflexivity).
  split; [exact H|].
  exact (overview_cut_is_bounded _ _ _ H).
Defined.

Lemma get_series_details_overview_not_text_witness :
  transport (fetch (py "series/" ++ str_of_int 7))
    (answering [Ok a_series_with_null_overview])
  = (Ok a_series_with_null_overview, answering [])
  /\ lookup (AStr (py "overview"))
       [(AStr (py "id"), VInt 7); (AStr (py "title"), VStr (py "Andor"));
        (AStr (py "overview"), VNone)]
     = Some VNone
  /\ not_text VNone
  /\ fst (run (get_series_details 7)
            (answering [Ok a_series_with_null_overview]))
     = Ok (Error (StrOf TypeError)).
Proof.
  assert (H1 : transport (fetch (py "series/" ++ str_of_int 7))
                 (answering [Ok a_series_with_null_overview])
               = (Ok (PDict [(AStr (py "id"), VInt 7);
                             (AStr (py "title"), VStr (py "Andor"));
                             (AStr (py "overview"), VNone)]), answering []))
    by reflexivity.
  assert (H2 : lookup (AStr (py "overview"))
                 [(AStr (py "id"), VInt 7);
                  (AStr (py "title"), VStr (py "Andor"));
                  (AStr (py "overview"), VNone)]
               = Some VNone) by reflexivity.
  assert (H3 : not_text VNone) by exact I.
  split; [exact H1|]. split; [exact H2|]. split; [exact H3|].
  exact (get_series_details_overview_not_text (svc := service)
           _ _ _ _ _ H1 H2 H3).
Defined.

Lemma progress_of_finished_item_witness :
  get_or a_finished_item "sizeleft" (VInt 0) = Ok (VInt 0)
  /\ get_or a_finished_item "size" (VInt 1) = Ok (VInt 1500)
  /\ progress a_finished_item = Ok (VFloat 100).
Proof.
  assert (H1 : get_or a_finished_item "sizeleft" (VInt 0) = Ok (VInt 0))
    by reflexivity.
  assert (H2 : get_or a_finished_item "size" (VInt 1) = Ok (VInt 1500))
    by reflexivity.
  split; [exact H1|]. split; [exact H2|].
  exact (progress_of_finished_item _ _ H1 H2).
Defined.

(** A quarter left of the size is a progress of 75.0. *)
Example progress_of_a_record :
  progress (a_record 1 "downloading") = Ok (VFloat 75).
Proof. vm_compute. reflexivity. Qed.

(** *** The resources *)

Lemma get_series_poster_first_match_witness :
  transport (fetch (py "series/" ++ py "7"))
    (answering [Ok a_series_with_images])
  = (Ok a_series_with_images, answering [])
  /\ get_or a_series_with_images "images" (PList [])
     = Ok (PList ([a_banner] ++ a_poster :: [VInt 0]))
  /\ Forall (fun image => is_document image /\ is_poster image = false)
       [a_banner]
  /\ is_document a_poster
  /\ is_poster a_poster = true
  /\ fst (run (get_series_poster (py "7"))
            (answering [Ok a_series_with_images]))
     = Ok (Text (SONARR_URL ++ str_ (field a_poster "url"))).
Proof.
  assert (H1 : transport (fetch (py "series/" ++ py "7"))
                 (answering [Ok a_series_with_images])
               = (Ok a_series_with_images, answering [])) by reflexivity.
  assert (H2 : get_or a_series_with_images "images" (PList [])
               = Ok (PList ([a_banner] ++ a_poster :: [VInt 0])))
    by reflexivity.
  assert (H3 : Forall (fun image => is_document image
                                    /\ is_poster image = false) [a_banner])
    by (repeat constructor; eexists; reflexivity).
  assert (H4 : is_document a_poster) by (eexists; reflexivity).
  assert (H5 : is_poster a_poster = true) by reflexivity.
  split; [exact H1|]. split; [exact H2|]. split; [exact H3|].
  split; [exact H4|]. split; [exact H5|].
  exact (get_series_poster_first_match (svc := service)
           _ _ _ _ _ _ _ H1 H2 H3 H4 H5).
Defined.

(** The URL of that poster: the configured URL has lost its slash. *)
Example poster_of_series_7 :
  fst (run (get_series_poster (py "7")) (answering [Ok a_series_with_images]))
  = Ok (Text (py "http://sonarr:8989/MediaCover/7/poster.jpg")).
Proof. vm_compute. reflexivity. Qed.

Lemma get_series_poster_none_witness :
  transport (fetch (py "series/" ++ py "7"))
    (answering [Ok (a_series 7 "Andor" true)])
  = (Ok (a_series 7 "Andor" true), answering [])
  /\ get_or (a_series 7 "Andor" true) "images" (PList []) = Ok (PList [])
  /\ Forall (fun image => is_document image /\ is_poster image = false) []
  /\ fst (run (get_series_poster (py "7"))
            (answering [Ok (a_series 7 "Andor" true)]))
     = Ok (Text (py "No poster image found for series " ++ py "7")).
Proof.
  assert (H1 : transport (fetch (py "series/" ++ py "7"))
                 (answering [Ok (a_series 7 "Andor" true)])
               = (Ok (a_series 7 "Andor" true), answering []))
    by reflexivity.
  assert (H2 : get_or (a_series 7 "Andor" true) "images" (PList [])
               = Ok (PList [])) by reflexivity.
  assert (H3 : Forall (fun image => is_document image
                                    /\ is_poster image = false) [])
    by constructor.
  split; [exact H1|]. split; [exact H2|]. split; [exact H3|].
  exact (get_series_poster_none (svc := service) _ _ _ _ _ H1 H2 H3).
Defined.

Lemma get_episode_details_sections_witness :
  transport (fetch (py "episode/" ++ py "11")) (answering [Ok an_episode])
  = (Ok an_episode, answering [])
  /\ episode_details an_episode
     = Ok (match episode_details an_episode with
           | Ok v => v
           | Raise _ => VNone
           end)
  /\ (fst (run (get_episode_details (py "11")) (answering [Ok an_episode]))
      = Ok (Dumped (match episode_details an_episode with
                    | Ok v => v
                    | Raise _ => VNone
                    end))
      /\ exists sections,
           match episode_details an_episode with
           | Ok v => v
           | Raise _ => VNone
           end = PDict sections
           /\ List.map fst sections
              = [AStr (py "episode_info"); AStr (py "series_info")]
                ++ (if truthy (field an_episode "episodeFile")
                    then [AStr (py "file_info")] else [])).
Proof.
  assert (H1 : transport (fetch (py "episode/" ++ py "11"))
                 (answering [Ok an_episode])
               = (Ok an_episode, answering [])) by reflexivity.
  assert (H2 : episode_details an_episode
               = Ok (match episode_details an_episode with
                     | Ok v => v
                     | Raise _ => VNone
                     end)) by (vm_compute; reflexivity).
  split; [exact H1|]. split; [exact H2|].
  exact (get_episode_details_sections (svc := service) (py "11")
           _ _ _ (answering []) H1 H2).
Defined.

(** An [episodeFile] that is true and is no document is an error. *)
Example episode_with_a_file_that_is_a_number :
  fst (run (get_episode_details (py "11"))
         (answering [Ok (obj [("id", VInt 11); ("episodeFile", VInt 5)])]))
  = Ok (Failure (py "Error retrieving episode details: ")
          (StrOf AttributeError)).
Proof. vm_compute. reflexivity. Qed.

(** *** The commands *)

Lemma trigger_series_search_result_witness :
  transport (request_of POST (py "command")
               (Some (obj [("name", VStr (py "SeriesSearch"));
                           ("seriesId", VInt 7)])))
    (answering [Ok a_command])
  = (Ok a_command, answering [])
  /\ is_document a_command
  /\ fst (run (trigger_series_search 7) (answering [Ok a_command]))
     = Ok (Success
             (obj [("command_id", field a_command "id");
                   ("command_name", field a_command "name");
                   ("series_id", VInt 7);
                   ("status", field a_command "status");
                   ("queued_at", field a_command "queued");
                   ("message",
                    VStr (py "Search command queued for series ID "
                          ++ str_of_int 7))])).
Proof.
  assert (H1 : transport (request_of POST (py "command")
                            (Some (obj [("name", VStr (py "SeriesSearch"));
                                        ("seriesId", VInt 7)])))
                 (answering [Ok a_command])
               = (Ok a_command, answering [])) by reflexivity.
  assert (H2 : is_document a_command) by (eexists; reflexivity).
  split; [exact H1|]. split; [exact H2|].
  exact (trigger_series_search_result (svc := service) _ _ _ _ H1 H2).
Defined.

Lemma get_system_status_health_witness :
  one_after_the_other (api_get (py "system/status")) (api_get (py "health"))
    {| outside := answering [Ok a_status; Ok (PList [an_issue])];
       trace := [Logged INFO "Getting system status and health" []] |}
  = (Ok (a_status, PList [an_issue]),
     snd (one_after_the_other (api_get (py "system/status"))
            (api_get (py "health"))
            {| outside := answering [Ok a_status; Ok (PList [an_issue])];
               trace := [Logged INFO "Getting system status and health" []] |}))
  /\ is_document a_status
  /\ Forall is_document [an_issue]
  /\ exists system,
       system_info a_status = Ok system
       /\ fst (run (get_system_status one_after_the_other)
                 (answering [Ok a_status; Ok (PList [an_issue])]))
          = Ok (Success
                  (obj [("system", system);
                        ("health",
                         obj [("total_issues",
                               VInt (Z.of_nat (List.length [an_issue])));
                              ("issues",
                               PList (List.map
                                        (fun issue =>
                                           obj [("type", field issue "type");
                                                ("message", field issue "message");
                                                ("wiki_url", field issue "wikiUrl")])
                                        [an_issue]));
                              ("status",
                               VStr (match [an_issue] with
                                     | [] => py "healthy"
                                     | _ :: _ => py "has_issues"
                                     end))])])).
Proof.
  assert (H1 : one_after_the_other (api_get (py "system/status"))
                 (api_get (py "health"))
                 {| outside := answering [Ok a_status; Ok (PList [an_issue])];
                    trace := [Logged INFO "Getting system status and health" []] |}
               = (Ok (a_status, PList [an_issue]),
                  snd (one_after_the_other (api_get (py "system/status"))
                         (api_get (py "health"))
                         {| outside := answering [Ok a_status;
                                                  Ok (PList [an_issue])];
                            trace := [Logged INFO
                                        "Getting system status and health" []] |})))
    by (vm_compute; reflexivity).
  assert (H2 : is_document a_status) by (eexists; reflexivity).
  assert (H3 : Forall is_document [an_issue])
    by (repeat constructor; eexists; reflexivity).
  split; [exact H1|]. split; [exact H2|]. split; [exact H3|].
  exact (get_system_status_health (svc := service) _ _ _ _ _ H1 H2 H3).
Defined.

(** Without an issue the system is healthy. *)
Example a_healthy_system :
  subscript (data_of (fst (run (get_system_status one_after_the_other)
                             (answering [Ok a_status; Ok (PList [])]))))
    (AStr (py "health"))
  = Ok (obj [("total_issues", VInt 0);
             ("issues", PList []);
             ("status", VStr (py "healthy"))]).
Proof. vm_compute. reflexivity. Qed.

Lemma add_series_defaults_witness :
  transport (fetch (py "rootfolder"))
    (answering [Ok (PList [a_root_folder]); Ok (PList [a_quality_profile]);
                Ok (PList [a_found_series]); Ok a_created_series])
  = (Ok (PList (a_root_folder :: [])),
     answering [Ok (PList [a_quality_profile]);
                Ok (PList [a_found_series]); Ok a_created_series])
  /\ subscript a_root_folder (AStr (py "path")) = Ok (VStr (py "/tv"))
  /\ transport (fetch (py "qualityprofile"))
       (answering [Ok (PList [a_quality_profile]);
                   Ok (PList [a_found_series]); Ok a_created_series])
     = (Ok (PList (a_quality_profile :: [])),
        answering [Ok (PList [a_found_series]); Ok a_created_series])
  /\ subscript a_quality_profile (AStr (py "id")) = Ok (VInt 4)
  /\ (fst (run (add_series 393189 (py "Andor") None None (Some true))
             (answering [Ok (PList [a_root_folder]);
                         Ok (PList [a_quality_profile]);
                         Ok (PList [a_found_series]); Ok a_created_series]))
      = fst (run (add_series 393189 (py "Andor") (Some (py "/tv")) (Some 4)
                    (Some true))
               (answering [Ok (PList [a_found_series]); Ok a_created_series]))
      /\ requests (trace (snd (run (add_series 393189 (py "Andor") None None
                                      (Some true))
                                 (answering [Ok (PList [a_root_folder]);
                                             Ok (PList [a_quality_profile]);
                                             Ok (PList [a_found_series]);
                                             Ok a_created_series]))))
         = [fetch (py "rootfolder"); fetch (py "qualityprofile")]
           ++ requests (trace (snd (run (add_series 393189 (py "Andor")
                                           (Some (py "/tv")) (Some 4)
                                           (Some true))
                                      (answering [Ok (PList [a_found_series]);
                                                  Ok a_created_series]))))).
Proof.
  assert (H1 : transport (fetch (py "rootfolder"))
                 (answering [Ok (PList [a_root_folder]);
                             Ok (PList [a_quality_profile]);
                             Ok (PList [a_found_series]); Ok a_created_series])
               = (Ok (PList (a_root_folder :: [])),
                  answering [Ok (PList [a_quality_profile]);
                             Ok (PList [a_found_series]); Ok a_created_series]))
    by reflexivity.
  assert (H2 : subscript a_root_folder (AStr (py "path"))
               = Ok (VStr (py "/tv"))) by reflexivity.
  assert (H3 : transport (fetch (py "qualityprofile"))
                 (answering [Ok (PList [a_quality_profile]);
                             Ok (PList [a_found_series]); Ok a_created_series])
               = (Ok (PList (a_quality_profile :: [])),
                  answering [Ok (PList [a_found_series]); Ok a_created_series]))
    by reflexivity.
  assert (H4 : subscript a_quality_profile (AStr (py "id")) = Ok (VInt 4))
    by reflexivity.
  split; [exact H1|]. split; [exact H2|]. split; [exact H3|].
  split; [exact H4|].
  exact (add_series_defaults (svc := service) 393189 (py "Andor") (Some true)
           _ _ _ _ _ _ _ _ _ H1 H2 H3 H4).
Defined.

Lemma add_series_creates_witness :
  transport (fetch (py "series/lookup?term=tvdb:" ++ str_of_int 393189))
    (answering [Ok (PList [a_found_series]); Ok a_created_series])
  = (Ok (PList (a_found_series :: [])), answering [Ok a_created_series])
  /\ is_document a_found_series
  /\ a_create_body
     = obj [("title", field_or a_found_series "title" (VStr (py "Andor (2022)")));
            ("qualityProfileId", VInt 4);
            ("languageProfileId", VInt 1);
            ("rootFolderPath", VStr (py "/tv"));
            ("monitored", opt_bool (Some true));
            ("addOptions",
             obj [("monitor", VStr (py "all"));
                  ("searchForMissingEpisodes", VBool true)]);
            ("tvdbId", VInt 393189);
            ("titleSlug", field a_found_series "titleSlug");
            ("images", field_or a_found_series "images" (PList []));
            ("seasons", field_or a_found_series "seasons" (PList []))]
  /\ transport (request_of POST (py "series") (Some a_create_body))
       (answering [Ok a_created_series])
     = (Ok a_created_series, answering [])
  /\ is_document a_created_series
  /\ len (field_or a_created_series "seasons" (PList [])) = Ok 1
  /\ (fst (run (add_series 393189 (py "Andor (2022)") (Some (py "/tv")) (Some 4)
                  (Some true))
             (answering [Ok (PList [a_found_series]); Ok a_created_series]))
      = Ok (Success
              (obj [("added_series",
                     obj [("id", field a_created_series "id");
                          ("title", field a_created_series "title");
                          ("tvdb_id", field a_created_series "tvdbId");
                          ("path", field a_created_series "path");
                          ("monitored", field a_created_series "monitored");
                          ("quality_profile_id",
                           field a_created_series "qualityProfileId");
                          ("seasons", VInt 1)]);
                    ("message",
                     VStr (py "Successfully added '"
                           ++ str_ (field a_created_series "title")
                           ++ py "' to Sonarr"))]))
      /\ requests (trace (snd (run (add_series 393189 (py "Andor (2022)")
                                      (Some (py "/tv")) (Some 4) (Some true))
                                 (answering [Ok (PList [a_found_series]);
                                             Ok a_created_series]))))
         = [fetch (py "series/lookup?term=tvdb:" ++ str_of_int 393189);
            request_of POST (py "series") (Some a_create_body)]).
Proof.
  assert (H1 : transport
                 (fetch (py "series/lookup?term=tvdb:" ++ str_of_int 393189))
                 (answering [Ok (PList [a_found_series]); Ok a_created_series])
               = (Ok (PList (a_found_series :: [])),
                  answering [Ok a_created_series])) by reflexivity.
  assert (H2 : is_document a_found_series) by (eexists; reflexivity).
  assert (H3 : a_create_body
               = obj [("title", field_or a_found_series "title"
                                  (VStr (py "Andor (2022)")));
                      ("qualityProfileId", VInt 4);
                      ("languageProfileId", VInt 1);
                      ("rootFolderPath", VStr (py "/tv"));
                      ("monitored", opt_bool (Some true));
                      ("addOptions",
                       obj [("monitor", VStr (py "all"));
                            ("searchForMissingEpisodes", VBool true)]);
                      ("tvdbId", VInt 393189);
                      ("titleSlug", field a_found_series "titleSlug");
                      ("images", field_or a_found_series "images" (PList []));
                      ("seasons", field_or a_found_series "seasons" (PList []))])
    by reflexivity.
  assert (H4 : transport (request_of POST (py "series") (Some a_create_body))
                 (answering [Ok a_created_series])
               = (Ok a_created_series, answering [])) by reflexivity.
  assert (H5 : is_document a_created_series) by (eexists; reflexivity).
  assert (H6 : len (field_or a_created_series "seasons" (PList [])) = Ok 1)
    by reflexivity.
  split; [exact H1|]. split; [exact H2|]. split; [exact H3|].
  split; [exact H4|]. split; [exact H5|]. split; [exact H6|].
  exact (add_series_creates (svc := service) 393189 (py "Andor (2022)")
           (py "/tv") 4 (Some true) _ _ _ _ _ _ _ _ H1 H2 H3 H4 H5 H6).
Defined.

(** *** The calendar *)

Lemma get_calendar_counts_witness :
  In (fetch (calendar_endpoint (py "2024-03-03") (py "2024-04-09") None),
      Ok (PList a_calendar_with_files))
    (exchanges (trace (snd (run (get_calendar None None None)
                              (answering [Ok (PList a_calendar_with_files)])))))
  /\ Forall has_air_date a_calendar_with_files
  /\ rmap episode_info a_calendar_with_files
     = Ok (match rmap episode_info a_calendar_with_files with
           | Ok l => l
           | Raise _ => []
           end)
  /\ exists data by_date,
       fst (run (get_calendar None None None)
              (answering [Ok (PList a_calendar_with_files)]))
       = Ok (Success data)
       /\ subscript data (AStr (py "total_episodes"))
          = Ok (VInt (Z.of_nat (List.length a_calendar_with_files)))
       /\ subscript data (AStr (py "episodes_by_date")) = Ok (PDict by_date)
       /\ sizes by_date = List.length a_calendar_with_files
       /\ subscript data (AStr (py "episodes_with_files"))
          = Ok (VInt (Z.of_nat (List.length (List.filter has_file a_calendar_with_files))))
       /\ (List.length (List.filter has_file a_calendar_with_files)
           <= List.length a_calendar_with_files)%nat.
Proof.
  assert (H1 : In (fetch (calendar_endpoint (py "2024-03-03")
                            (py "2024-04-09") None),
                   Ok (PList a_calendar_with_files))
                 (exchanges (trace (snd (run (get_calendar None None None)
                                           (answering [Ok (PList a_calendar_with_files)]))))))
    by (vm_compute; left; reflexivity).
  assert (H2 : Forall has_air_date a_calendar_with_files)
    by (repeat constructor; eexists; reflexivity).
  assert (H3 : rmap episode_info a_calendar_with_files
               = Ok (match rmap episode_info a_calendar_with_files with
                     | Ok l => l
                     | Raise _ => []
                     end)) by (vm_compute; reflexivity).
  split; [exact H1|]. split; [exact H2|]. split; [exact H3|].
  exact (get_calendar_counts (svc := service) None None None
           _ _ _ _ H1 H2 H3).
Defined.

(** Of the three entries two have a file. *)
Example calendar_with_two_files :
  subscript (data_of (fst (calendar_of a_calendar_with_files)))
    (AStr (py "total_episodes")) = Ok (VInt 3)
  /\ subscript (data_of (fst (calendar_of a_calendar_with_files)))
       (AStr (py "episodes_with_files")) = Ok (VInt 2).
Proof. split; vm_compute; reflexivity. Qed.

(** The three entries of the calendar are in two groups. *)
Example groups_of_the_calendar :
  exists by_date,
    subscript (data_of (fst (calendar_of a_calendar)))
      (AStr (py "episodes_by_date")) = Ok (PDict by_date)
    /\ List.map (fun kv => (fst kv, size_of (snd kv))) by_date
       = [(AStr (py "2024-03-11"), 1%nat); (AStr (py "2024-03-12"), 2%nat)].
Proof. eexists. split; vm_compute; reflexivity. Qed.

End MoreExamples.
